(** * salttesting.case: the shell runner and the stalled-job reconciler

    A shallow embedding of [salttesting/case.py]:
    - [ShellTestCase.get_script_path] and [ShellTestCase.run_script], over an
      explicit operating-system environment (file system node, clock readings,
      child status, signal delivery) and an explicit state (the [Popen]
      object and the log of system calls);
    - [STATE_FUNCTION_RUNNING_RE], as a greedy backtracking matcher;
    - [ModuleCase.run_function] and [ModuleCase._check_state_return], over a
      salt client oracle.

    Strings are [string] (byte strings), integers are [Z], the statuses and
    [timeout] that may be [None] are [option Z]. *)

From Stdlib Require Import String Ascii List ZArith Bool Lia Arith.
From Stdlib Require Import DecimalString.
Import ListNotations.
Open Scope string_scope.

(** ** Python values and string helpers *)

Module Py.

(** The Python values that flow through the functions modelled here. A
    [PDict] keeps its items as an association list. *)
#[warnings="-register-all"]
Inductive pyval : Type :=
| PNone
| PBool (b : bool)
| PInt (z : Z)
| PStr (s : string)
| PList (l : list pyval)
| PDict (d : list (string * pyval)).

(** Truth value of [if x:]. *)
Definition truthy (v : pyval) : bool :=
  match v with
  | PNone => false
  | PBool b => b
  | PInt z => negb (Z.eqb z 0)
  | PStr s => negb (String.eqb s EmptyString)
  | PList l => match l with [] => false | _ => true end
  | PDict d => match d with [] => false | _ => true end
  end.

(** [x is True]. *)
Definition is_True (v : pyval) : bool :=
  match v with PBool true => true | _ => false end.

(** ['{0}'.format(n)] for an integer. *)
Definition format_int (z : Z) : string := NilZero.string_of_int (Z.to_int z).

Definition LF : ascii := ascii_of_nat 10.
Definition CR : ascii := ascii_of_nat 13.
Definition DQUOTE : ascii := ascii_of_nat 34.
Definition SQUOTE : ascii := ascii_of_nat 39.

Definition rev_string (cur : list ascii) : string :=
  string_of_list_ascii (rev cur).

(** [str.splitlines()]: lines end at LF, CR or CR LF; the terminators are
    dropped and a terminator at the very end opens no further line. [cur] is
    the current line, reversed. *)
Fixpoint splitlines_from (cur : list ascii) (s : string) : list string :=
  match s with
  | EmptyString => match cur with [] => [] | _ => [rev_string cur] end
  | String c rest =>
      if Ascii.eqb c LF then rev_string cur :: splitlines_from [] rest
      else if Ascii.eqb c CR then
        match rest with
        | String c' rest' =>
            if Ascii.eqb c' LF then rev_string cur :: splitlines_from [] rest'
            else rev_string cur :: splitlines_from [] rest
        | EmptyString => rev_string cur :: splitlines_from [] rest
        end
      else splitlines_from (c :: cur) rest
  end.

Definition splitlines (s : string) : list string := splitlines_from [] s.

(** [':'.join(l)] and the like. *)
Fixpoint join (sep : string) (l : list string) : string :=
  match l with
  | [] => EmptyString
  | [x] => x
  | x :: rest => x ++ sep ++ join sep rest
  end.

(** [sub in s]. *)
Definition contains (sub s : string) : Prop :=
  exists pre post, s = pre ++ sub ++ post.

End Py.
Export Py.

(** ** The marker-line pattern *)

Module Marker.

(** The pieces [STATE_FUNCTION_RUNNING_RE] is made of. *)
Inductive atom : Type :=
| Lit (s : string)            (* literal text *)
| Quote                       (* either quote character *)
| AnyStar (name : string)     (* named group, any characters but line feed, greedy *)
| Digits (name : string).     (* named group, one or more digits, greedy *)

Definition groups := list (string * string).

Definition is_digit (c : ascii) : bool :=
  let n := nat_of_ascii c in Nat.leb 48 n && Nat.leb n 57.

Definition is_quote (c : ascii) : bool :=
  Ascii.eqb c DQUOTE || Ascii.eqb c SQUOTE.

Fixpoint strip_prefix (p s : string) : option string :=
  match p with
  | EmptyString => Some s
  | String a p' =>
      match s with
      | String b s' => if Ascii.eqb a b then strip_prefix p' s' else None
      | EmptyString => None
      end
  end.

(** Greedy repetition with backtracking: consume as many characters accepted
    by [ok] as possible, then give back one at a time until the continuation
    [k] (the rest of the pattern) matches. [allow_empty] tells whether the empty
    repetition is allowed. The captured text comes back with the groups. *)
Fixpoint greedy (ok : ascii -> bool) (k : string -> option groups)
    (allow_empty : bool) (s : string) : option (string * groups) :=
  let stop :=
    if allow_empty then
      match k s with Some g => Some (EmptyString, g) | None => None end
    else None in
  match s with
  | EmptyString => stop
  | String c rest =>
      if ok c then
        match greedy ok k true rest with
        | Some (cap, g) => Some (String c cap, g)
        | None => stop
        end
      else stop
  end.

(** [re.match]: anchored at the start of the string, free at its end. *)
Fixpoint match_atoms (atoms : list atom) (s : string) : option groups :=
  match atoms with
  | [] => Some []
  | Lit l :: more =>
      match strip_prefix l s with
      | Some s' => match_atoms more s'
      | None => None
      end
  | Quote :: more =>
      match s with
      | String c s' => if is_quote c then match_atoms more s' else None
      | EmptyString => None
      end
  | AnyStar name :: more =>
      match greedy (fun c => negb (Ascii.eqb c LF)) (match_atoms more) true s with
      | Some (cap, g) => Some ((name, cap) :: g)
      | None => None
      end
  | Digits name :: more =>
      match greedy is_digit (match_atoms more) false s with
      | Some (cap, g) => Some ((name, cap) :: g)
      | None => None
      end
  end.

Definition STATE_FUNCTION_RUNNING_RE : list atom :=
  [ Lit "The function "; Quote; AnyStar "state_func"; Quote;
    Lit " is running as PID "; Digits "pid";
    Lit " and was started at "; AnyStar "date";
    Lit " with jid "; Digits "jid" ].

Fixpoint group (name : string) (g : groups) : string :=
  match g with
  | [] => EmptyString
  | (n, v) :: more => if String.eqb n name then v else group name more
  end.

(** [STATE_FUNCTION_RUNNING_RE.match(item)] followed by
    [match.group('jid')]. *)
Definition marker_jid (item : string) : option string :=
  match match_atoms STATE_FUNCTION_RUNNING_RE item with
  | Some g => Some (group "jid" g)
  | None => None
  end.

End Marker.

(** ** State and exceptions *)

Module Eff.

(** The exceptions that cross the functions modelled here. *)
Inductive exn : Type :=
| RuntimeError (msg : string)
| OSError (errno : Z)
| IOError (errno : Z)
| AttributeError
| SkipTest (msg : string).

(** How a call ends: with a value, with an exception, or (in this model only)
    with the iteration budget used up. *)
Inductive result (A : Type) : Type :=
| Ok (a : A)
| Raise (e : exn)
| OutOfFuel.
Arguments Ok {A} a.
Arguments Raise {A} e.
Arguments OutOfFuel {A}.

Definition M (S A : Type) : Type := S -> result A * S.

Definition ret {S A} (a : A) : M S A := fun st => (Ok a, st).

Definition bind {S A B} (m : M S A) (k : A -> M S B) : M S B :=
  fun st =>
    match m st with
    | (Ok a, st') => k a st'
    | (Raise e, st') => (Raise e, st')
    | (OutOfFuel, st') => (OutOfFuel, st')
    end.

Definition raise {S A} (e : exn) : M S A := fun st => (Raise e, st).
Definition out_of_fuel {S A} : M S A := fun st => (OutOfFuel, st).
Definition get {S} : M S S := fun st => (Ok st, st).
Definition modify {S} (f : S -> S) : M S unit := fun st => (Ok tt, f st).

(** [try: body except ...: handler]; the handler re-raises what it does not
    catch. *)
Definition try_except {S A} (body : M S A) (handler : exn -> M S A) : M S A :=
  fun st =>
    match body st with
    | (Raise e, st') => handler e st'
    | r => r
    end.

(** [try: body finally: fin]: [fin] runs however [body] ends, and what [body]
    produced stands unless [fin] itself raises. *)
Definition try_finally {S A} (body : M S A) (fin : M S unit) : M S A :=
  fun st =>
    match body st with
    | (r, st') =>
        match fin st' with
        | (Ok _, st'') => (r, st'')
        | (Raise e, st'') => (Raise e, st'')
        | (OutOfFuel, st'') => (OutOfFuel, st'')
        end
    end.

End Eff.
Export Eff.

Declare Scope eff_scope.
Delimit Scope eff_scope with eff.
Notation "x <- c ;; k" := (bind c (fun x => k))
  (at level 61, c at next level, right associativity) : eff_scope.
Notation "c ;; k" := (bind c (fun _ => k))
  (at level 61, right associativity) : eff_scope.
Open Scope eff_scope.

(** ** ShellTestCase *)

Module Shell.

(** What a path of the file system holds. [Special] stands for a node that
    can be opened for writing but is neither a regular file nor a directory
    (a character device, say). *)
Inductive node : Type := Absent | Regular | Directory | Special.

Inductive signal : Type := SIGINT | SIGKILL.

Inductive stream : Type := Stdout | Stderr.

(** A stream attribute of the [Popen] object: [None] when the stream was not
    redirected, else a file object, open or closed. *)
Inductive handle : Type := NoPipe | Open | Closed.

(** The calls that reach the operating system, in the order they are made. *)
Inductive event : Type :=
| EvMakedirs (path : string)
| EvGenerate (path : string) (template : string)
| EvSpawn (cmd : string) (stderr_pipe : bool) (own_group : bool)
| EvPoll
| EvKillpg (sig : signal)
| EvWait
| EvRead (s : stream)
| EvCommunicate
| EvClose (s : stream)
| EvTerminate.

(** What [run_script] returns: [out] and [err] are lists of lines or one
    blob (or [None], for a stream that was not read), the exit code is
    [process.returncode], which may be [None]. *)
Inductive output : Type :=
| Lines (l : list string)
| Blob (s : string)
| Nothing.                     (* Python None *)

Inductive rvalue : Type :=
| RFalse
| ROut (out : output)
| ROutCode (out : output) (code : option Z)
| ROutErr (out err : output)
| ROutErrCode (out err : output) (code : option Z).

(** Everything [run_script] reads from outside: module constants, the
    interpreter, and how the operating system and the child answer. *)
Record Env : Type := {
  TMP_SCRIPT_DIR : string;            (* RUNTIME_VARS.TMP_SCRIPT_DIR *)
  environ_PYTHONPATH : option string; (* os.environ.get('PYTHONPATH', None) *)
  sys_path : list string;
  version_info : Z * Z;               (* major, minor *)
  sys_platform : string;
  makedirs_errno : string -> option Z;
    (* os.makedirs(path) raising OSError for a reason the table of paths
       does not show: a parent that is no directory (20), a permission
       that is missing (13), ... *)
  fopen_errno : string -> option Z;
    (* salt.utils.fopen(path, 'w') raising IOError likewise: the parent
       directory missing (2), a permission that is missing (13), ... *)
  popen_errno : option Z;             (* subprocess.Popen raising OSError *)
  now : nat -> Z;                     (* k-th datetime.now(), in microseconds *)
  waitpid : nat -> option Z;          (* what the k-th poll() finds *)
  wait_status : Z;                    (* what a blocking wait finds *)
  killpg_errno : signal -> option Z;  (* os.killpg(os.getpgid(pid), sig) raising OSError *)
  stdout_data : string;
  stderr_data : string;
  terminate_errno : option Z          (* process.terminate() raising OSError *)
}.

Record Popen : Type := {
  returncode : option Z;
  stdout : handle;
  stderr : handle
}.

Record State : Type := {
  fs : list (string * node);
  process : option Popen;
  polls : nat;        (* poll() calls made so far *)
  clock_reads : nat;  (* datetime.now() calls made so far *)
  log : list event
}.

Definition initial_state (files : list (string * node)) : State :=
  {| fs := files; process := None; polls := 0; clock_reads := 0; log := [] |}.

(** The arguments of [run_script]. The two flags are Python values: the code
    tests [catch_stderr is True] in one place and its truth value in others. *)
Record Args : Type := {
  script : string;
  arg_str : string;
  catch_stderr : pyval;
  with_retcode : pyval;
  timeout : option Z;
  raw : pyval
}.

(** *** File system *)

Fixpoint lookup (path : string) (files : list (string * node)) : node :=
  match files with
  | [] => Absent
  | (p, n) :: more => if String.eqb p path then n else lookup path more
  end.

Definition os_path_isdir (path : string) : M State bool :=
  st <- get ;;
  ret (match lookup path (fs st) with Directory => true | _ => false end).

Definition os_path_isfile (path : string) : M State bool :=
  st <- get ;;
  ret (match lookup path (fs st) with Regular => true | _ => false end).

Definition set_node (path : string) (n : node) : M State unit :=
  modify (fun st => {| fs := (path, n) :: fs st; process := process st;
                       polls := polls st; clock_reads := clock_reads st;
                       log := log st |}).

Definition emit (e : event) : M State unit :=
  modify (fun st => {| fs := fs st; process := process st;
                       polls := polls st; clock_reads := clock_reads st;
                       log := log st ++ [e] |}).

Definition ends_with_slash (s : string) : bool :=
  match rev (list_ascii_of_string s) with
  | c :: _ => Ascii.eqb c "/"%char
  | [] => false
  end.

(** [os.path.join(a, b)]. *)
Definition os_path_join (a b : string) : string :=
  match b with
  | String "/"%char _ => b
  | _ => if String.eqb a EmptyString || ends_with_slash a then a ++ b
         else a ++ "/" ++ b
  end.

(** [os.makedirs(path)]: fails with the error the system decides on
    ([makedirs_errno]); otherwise with errno 17 (file exists) when the table
    shows the path taken, by a directory or by something else; otherwise
    the directory is made. *)
Definition os_makedirs (env : Env) (path : string) : M State unit :=
  emit (EvMakedirs path) ;;
  match makedirs_errno env path with
  | Some e => raise (OSError e)
  | None =>
      st <- get ;;
      match lookup path (fs st) with
      | Absent => set_node path Directory
      | _ => raise (OSError 17)
      end
  end.

(** The keys of [SCRIPT_TEMPLATES]. *)
Definition SCRIPT_TEMPLATES : list string := ["salt"; "salt-api"; "common"].

Definition SCRIPT_TEMPLATES_get (key : string) : option string :=
  if existsb (String.eqb key) SCRIPT_TEMPLATES then Some key else None.

(** [with salt.utils.fopen(script_path, 'w') as sfh: ... sfh.write(...)]:
    the opening fails with the error the system decides on ([fopen_errno]);
    otherwise it fails on a directory (errno 21, is a directory), creates a
    regular file where there was nothing, and leaves a special file what it
    is. The text written is not kept, only which template it came from. *)
Definition write_script (env : Env) (self_name script_path script_name : string)
  : M State unit :=
  match fopen_errno env script_path with
  | Some e => raise (IOError e)
  | None =>
      st <- get ;;
      match lookup script_path (fs st) with
      | Directory => raise (IOError 21)
      | n =>
          match n with Absent => set_node script_path Regular | _ => ret tt end ;;
          let script_template :=
            match SCRIPT_TEMPLATES_get script_name with
            | Some t => Some t
            | None => SCRIPT_TEMPLATES_get "common"
            end in
          match script_template with
          | None =>
              raise (RuntimeError (self_name ++ " does not know how to handle the "
                                   ++ script_name ++ " script"))
          | Some t => emit (EvGenerate script_path t)
          end
      end
  end.

Definition get_script_path (env : Env) (script_name : string) : M State string :=
  isdir <- os_path_isdir (TMP_SCRIPT_DIR env) ;;
  (if negb isdir then os_makedirs env (TMP_SCRIPT_DIR env) else ret tt) ;;
  let script_path := os_path_join (TMP_SCRIPT_DIR env) script_name in
  isfile <- os_path_isfile script_path ;;
  (if negb isfile then write_script env "ShellTestCase" script_path script_name
   else ret tt) ;;
  ret script_path.

(** *** The child process *)

Definition set_process (p : Popen) : M State unit :=
  modify (fun st => {| fs := fs st; process := Some p; polls := polls st;
                       clock_reads := clock_reads st; log := log st |}).

(** The [Popen] object; reading an attribute of a process that was never
    created cannot happen in [run_script]. *)
Definition the_process : M State Popen :=
  st <- get ;;
  match process st with
  | Some p => ret p
  | None => raise AttributeError
  end.

(** [subprocess.Popen(cmd, **popen_kwargs)]: stdout is always a pipe, stderr
    only when asked for. *)
Definition subprocess_Popen (env : Env) (cmd : string)
    (stderr_pipe own_group : bool) : M State unit :=
  emit (EvSpawn cmd stderr_pipe own_group) ;;
  match popen_errno env with
  | Some e => raise (OSError e)
  | None =>
      set_process {| returncode := None; stdout := Open;
                     stderr := if stderr_pipe then Open else NoPipe |}
  end.

(** [process.poll()]: asks the system once unless the status is known. *)
Definition process_poll (env : Env) : M State unit :=
  emit EvPoll ;;
  p <- the_process ;;
  modify (fun st => {| fs := fs st;
                       process := Some {| returncode :=
                                            match returncode p with
                                            | Some c => Some c
                                            | None => waitpid env (polls st)
                                            end;
                                          stdout := stdout p;
                                          stderr := stderr p |};
                       polls := S (polls st);
                       clock_reads := clock_reads st; log := log st |}).

(** [process.wait()]: blocks until the status is known. *)
Definition process_wait (env : Env) : M State unit :=
  emit EvWait ;;
  p <- the_process ;;
  set_process {| returncode := match returncode p with
                               | Some c => Some c
                               | None => Some (wait_status env)
                               end;
                 stdout := stdout p; stderr := stderr p |}.

Definition get_handle (s : stream) (p : Popen) : handle :=
  match s with Stdout => stdout p | Stderr => stderr p end.

Definition set_handle (s : stream) (h : handle) (p : Popen) : Popen :=
  match s with
  | Stdout => {| returncode := returncode p; stdout := h; stderr := stderr p |}
  | Stderr => {| returncode := returncode p; stdout := stdout p; stderr := h |}
  end.

Definition stream_data (env : Env) (s : stream) : string :=
  match s with Stdout => stdout_data env | Stderr => stderr_data env end.

(** [process.stdout.read()] and [process.stderr.read()]. *)
Definition stream_read (env : Env) (s : stream) : M State string :=
  p <- the_process ;;
  match get_handle s p with
  | NoPipe => raise AttributeError
  | _ => emit (EvRead s) ;; ret (stream_data env s)
  end.

(** [process.stdout.close()] and [process.stderr.close()]. *)
Definition stream_close (s : stream) : M State unit :=
  p <- the_process ;;
  match get_handle s p with
  | NoPipe => raise AttributeError
  | _ => emit (EvClose s) ;; set_process (set_handle s Closed p)
  end.

Definition closed_if_piped (h : handle) : handle :=
  match h with NoPipe => NoPipe | _ => Closed end.

(** [process.communicate()]: drains the redirected streams, closes them,
    waits for the child, and returns the pair of what was read, with [None]
    for a stream that was not redirected. *)
Definition process_communicate (env : Env)
  : M State (option string * option string) :=
  emit EvCommunicate ;;
  p <- the_process ;;
  set_process {| returncode := match returncode p with
                               | Some c => Some c
                               | None => Some (wait_status env)
                               end;
                 stdout := closed_if_piped (stdout p);
                 stderr := closed_if_piped (stderr p) |} ;;
  ret (match stdout p with NoPipe => None | _ => Some (stdout_data env) end,
       match stderr p with NoPipe => None | _ => Some (stderr_data env) end).

(** [process.terminate()]. *)
Definition process_terminate (env : Env) : M State unit :=
  emit EvTerminate ;;
  match terminate_errno env with
  | Some e => raise (OSError e)
  | None => ret tt
  end.

(** [os.killpg(os.getpgid(process.pid), sig)]. *)
Definition os_killpg (env : Env) (sig : signal) : M State unit :=
  emit (EvKillpg sig) ;;
  match killpg_errno env sig with
  | Some e => raise (OSError e)
  | None => ret tt
  end.

(** [datetime.now()]. *)
Definition datetime_now (env : Env) : M State Z :=
  st <- get ;;
  modify (fun st => {| fs := fs st; process := process st; polls := polls st;
                       clock_reads := S (clock_reads st); log := log st |}) ;;
  ret (now env (clock_reads st)).

(** [timedelta(seconds=timeout)], in microseconds. *)
Definition timedelta_seconds (t : Z) : Z := (t * 1000000)%Z.

(** *** run_script *)

Definition lower_char (c : ascii) : ascii :=
  let n := nat_of_ascii c in
  if Nat.leb 65 n && Nat.leb n 90 then ascii_of_nat (n + 32) else c.

Fixpoint lower (s : string) : string :=
  match s with
  | EmptyString => EmptyString
  | String c rest => String (lower_char c) (lower rest)
  end.

(** [sys.platform.lower().startswith('win')]. *)
Definition platform_is_win (env : Env) : bool :=
  String.prefix "win" (lower (sys_platform env)).

(** [sys.version_info < (2, 7)]. *)
Definition before_python_2_7 (env : Env) : bool :=
  let (major, minor) := version_info env in
  (major <? 2)%Z || ((major =? 2)%Z && (minor <? 7)%Z).

Definition build_cmd (env : Env) (script_path arg_str : string) : string :=
  let cmd := "PYTHONPATH=" in
  let cmd := match environ_PYTHONPATH env with
             | Some python_path => cmd ++ python_path ++ ":"
             | None => cmd
             end in
  let cmd := cmd ++ join ":" (tl (sys_path env)) ++ " " in
  let cmd := cmd ++ "python" ++ format_int (fst (version_info env)) ++ "."
                 ++ format_int (snd (version_info env)) ++ " " in
  let cmd := cmd ++ script_path ++ " " in
  cmd ++ arg_str ++ " ".

Definition timeout_message (t : Z) : string :=
  "Process took more than " ++ format_int t
    ++ " seconds to complete. Process Killed!".

Definition stderr_sentinel : string :=
  "Process killed, unable to catch stderr output".

(** What the timeout branch returns. *)
Definition timeout_return (a : Args) (t : Z) : M State rvalue :=
  let out := Lines [timeout_message t] in
  if truthy (catch_stderr a) then
    let err := Lines [stderr_sentinel] in
    if truthy (with_retcode a) then
      p <- the_process ;; ret (ROutErrCode out err (returncode p))
    else ret (ROutErr out err)
  else if truthy (with_retcode a) then
    p <- the_process ;; ret (ROutCode out (returncode p))
  else ret (ROut out).

(** The [while True:] loop under [if timeout is not None:]. [Some v] is a
    [return v] from inside the loop, [None] is the [break]. *)
Fixpoint poll_loop (fuel : nat) (env : Env) (a : Args) (t stop_at : Z)
    (term_sent : bool) : M State (option rvalue) :=
  match fuel with
  | O => out_of_fuel
  | S fuel' =>
      process_poll env ;;
      t_now <- datetime_now env ;;
      if (t_now >? stop_at)%Z then
        if negb term_sent then
          os_killpg env SIGINT ;;
          poll_loop fuel' env a t stop_at true
        else
          try_except (os_killpg env SIGKILL)
            (fun exc => match exc with
                        | OSError errno =>
                            if negb (errno =? 3)%Z then raise exc else ret tt
                        | _ => raise exc
                        end) ;;
          v <- timeout_return a t ;;
          ret (Some v)
      else
        p <- the_process ;;
        match returncode p with
        | Some _ => ret None
        | None => poll_loop fuel' env a t stop_at term_sent
        end
  end.

(** [out.splitlines()] where [out] may be [None]. *)
Definition opt_splitlines (o : option string) : M State output :=
  match o with
  | Some s => ret (Lines (splitlines s))
  | None => raise AttributeError
  end.

Definition opt_blob (o : option string) : output :=
  match o with Some s => Blob s | None => Nothing end.

(** The [finally:] clause of both capture branches. *)
Definition terminate_quietly (env : Env) : M State unit :=
  try_except (process_terminate env)
    (fun exc => match exc with OSError _ => ret tt | _ => raise exc end).

(** The branch under [if catch_stderr:]. *)
Definition capture_both (env : Env) (a : Args) : M State rvalue :=
  outerr <-
    (if before_python_2_7 env then
       process_wait env ;;
       out <- stream_read env Stdout ;;
       err <- stream_read env Stderr ;;
       ret (Some out, Some err)
     else process_communicate env) ;;
  let (out, err) := outerr : option string * option string in
  p <- the_process ;;
  (match stdout p with NoPipe => ret tt | _ => stream_close Stdout end) ;;
  p <- the_process ;;
  (match stderr p with NoPipe => ret tt | _ => stream_close Stderr end) ;;
  try_finally
    (p <- the_process ;;
     let both := match out, err with Some _, Some _ => true | _, _ => false end in
     if truthy (with_retcode a) then
       if both then
         if negb (truthy (raw a)) then
           o <- opt_splitlines out ;; e <- opt_splitlines err ;;
           ret (ROutErrCode o e (returncode p))
         else ret (ROutErrCode (opt_blob out) (opt_blob err) (returncode p))
       else
         o <- opt_splitlines out ;; ret (ROutErrCode o (Lines []) (returncode p))
     else
       if both then
         if negb (truthy (raw a)) then
           o <- opt_splitlines out ;; e <- opt_splitlines err ;;
           ret (ROutErr o e)
         else ret (ROutErr (opt_blob out) (opt_blob err))
       else
         if negb (truthy (raw a)) then
           o <- opt_splitlines out ;; ret (ROutErr o (Lines []))
         else ret (ROutErr (opt_blob out) (Lines [])))
    (terminate_quietly env).

(** The code after the [if catch_stderr:] block. *)
Definition capture_stdout (env : Env) (a : Args) : M State rvalue :=
  data <- process_communicate env ;;
  stream_close Stdout ;;
  try_finally
    (p <- the_process ;;
     if truthy (with_retcode a) then
       if negb (truthy (raw a)) then
         o <- opt_splitlines (fst data) ;; ret (ROutCode o (returncode p))
       else ret (ROutCode (opt_blob (fst data)) (returncode p))
     else
       if negb (truthy (raw a)) then
         o <- opt_splitlines (fst data) ;; ret (ROut o)
       else ret (ROut (opt_blob (fst data))))
    (terminate_quietly env).

(** [run_script]. [fuel] bounds the iterations of the polling loop. *)
Definition run_script (fuel : nat) (env : Env) (a : Args) : M State rvalue :=
  script_path <- get_script_path env (script a) ;;
  isfile <- os_path_isfile script_path ;;
  if negb isfile then ret RFalse
  else
    let cmd := build_cmd env script_path (arg_str a) in
    let stderr_pipe := is_True (catch_stderr a) in
    own_group <-
      (if negb (platform_is_win env) then ret true
       else if platform_is_win env
               && match timeout a with Some _ => true | None => false end then
         raise (RuntimeError "Timeout is not supported under windows")
       else ret false) ;;
    subprocess_Popen env cmd stderr_pipe own_group ;;
    early <-
      match timeout a with
      | Some t =>
          start <- datetime_now env ;;
          poll_loop fuel env a t (start + timedelta_seconds t)%Z false
      | None => ret None
      end ;;
    match early with
    | Some v => ret v
    | None =>
        if truthy (catch_stderr a) then capture_both env a
        else capture_stdout env a
    end.

End Shell.

(** ** ModuleCase *)

Module ModuleCase.

Import Marker.

(** The salt client and the interpreter services the reconciler uses. The
    k-th [self.client.cmd(tgt, fun, arg, timeout=...)] of a run answers
    [cmd_reply k tgt fun arg], the items of the dict it returns. *)
Record Client : Type := {
  cmd_reply : nat -> string -> string -> list pyval -> list (string * pyval);
  py_repr : pyval -> string          (* repr(x) *)
}.

(** A [client.cmd] call. [depth] is a ghost label: 0 for the calls made by
    the outermost [run_function] or [_check_state_return], one more for each
    nested [_check_state_return] that [run_function] starts. *)
Inductive event : Type :=
| EvCmd (depth : nat) (tgt fn : string) (arg : list pyval) (timeout : Z).

Record State : Type := {
  calls : nat;          (* client.cmd calls made so far *)
  log : list event
}.

Definition initial_state : State := {| calls := 0; log := [] |}.

Fixpoint dict_get (key : string) (d : list (string * pyval)) : option pyval :=
  match d with
  | [] => None
  | (k, v) :: more => if String.eqb k key then Some v else dict_get key more
  end.

Definition client_cmd (c : Client) (depth : nat) (tgt fn : string)
    (arg : list pyval) (timeout : Z) : M State (list (string * pyval)) :=
  st <- get ;;
  modify (fun st => {| calls := S (calls st);
                       log := log st ++ [EvCmd depth tgt fn arg timeout] |}) ;;
  ret (cmd_reply c (calls st) tgt fn arg).

Definition know_to_return_none : list string :=
  ["file.chown"; "file.chgrp"; "ssh.recv_known_host"].

Definition no_reply_message (c : Client) (tgt : string)
    (orig : list (string * pyval)) : string :=
  "WARNING(SHOULD NOT HAPPEN #1935): Failed to get a reply from the minion '"
    ++ tgt ++ "'. Command output: " ++ py_repr c (PDict orig).

Definition none_reply_message (c : Client) (fn tgt : string)
    (orig : list (string * pyval)) : string :=
  "WARNING(SHOULD NOT HAPPEN #1935): Failed to get '" ++ fn
    ++ "' from the minion '" ++ tgt ++ "'. Command output: "
    ++ py_repr c (PDict orig).

(** [run_function], with the [_check_state_return] it ends in passed as
    [check]. The keyword arguments it hands on to the client are left out:
    the reconciler passes none. *)
Definition run_function_with (c : Client) (depth : nat)
    (check : pyval -> string -> M State pyval)
    (fn : string) (arg : list pyval) (minion_tgt : string) (timeout : Z)
  : M State pyval :=
  orig <- client_cmd c depth minion_tgt fn arg timeout ;;
  match dict_get minion_tgt orig with
  | None => raise (SkipTest (no_reply_message c minion_tgt orig))
  | Some reply =>
      (match reply with
       | PNone =>
           if negb (existsb (String.eqb fn) know_to_return_none) then
             raise (SkipTest (none_reply_message c fn minion_tgt orig))
           else ret tt
       | _ => ret tt
       end) ;;
      check reply fn
  end.

Definition diagnostic (c : Client) (job_data job_kill : pyval) : string :=
  let msg :=
    "A running state.single was found causing a state lock. Job details: "
      ++ py_repr c job_data ++ "  Killing Job Returned: " ++ py_repr c job_kill in
  "[TEST SUITE ENFORCED]" ++ msg ++ "[/TEST SUITE ENFORCED]".

Definition jid_in (jid : string) (jids : list string) : bool :=
  existsb (String.eqb jid) jids.

(** The [for item in ret[:]:] loop: [items] is what is left of the copy,
    [jids] and [ret_] are the two lists the body appends to. [run] is
    [self.run_function] with its default target and timeout. An item that is
    not a string, a string that is no marker line and a job id already in
    [jids] are the three [continue]s. *)
Fixpoint scan (c : Client) (run : string -> list pyval -> M State pyval)
    (items : list pyval) (jids : list string) (ret_ : list pyval)
  : M State (list pyval) :=
  match items with
  | [] => ret ret_
  | item :: more =>
      match item with
      | PStr line =>
          match marker_jid line with
          | None => scan c run more jids ret_
          | Some jid =>
              if jid_in jid jids then scan c run more jids ret_
              else
                let jids := (jids ++ [jid])%list in
                job_data <- run "saltutil.find_job" [PStr jid] ;;
                job_kill <- run "saltutil.kill_job" [PStr jid] ;;
                scan c run more jids
                  (ret_ ++ [PStr (diagnostic c job_data job_kill)])%list
          end
      | _ => scan c run more jids ret_
      end
  end.

(** [_check_state_return]. [fuel] bounds how deep [run_function] and
    [_check_state_return] may call each other. *)
Fixpoint _check_state_return (fuel : nat) (c : Client) (depth : nat)
    (ret_ : pyval) (func : string) {struct fuel} : M State pyval :=
  match ret_ with
  | PDict _ => ret ret_
  | PList l =>
      l' <- scan c
              (fun fn arg =>
                 match fuel with
                 | O => out_of_fuel
                 | S fuel' =>
                     run_function_with c depth
                       (_check_state_return fuel' c (S depth))
                       fn arg "minion" 25%Z
                 end)
              l [] l ;;
      ret (PList l')
  | _ => ret ret_
  end.

Definition run_function (fuel : nat) (c : Client) (depth : nat)
    (fn : string) (arg : list pyval) (minion_tgt : string) (timeout : Z)
  : M State pyval :=
  run_function_with c depth (_check_state_return fuel c (S depth))
    fn arg minion_tgt timeout.

End ModuleCase.

(** ** What the properties speak about *)

Module Props.

Import Shell.

(** *** Shapes of [run_script] results *)

Inductive kind : Type := KLines | KBlob | KNothing.

Inductive shape : Type :=
| SFalse
| SOut (out : kind)
| SOutCode (out : kind)
| SOutErr (out err : kind)
| SOutErrCode (out err : kind).

Definition kind_of (o : output) : kind :=
  match o with Lines _ => KLines | Blob _ => KBlob | Nothing => KNothing end.

Definition shape_of (v : rvalue) : shape :=
  match v with
  | RFalse => SFalse
  | ROut o => SOut (kind_of o)
  | ROutCode o _ => SOutCode (kind_of o)
  | ROutErr o e => SOutErr (kind_of o) (kind_of e)
  | ROutErrCode o e _ => SOutErrCode (kind_of o) (kind_of e)
  end.

(** The shape the three flags ask for. *)
Definition requested_shape (catch_stderr with_retcode raw : bool) : shape :=
  let k := if raw then KBlob else KLines in
  if catch_stderr then
    if with_retcode then SOutErrCode k k else SOutErr k k
  else
    if with_retcode then SOutCode k else SOut k.

Definition out_of (v : rvalue) : option output :=
  match v with
  | RFalse => None
  | ROut o | ROutCode o _ | ROutErr o _ | ROutErrCode o _ _ => Some o
  end.

Definition err_of (v : rvalue) : option output :=
  match v with
  | ROutErr _ e | ROutErrCode _ e _ => Some e
  | _ => None
  end.

Definition code_of (v : rvalue) : option (option Z) :=
  match v with
  | ROutCode _ c | ROutErrCode _ _ c => Some c
  | _ => None
  end.

(** A call whose three flags are booleans. *)
Definition call (script arg_str : string) (catch_stderr with_retcode : bool)
    (timeout : option Z) (raw : bool) : Args :=
  {| Shell.script := script; Shell.arg_str := arg_str;
     Shell.catch_stderr := PBool catch_stderr;
     Shell.with_retcode := PBool with_retcode;
     Shell.timeout := timeout; Shell.raw := PBool raw |}.

(** [get_script_path] returns, and what it returns is a regular file: the
    guard at the top of [run_script] lets the call through. *)
Definition script_located (env : Env) (script : string)
    (files : list (string * node)) : bool :=
  match get_script_path env script (initial_state files) with
  | (Ok path, st) =>
      match lookup path (fs st) with Regular => true | _ => false end
  | _ => false
  end.

(** *** Counting system calls *)

Definition is_spawn (e : event) : bool :=
  match e with EvSpawn _ _ _ => true | _ => false end.

Definition spawn_calls (st : State) : nat :=
  List.length (filter is_spawn (log st)).

Definition handle_of (s : stream) (st : State) : option handle :=
  match process st with
  | Some p => Some (get_handle s p)
  | None => None
  end.

(** *** The timeout path *)

(** The deadline of a call that starts with the clock read [now env 0]. *)
Definition deadline (env : Env) (t : Z) : Z :=
  (now env 0 + timedelta_seconds t)%Z.

(** The loop iteration [i] is the first whose clock reading is past the
    deadline, the clock does not run backwards at the next reading, and no
    poll up to that iteration has found the child exited: the timeout [t] is
    smaller than the child's runtime. *)
Definition times_out_at (env : Env) (t : Z) (i : nat) : Prop :=
  (forall j, j < i -> (now env (S j) <= deadline env t)%Z) /\
  (now env (S i) > deadline env t)%Z /\
  (now env (S (S i)) > deadline env t)%Z /\
  (forall k, k <= i -> waitpid env k = None).

(** What the timeout branch returns when both flags are booleans and the
    last poll found [rc]. *)
Definition timeout_result (catch_stderr with_retcode : bool) (t : Z)
    (rc : option Z) : rvalue :=
  let out := Lines [timeout_message t] in
  let err := Lines [stderr_sentinel] in
  if catch_stderr then
    if with_retcode then ROutErrCode out err rc else ROutErr out err
  else if with_retcode then ROutCode out rc else ROut out.

(** The state at the top of loop iteration [j], the child not yet found
    exited. *)
Definition waiting (files : list (string * node)) (se : handle) (j : nat)
    (l : list event) : State :=
  {| fs := files;
     process := Some {| returncode := None; stdout := Open; stderr := se |};
     polls := j; clock_reads := S j; log := l |}.

(** The state in which the timeout branch returns: interrupt sent in
    iteration [i], kill sent in the next one, [rc] found by the poll in
    between. *)
Definition killed (files : list (string * node)) (se : handle) (i : nat)
    (rc : option Z) (l : list event) : State :=
  {| fs := files;
     process := Some {| returncode := rc; stdout := Open; stderr := se |};
     polls := S (S i); clock_reads := S (S (S i));
     log := l ++ [EvPoll; EvKillpg SIGINT; EvPoll; EvKillpg SIGKILL] |}.

(** What [run_script] does once the loop is left. *)
Definition after_loop (env : Env) (a : Args) (early : option rvalue)
  : M State rvalue :=
  match early with
  | Some v => ret v
  | None =>
      if truthy (catch_stderr a) then capture_both env a
      else capture_stdout env a
  end.

(** *** The timeout branch in general *)

(** What the [Popen] object holds as [returncode] after [n] polls: the
    status found by the first poll that found the child exited. *)
Fixpoint polled (env : Env) (n : nat) : option Z :=
  match n with
  | O => None
  | S m => match polled env m with
           | Some c => Some c
           | None => waitpid env m
           end
  end.

(** The call goes through the timeout branch: the clock reading of loop
    iteration [i] is the first past the deadline, where the interrupt is
    sent; that of iteration [k] is the next past it, where the kill is sent;
    and in no other iteration before [k] has the child been found exited,
    which would leave the loop. What the polls of iterations [i] and [k]
    find is free. *)
Definition timeout_branch (env : Env) (t : Z) (i k : nat) : Prop :=
  i < k
  /\ (now env (S i) > deadline env t)%Z
  /\ (now env (S k) > deadline env t)%Z
  /\ (forall j, j < k -> j <> i ->
        (now env (S j) <= deadline env t)%Z /\ polled env (S j) = None).

(** The state at the top of loop iteration [j], whatever is known of the
    child. *)
Definition in_loop (files : list (string * node)) (rc : option Z)
    (se : handle) (j : nat) (l : list event) : State :=
  {| fs := files;
     process := Some {| returncode := rc; stdout := Open; stderr := se |};
     polls := j; clock_reads := S j; log := l |}.

(** The calls of the timeout branch once the child is spawned: the polls
    of iterations [0] to [i], the interrupt, the polls of iterations
    [i + 1] to [k], the kill. *)
Definition timeout_calls (i k : nat) : list event :=
  repeat EvPoll (S i) ++ EvKillpg SIGINT
    :: repeat EvPoll (k - i) ++ [EvKillpg SIGKILL].

(** What [get_script_path] leaves alone. *)
Definition frame (st st' : State) : Prop :=
  process st' = process st /\ polls st' = polls st /\
  clock_reads st' = clock_reads st /\
  filter is_spawn (log st') = filter is_spawn (log st).

(** *** Sample environments *)

Definition linux : Env :=
  {| TMP_SCRIPT_DIR := "/tmp/salt-tests-tmpdir/scripts";
     environ_PYTHONPATH := None;
     sys_path := [EmptyString; "/usr/lib/python2.7"];
     version_info := (2, 7)%Z;
     sys_platform := "linux2";
     makedirs_errno := fun _ => None;
     fopen_errno := fun _ => None;
     popen_errno := None;
     now := fun k => (Z.of_nat k * 600000)%Z;
     waitpid := fun _ => None;
     wait_status := 0%Z;
     killpg_errno := fun _ => None;
     stdout_data := "hello" ++ String LF EmptyString;
     stderr_data := EmptyString;
     terminate_errno := Some 3%Z |}.

(** A child that runs on until it is killed. *)
Definition linux_slow_child : Env :=
  {| TMP_SCRIPT_DIR := TMP_SCRIPT_DIR linux;
     environ_PYTHONPATH := None;
     sys_path := sys_path linux;
     version_info := (2, 7)%Z;
     sys_platform := "linux2";
     makedirs_errno := fun _ => None;
     fopen_errno := fun _ => None;
     popen_errno := None;
     now := now linux;
     waitpid := fun _ => None;
     wait_status := (-9)%Z;
     killpg_errno := fun _ => None;
     stdout_data := EmptyString;
     stderr_data := EmptyString;
     terminate_errno := Some 3%Z |}.

(** The child has exited and was reaped by the poll that precedes the
    deadline check: its process group is gone when the interrupt is sent. *)
Definition linux_child_just_exited : Env :=
  {| TMP_SCRIPT_DIR := TMP_SCRIPT_DIR linux;
     environ_PYTHONPATH := None;
     sys_path := sys_path linux;
     version_info := (2, 7)%Z;
     sys_platform := "linux2";
     makedirs_errno := fun _ => None;
     fopen_errno := fun _ => None;
     popen_errno := None;
     now := now linux;
     waitpid := fun k => if Nat.leb 1 k then Some 0%Z else None;
     wait_status := 0%Z;
     killpg_errno := fun _ => Some 3%Z;
     stdout_data := stdout_data linux;
     stderr_data := EmptyString;
     terminate_errno := Some 3%Z |}.

Definition windows : Env :=
  {| TMP_SCRIPT_DIR := "C:/salt-tests-tmpdir/scripts";
     environ_PYTHONPATH := None;
     sys_path := [EmptyString; "C:/Python27/Lib"];
     version_info := (2, 7)%Z;
     sys_platform := "win32";
     makedirs_errno := fun _ => None;
     fopen_errno := fun _ => None;
     popen_errno := None;
     now := now linux;
     waitpid := fun _ => None;
     wait_status := 0%Z;
     killpg_errno := fun _ => None;
     stdout_data := stdout_data linux;
     stderr_data := EmptyString;
     terminate_errno := None |}.

(** File systems: the script is there; the script path is taken by a
    special file. *)
Definition script_present (env : Env) (script : string) : list (string * node) :=
  [ (TMP_SCRIPT_DIR env, Directory);
    (os_path_join (TMP_SCRIPT_DIR env) script, Regular) ].

Definition script_path_special (env : Env) (script : string)
  : list (string * node) :=
  [ (TMP_SCRIPT_DIR env, Directory);
    (os_path_join (TMP_SCRIPT_DIR env) script, Special) ].

End Props.

Module RProps.

Import Marker ModuleCase.

(** *** Marker lines *)

Fixpoint string_forall (p : ascii -> bool) (s : string) : bool :=
  match s with
  | EmptyString => true
  | String c rest => p c && string_forall p rest
  end.

Definition not_LF (c : ascii) : bool := negb (Ascii.eqb c LF).

(** Text a [.*] can take: no line feed in it. *)
Definition one_line (s : string) : bool := string_forall not_LF s.

(** Text a [[\d]+] can take: digits, at least one. *)
Definition number (s : string) : bool :=
  match s with
  | EmptyString => false
  | _ => string_forall is_digit s
  end.

(** A marker line whose function name sits between the characters [q1] and
    [q2]. *)
Definition marker_line (q1 q2 : ascii) (name pid date jid : string) : string :=
  "The function " ++ String q1 (name ++ String q2
    (" is running as PID " ++ pid ++ " and was started at " ++ date
       ++ " with jid " ++ jid)).

(** *** What a reconciliation pass has to do *)

(** The item is left alone by the reconciler: not text, or text that is no
    marker line. *)
Definition no_marker (item : pyval) : bool :=
  match item with
  | PStr line => match marker_jid line with Some _ => false | None => true end
  | _ => true
  end.

(** The job ids of the marker lines of a list, in the order of the lines. *)
Fixpoint marker_jids (items : list pyval) : list string :=
  match items with
  | [] => []
  | PStr line :: more =>
      match marker_jid line with
      | Some jid => jid :: marker_jids more
      | None => marker_jids more
      end
  | _ :: more => marker_jids more
  end.

(** First occurrences, in order. *)
Fixpoint first_occurrences (seen l : list string) : list string :=
  match l with
  | [] => []
  | x :: more =>
      if jid_in x seen then first_occurrences seen more
      else x :: first_occurrences (seen ++ [x]) more
  end.

Definition unique_jids (items : list pyval) : list string :=
  first_occurrences [] (marker_jids items).

(** What the minion answers to the k-th [client.cmd] of a run. *)
Definition minion_reply (c : Client) (k : nat) (fn jid : string)
  : option pyval :=
  dict_get "minion" (cmd_reply c k "minion" fn [PStr jid]).

Definition or_None (o : option pyval) : pyval :=
  match o with Some v => v | None => PNone end.

(** One diagnostic line per job id, made of the answers to its
    [saltutil.find_job] and [saltutil.kill_job], which are two consecutive
    [client.cmd] calls; [k] numbers the first of them. *)
Fixpoint diagnostics_for (c : Client) (k : nat) (jids : list string)
  : list pyval :=
  match jids with
  | [] => []
  | jid :: more =>
      PStr (diagnostic c
              (or_None (minion_reply c k "saltutil.find_job" jid))
              (or_None (minion_reply c (S k) "saltutil.kill_job" jid)))
      :: diagnostics_for c (S (S k)) more
  end.

(** The [client.cmd] calls behind those lines. *)
Fixpoint queries_for (depth : nat) (jids : list string) : list event :=
  match jids with
  | [] => []
  | jid :: more =>
      EvCmd depth "minion" "saltutil.find_job" [PStr jid] 25
      :: EvCmd depth "minion" "saltutil.kill_job" [PStr jid] 25
      :: queries_for depth more
  end.

(** A reply that [run_function] hands back as it is: not [None], and
    nothing in it for a nested reconciliation to act on. *)
Definition settled (v : pyval) : bool :=
  match v with
  | PNone => false
  | PList l => forallb no_marker l
  | _ => true
  end.

(** The minion answers every job query, with a settled reply. *)
Definition answers_settled (c : Client) : Prop :=
  forall k fn jid,
    exists v, minion_reply c k fn jid = Some v /\ settled v = true.

(** *** Counting the job queries of a pass *)

Definition depth_of (e : event) : nat :=
  match e with EvCmd d _ _ _ _ => d end.

(** [e] is the call of [fn] for [jid] made by the pass labelled [depth]. *)
Definition is_query (depth : nat) (fn jid : string) (e : event) : bool :=
  match e with
  | EvCmd d _ f [PStr j] _ =>
      Nat.eqb d depth && String.eqb f fn && String.eqb j jid
  | _ => false
  end.

Definition queries (depth : nat) (fn jid : string) (l : list event) : nat :=
  List.length (filter (is_query depth fn jid) l).

Definition indicator (b : bool) : nat := if b then 1 else 0.

(** From [st] to [st'] the log has only grown, by calls labelled [d] or
    deeper. *)
Definition grows_from (d : nat) (st st' : State) : Prop :=
  exists new, log st' = (log st ++ new)%list
              /\ Forall (fun e => d <= depth_of e) new.

(** [self.run_function(fn, arg)] as [_check_state_return] calls it. *)
Definition run_job (fuel : nat) (c : Client) (depth : nat)
    (fn : string) (arg : list pyval) : M State pyval :=
  match fuel with
  | O => out_of_fuel
  | S fuel' =>
      run_function_with c depth (_check_state_return fuel' c (S depth))
        fn arg "minion" 25%Z
  end.

(** *** Sample client *)

Definition sample_repr (v : pyval) : string :=
  match v with
  | PStr s => "'" ++ s ++ "'"
  | PInt z => format_int z
  | PNone => "None"
  | PBool true => "True"
  | PBool false => "False"
  | PList [] => "[]"
  | PDict [] => "{}"
  | _ => "<object>"
  end.

(** Answers [find_job] with the job id it was asked about and [kill_job]
    with a fixed text. *)
Definition sample_client : Client :=
  {| cmd_reply := fun k tgt fn arg =>
       if String.eqb fn "saltutil.find_job" then
         [(tgt, match arg with [v] => v | _ => PDict [] end)]
       else [(tgt, PStr "Signal 9 sent to job")];
     py_repr := sample_repr |}.

Definition spec_marker : string :=
  marker_line DQUOTE DQUOTE "state.sls" "123" "2020-01-01T00:00:00" "456".

Definition mixed_quote_marker : string :=
  marker_line DQUOTE SQUOTE "state.sls" "123" "2020-01-01T00:00:00" "456".

End RProps.

(** ** The callers of [run_script], and ClientCase *)

Module Callers.

Import Shell.

(** What the wrappers read besides the environment of [run_script]:
    [self.get_config_dir()] and [RUNTIME_VARS.TMP_CONF_DIR], and for
    [SSHCase.run_function] what [json.loads] makes of a text ([None] where it
    raises [ValueError]). *)
Record Config : Type := {
  get_config_dir : string;
  TMP_CONF_DIR : string;
  json_loads : string -> option pyval
}.

Definition run_salt (fuel : nat) (env : Env) (cfg : Config) (arg_str : string)
    (with_retcode catch_stderr : pyval) : M State rvalue :=
  let arg_str := "-c " ++ get_config_dir cfg ++ " " ++ arg_str in
  run_script fuel env
    {| script := "salt"; Shell.arg_str := arg_str;
       Shell.catch_stderr := catch_stderr;
       Shell.with_retcode := with_retcode;
       timeout := None; raw := PBool false |}.

Definition run_ssh (fuel : nat) (env : Env) (cfg : Config) (arg_str : string)
    (with_retcode catch_stderr : pyval) : M State rvalue :=
  let arg_str :=
    "-c " ++ get_config_dir cfg ++ " -i --priv "
      ++ os_path_join (TMP_CONF_DIR cfg) "key_test" ++ " --roster-file "
      ++ os_path_join (TMP_CONF_DIR cfg) "roster" ++ " localhost "
      ++ arg_str ++ " --out=json" in
  run_script fuel env
    {| script := "salt-ssh"; Shell.arg_str := arg_str;
       Shell.catch_stderr := catch_stderr;
       Shell.with_retcode := with_retcode;
       timeout := None; raw := PBool true |}.

Definition run_run (fuel : nat) (env : Env) (cfg : Config) (arg_str : string)
    (with_retcode catch_stderr : pyval) : M State rvalue :=
  let arg_str := "-c " ++ get_config_dir cfg ++ " " ++ arg_str in
  run_script fuel env
    {| script := "salt-run"; Shell.arg_str := arg_str;
       Shell.catch_stderr := catch_stderr;
       Shell.with_retcode := with_retcode;
       timeout := None; raw := PBool false |}.

Definition run_key (fuel : nat) (env : Env) (cfg : Config) (arg_str : string)
    (catch_stderr with_retcode : pyval) : M State rvalue :=
  let arg_str := "-c " ++ get_config_dir cfg ++ " " ++ arg_str in
  run_script fuel env
    {| script := "salt-key"; Shell.arg_str := arg_str;
       Shell.catch_stderr := catch_stderr;
       Shell.with_retcode := with_retcode;
       timeout := None; raw := PBool false |}.

Definition run_cp (fuel : nat) (env : Env) (cfg : Config) (arg_str : string)
    (with_retcode catch_stderr : pyval) : M State rvalue :=
  let arg_str := "--config-dir " ++ get_config_dir cfg ++ " " ++ arg_str in
  run_script fuel env
    {| script := "salt-cp"; Shell.arg_str := arg_str;
       Shell.catch_stderr := catch_stderr;
       Shell.with_retcode := with_retcode;
       timeout := None; raw := PBool false |}.

Definition run_call (fuel : nat) (env : Env) (cfg : Config) (arg_str : string)
    (with_retcode catch_stderr : pyval) : M State rvalue :=
  let arg_str := "--config-dir " ++ get_config_dir cfg ++ " " ++ arg_str in
  run_script fuel env
    {| script := "salt-call"; Shell.arg_str := arg_str;
       Shell.catch_stderr := catch_stderr;
       Shell.with_retcode := with_retcode;
       timeout := None; raw := PBool false |}.

(** [run_cloud(arg_str, catch_stderr=False, timeout=None)] ends in
    [self.run_script('salt-cloud', arg_str, catch_stderr, timeout)]: the
    fourth positional parameter of [run_script] is [with_retcode]. Its own
    [timeout] is a Python value, [None] or a number. *)
Definition run_cloud (fuel : nat) (env : Env) (cfg : Config) (arg_str : string)
    (catch_stderr timeout : pyval) : M State rvalue :=
  let arg_str := "-c " ++ get_config_dir cfg ++ " " ++ arg_str in
  run_script fuel env
    {| script := "salt-cloud"; Shell.arg_str := arg_str;
       Shell.catch_stderr := catch_stderr;
       Shell.with_retcode := timeout;
       Shell.timeout := None; raw := PBool false |}.

(** *** SSHCase *)

(** ['{0} {1}'.format(function, ' '.join(arg))]. *)
Definition _arg_str (function : string) (arg : list string) : string :=
  function ++ " " ++ join " " arg.

(** What [SSHCase.run_function] returns: the value under ['localhost'] of the
    decoded output, or what [run_ssh] returned. *)
Inductive ssh_value : Type :=
| Decoded (v : pyval)
| Undecoded (ret : rvalue).

(** [json.loads(ret)['localhost']] under [try: ... except Exception:]: every
    way of failing (the value is no text, the text no JSON, the JSON no dict,
    the dict without the key) ends in [return ret]. *)
Definition decode_localhost (cfg : Config) (ret : rvalue) : ssh_value :=
  match ret with
  | ROut (Blob text) =>
      match json_loads cfg text with
      | Some (PDict d) =>
          match ModuleCase.dict_get "localhost" d with
          | Some v => Decoded v
          | None => Undecoded ret
          end
      | _ => Undecoded ret
      end
  | _ => Undecoded ret
  end.

(** [SSHCase.run_function(function, arg=(), timeout=25, **kwargs)]: neither
    [timeout] nor [kwargs] is used. *)
Definition ssh_run_function (fuel : nat) (env : Env) (cfg : Config)
    (function : string) (arg : list string) (timeout : Z) : M State ssh_value :=
  ret_ <- run_ssh fuel env cfg (_arg_str function arg)
            (PBool false) (PBool false) ;;
  ret (decode_localhost cfg ret_).

(** *** ClientCase *)

(** [mkdir_p]: [os.makedirs(path)], forgiving the error that says the path
    exists when the path is a directory. *)
Definition mkdir_p (env : Env) (path : string) : M State unit :=
  try_except (os_makedirs env path)
    (fun exc =>
       match exc with
       | OSError errno =>
           isdir <- os_path_isdir path ;;
           if (errno =? 17)%Z && isdir then ret tt else raise exc
       | _ => raise exc
       end).

End Callers.

(** ** The callers of the reconciler *)

Module ModuleCallers.

Import ModuleCase.

(** [ModuleCase.minion_run(_function, *args, **kw)]: the keywords go to
    [run_function], which takes [minion_tgt] and [timeout] from them. *)
Definition minion_run (fuel : nat) (c : Client) (depth : nat)
    (_function : string) (args : list pyval) (minion_tgt : string)
    (timeout : Z) : M State pyval :=
  run_function fuel c depth _function args minion_tgt timeout.

(** [ModuleCase.run_state(function, **kwargs)]: the reply of [state.single],
    which [run_function] has already passed through [_check_state_return],
    is passed through it again. The keywords go to [run_function], which
    takes [minion_tgt] and [timeout] from them. *)
Definition run_state (fuel : nat) (c : Client) (depth : nat)
    (function : string) (minion_tgt : string) (timeout : Z) : M State pyval :=
  ret_ <- run_function fuel c depth "state.single" [PStr function]
            minion_tgt timeout ;;
  _check_state_return fuel c depth ret_ "state.single".

Definition syndic_no_reply_message (c : Client)
    (orig : list (string * pyval)) : string :=
  "WARNING(SHOULD NOT HAPPEN #1935): Failed to get a reply from the minion. "
    ++ "Command output: " ++ py_repr c (PDict orig).

(** [SyndicCase.run_function]. *)
Definition syndic_run_function (c : Client) (depth : nat)
    (function : string) (arg : list pyval) : M State pyval :=
  orig <- client_cmd c depth "minion" function arg 25%Z ;;
  match dict_get "minion" orig with
  | None => raise (SkipTest (syndic_no_reply_message c orig))
  | Some reply => ret reply
  end.

End ModuleCallers.

(** ** What the further properties speak about *)

Module XProps.

Import Shell Props Callers.

(** What a call that runs the child to its end returns, the flags being
    booleans: [out] and [err] are what the child wrote, [code] its status. *)
Definition completion_value (catch_stderr with_retcode raw : bool)
    (out err : string) (code : option Z) : rvalue :=
  let o := if raw then Blob out else Lines (splitlines out) in
  let e := if raw then Blob err else Lines (splitlines err) in
  if catch_stderr then
    if with_retcode then ROutErrCode o e code else ROutErr o e
  else
    if with_retcode then ROutCode o code else ROut o.

(** The file system once [get_script_path] has seen to the directory. *)
Definition after_dir_step (dir : string) (files : list (string * node))
  : list (string * node) :=
  match lookup dir files with
  | Absent => (dir, Directory) :: files
  | _ => files
  end.

(** What [get_script_path] does once it has seen to the directory. *)
Definition script_step (env : Env) (script_name : string) : M State string :=
  let script_path := os_path_join (TMP_SCRIPT_DIR env) script_name in
  isfile <- os_path_isfile script_path ;;
  (if negb isfile then write_script env "ShellTestCase" script_path script_name
   else ret tt) ;;
  ret script_path.

(** The calls [get_script_path] makes. *)
Definition is_fs_event (e : event) : bool :=
  match e with EvMakedirs _ | EvGenerate _ _ => true | _ => false end.

(** From [st] to [st'] nothing but the file system has been touched. *)
Definition fs_only (st st' : State) : Prop :=
  process st' = process st /\ polls st' = polls st /\
  clock_reads st' = clock_reads st /\
  exists pre, log st' = (log st ++ pre)%list /\ forallb is_fs_event pre = true.

(** The call has ended, by returning or by raising, after at most [bound]
    polls. *)
Definition settled_run {A : Type} (r : result A * State) (bound : nat) : Prop :=
  fst r <> OutOfFuel /\ polls (snd r) <= bound.

(** Text without line terminators. *)
Definition no_terminator (c : ascii) : bool :=
  negb (Ascii.eqb c LF) && negb (Ascii.eqb c CR).

Fixpoint unbroken (s : string) : bool :=
  match s with
  | EmptyString => true
  | String c rest => no_terminator c && unbroken rest
  end.

(** The calls made on the child once it is spawned, when it is left to run
    to its end. *)
Definition completion_calls (py26 catch_stderr : bool) : list event :=
  if catch_stderr then
    if py26 then
      [EvWait; EvRead Stdout; EvRead Stderr; EvClose Stdout; EvClose Stderr;
       EvTerminate]
    else [EvCommunicate; EvClose Stdout; EvClose Stderr; EvTerminate]
  else [EvCommunicate; EvClose Stdout; EvTerminate].

(** The child is found exited by the poll of iteration [j], with status [c],
    and the clock reading of that iteration is not past the deadline. *)
Definition exits_in_time (env : Env) (t : Z) (j : nat) (c : Z) : Prop :=
  (forall k, k < j ->
     (now env (S k) <= deadline env t)%Z /\ waitpid env k = None) /\
  waitpid env j = Some c /\
  (now env (S j) <= deadline env t)%Z.

(** From the loop iteration [i] on, every clock reading is past the
    deadline. *)
Definition past_deadline_from (env : Env) (t : Z) (i : nat) : Prop :=
  forall k, i <= k -> (now env (S k) > deadline env t)%Z.

(** The state at the top of a loop iteration, whatever is known of the
    child. *)
Definition polling (files : list (string * node)) (p : Popen) (j : nat)
    (l : list event) : State :=
  {| fs := files; process := Some p; polls := j; clock_reads := S j;
     log := l |}.

(** A child that exits with status 0 before the second poll. *)
Definition linux_quick_child : Env :=
  {| TMP_SCRIPT_DIR := TMP_SCRIPT_DIR linux;
     environ_PYTHONPATH := None;
     sys_path := sys_path linux;
     version_info := (2, 7)%Z;
     sys_platform := "linux2";
     makedirs_errno := fun _ => None;
     fopen_errno := fun _ => None;
     popen_errno := None;
     now := fun k => (Z.of_nat k * 100000)%Z;
     waitpid := fun k => if Nat.leb 1 k then Some 0%Z else None;
     wait_status := 0%Z;
     killpg_errno := fun _ => None;
     stdout_data := stdout_data linux;
     stderr_data := EmptyString;
     terminate_errno := Some 3%Z |}.

(** A child that exits on the interrupt, with the status the signal gives. *)
Definition linux_child_heeds_interrupt : Env :=
  {| TMP_SCRIPT_DIR := TMP_SCRIPT_DIR linux;
     environ_PYTHONPATH := None;
     sys_path := sys_path linux;
     version_info := (2, 7)%Z;
     sys_platform := "linux2";
     makedirs_errno := fun _ => None;
     fopen_errno := fun _ => None;
     popen_errno := None;
     now := now linux;
     waitpid := fun k => if Nat.leb 2 k then Some (-2)%Z else None;
     wait_status := (-2)%Z;
     killpg_errno := fun sig => match sig with
                                | SIGINT => None
                                | SIGKILL => Some 3%Z
                                end;
     stdout_data := stdout_data linux;
     stderr_data := EmptyString;
     terminate_errno := Some 3%Z |}.

(** The clock is set back after the interrupt is sent: the deadline, passed
    at the reading of the second iteration, is found passed again at that
    of the fourth only. The child runs on. *)
Definition linux_clock_steps_back : Env :=
  {| TMP_SCRIPT_DIR := TMP_SCRIPT_DIR linux;
     environ_PYTHONPATH := None;
     sys_path := sys_path linux;
     version_info := (2, 7)%Z;
     sys_platform := "linux2";
     makedirs_errno := fun _ => None;
     fopen_errno := fun _ => None;
     popen_errno := None;
     now := fun k => match k with
                     | 3 => 900000%Z
                     | _ => (Z.of_nat k * 600000)%Z
                     end;
     waitpid := fun _ => None;
     wait_status := (-9)%Z;
     killpg_errno := fun _ => None;
     stdout_data := EmptyString;
     stderr_data := EmptyString;
     terminate_errno := Some 3%Z |}.

(** The kill is refused: errno 1, operation not permitted. *)
Definition linux_kill_denied : Env :=
  {| TMP_SCRIPT_DIR := TMP_SCRIPT_DIR linux;
     environ_PYTHONPATH := None;
     sys_path := sys_path linux;
     version_info := (2, 7)%Z;
     sys_platform := "linux2";
     makedirs_errno := fun _ => None;
     fopen_errno := fun _ => None;
     popen_errno := None;
     now := now linux;
     waitpid := fun _ => None;
     wait_status := 0%Z;
     killpg_errno := fun sig => match sig with
                                | SIGINT => None
                                | SIGKILL => Some 1%Z
                                end;
     stdout_data := EmptyString;
     stderr_data := EmptyString;
     terminate_errno := None |}.

(** Python 2.6. *)
Definition linux_python_2_6 : Env :=
  {| TMP_SCRIPT_DIR := TMP_SCRIPT_DIR linux;
     environ_PYTHONPATH := None;
     sys_path := sys_path linux;
     version_info := (2, 6)%Z;
     sys_platform := "linux2";
     makedirs_errno := fun _ => None;
     fopen_errno := fun _ => None;
     popen_errno := None;
     now := now linux;
     waitpid := fun _ => None;
     wait_status := 0%Z;
     killpg_errno := fun _ => None;
     stdout_data := stdout_data linux;
     stderr_data := EmptyString;
     terminate_errno := Some 3%Z |}.

(** The system cannot start another process. *)
Definition linux_cannot_fork : Env :=
  {| TMP_SCRIPT_DIR := TMP_SCRIPT_DIR linux;
     environ_PYTHONPATH := None;
     sys_path := sys_path linux;
     version_info := (2, 7)%Z;
     sys_platform := "linux2";
     makedirs_errno := fun _ => None;
     fopen_errno := fun _ => None;
     popen_errno := Some 11%Z;
     now := now linux;
     waitpid := fun _ => None;
     wait_status := 0%Z;
     killpg_errno := fun _ => None;
     stdout_data := EmptyString;
     stderr_data := EmptyString;
     terminate_errno := None |}.

(** A child that prints one line. *)
Definition linux_echo (text : string) : Env :=
  {| TMP_SCRIPT_DIR := TMP_SCRIPT_DIR linux;
     environ_PYTHONPATH := None;
     sys_path := sys_path linux;
     version_info := (2, 7)%Z;
     sys_platform := "linux2";
     makedirs_errno := fun _ => None;
     fopen_errno := fun _ => None;
     popen_errno := None;
     now := now linux;
     waitpid := fun _ => None;
     wait_status := 0%Z;
     killpg_errno := fun _ => None;
     stdout_data := text ++ String LF EmptyString;
     stderr_data := EmptyString;
     terminate_errno := Some 3%Z |}.

Definition sample_config : Config :=
  {| get_config_dir := "/tmp/salt-tests-tmpdir/config";
     TMP_CONF_DIR := "/tmp/salt-tests-tmpdir/config";
     json_loads := fun text =>
       if String.eqb text ("hello" ++ String LF EmptyString)
       then Some (PDict [("localhost", PBool true)])
       else None |}.

End XProps.

Module RXProps.

Import Marker ModuleCase RProps.

(** The atom is the group named [jid]. *)
Definition atom_is_jid (a : atom) : bool :=
  match a with
  | AnyStar n | Digits n => String.eqb n "jid"
  | _ => false
  end.

(** How many characters of a text are no digits. *)
Fixpoint nondigits (s : string) : nat :=
  match s with
  | EmptyString => 0
  | String c rest => (if is_digit c then 0 else 1) + nondigits rest
  end.

(** The two functions the reconciler calls. *)
Definition is_job_query (fn : string) : bool :=
  String.eqb fn "saltutil.find_job" || String.eqb fn "saltutil.kill_job".

(** The minion answers every [saltutil.find_job] and [saltutil.kill_job],
    with a settled reply; what it answers to other functions is free. *)
Definition jobs_answered (c : Client) : Prop :=
  forall k fn jid,
    is_job_query fn = true ->
    exists v, minion_reply c k fn jid = Some v /\ settled v = true.

(** A minion on which [state.single] finds the state of the sample marker
    line still running, and which answers job queries as [sample_client]
    does. *)
Definition stalled_client : Client :=
  {| cmd_reply := fun k tgt fn arg =>
       if String.eqb fn "state.single" then
         [(tgt, PList [PStr "a"; PStr spec_marker])]
       else cmd_reply sample_client k tgt fn arg;
     py_repr := sample_repr |}.

(** A minion that answers everything with [None]. *)
Definition none_client : Client :=
  {| cmd_reply := fun _ tgt _ _ => [(tgt, PNone)];
     py_repr := sample_repr |}.

(** A minion that does not answer at all. *)
Definition silent_client : Client :=
  {| cmd_reply := fun _ _ _ _ => [];
     py_repr := sample_repr |}.

End RXProps.

(** * Facts about strings *)

Module StringFacts.

Lemma append_assoc (a b c : string) : ((a ++ b) ++ c = a ++ (b ++ c))%string.
Proof.
  induction a as [|x a IH]; cbn [append]; [reflexivity | now rewrite IH].
Qed.

Lemma append_empty_r (a : string) : (a ++ EmptyString = a)%string.
Proof.
  induction a as [|x a IH]; cbn [append]; [reflexivity | now rewrite IH].
Qed.

Lemma contains_refl s : contains s s.
Proof.
  exists EmptyString, EmptyString. cbn [append].
  now rewrite append_empty_r.
Qed.

End StringFacts.

(** * Properties of the shell runner *)

Module ShellProofs.

Import Shell Props StringFacts.

(** ** Stepping through the model *)

Ltac fs_step :=
  cbv [bind ret raise get modify emit set_node
       fs process polls clock_reads log].

Ltac capture_step :=
  cbv [bind ret raise get modify emit set_process the_process os_path_isfile
       subprocess_Popen process_communicate stream_close process_wait
       stream_read try_finally try_except terminate_quietly process_terminate
       opt_splitlines get_handle set_handle closed_if_piped call
       catch_stderr with_retcode raw timeout truthy is_True negb andb
       fs process polls clock_reads log returncode stdout stderr].

Ltac loop_step :=
  cbv [bind ret raise get modify emit set_process the_process
       process_poll datetime_now os_killpg try_except timeout_return
       fs process polls clock_reads log returncode stdout stderr].

Ltac frame_done :=
  match goal with
  | H : (_, _) = (_, _) |- _ =>
      inversion H; subst; unfold frame; cbn [process polls clock_reads log];
      rewrite ?filter_app; cbn [filter is_spawn]; rewrite ?app_nil_r; auto
  end.

Lemma gtb_false x y : (x <= y)%Z -> (x >? y)%Z = false.
Proof. intros H. destruct (Z.gtb_spec x y); [lia | reflexivity]. Qed.

Lemma gtb_true x y : (x > y)%Z -> (x >? y)%Z = true.
Proof. intros H. destruct (Z.gtb_spec x y); [reflexivity | lia]. Qed.

(** ** get_script_path touches the file system only *)

Lemma frame_refl st : frame st st.
Proof. repeat split. Qed.

Lemma frame_trans a b c : frame a b -> frame b c -> frame a c.
Proof.
  intros (H1 & H2 & H3 & H4) (K1 & K2 & K3 & K4).
  repeat split; congruence.
Qed.

Lemma os_makedirs_frame env path st r st' :
  os_makedirs env path st = (r, st') -> frame st st'.
Proof.
  destruct st as [f p n c l]. unfold os_makedirs. fs_step.
  destruct (makedirs_errno env path); [| destruct (lookup path f)];
    intros H; frame_done.
Qed.

Lemma write_script_frame env self path name st r st' :
  write_script env self path name st = (r, st') -> frame st st'.
Proof.
  destruct st as [f p n c l]. unfold write_script. fs_step.
  destruct (fopen_errno env path); [intros H; frame_done |].
  destruct (lookup path f);
    (destruct (SCRIPT_TEMPLATES_get name);
     [| destruct (SCRIPT_TEMPLATES_get "common")]); fs_step;
    intros H; frame_done.
Qed.

Lemma get_script_path_frame env scr st r st' :
  get_script_path env scr st = (r, st') -> frame st st'.
Proof.
  unfold get_script_path, os_path_isdir, os_path_isfile.
  cbv [bind ret get].
  set (dir_there := match lookup (TMP_SCRIPT_DIR env) (fs st) with
                    | Directory => true | _ => false end).
  destruct (negb dir_there).
  - destruct (os_makedirs env (TMP_SCRIPT_DIR env) st) as [r1 st1] eqn:E1.
    apply os_makedirs_frame in E1.
    destruct r1; [| intros H; inversion H; subst; exact E1 ..].
    destruct (negb _).
    + destruct (write_script _ _ _ _ st1) as [r2 st2] eqn:E2.
      apply write_script_frame in E2.
      destruct r2; intros H; inversion H; subst; eapply frame_trans; eauto.
    + intros H; inversion H; subst; exact E1.
  - destruct (negb _).
    + destruct (write_script _ _ _ _ st) as [r2 st2] eqn:E2.
      apply write_script_frame in E2.
      destruct r2; intros H; inversion H; subst; exact E2.
    + intros H; inversion H; subst. apply frame_refl.
Qed.

Lemma located_inv env scr files :
  script_located env scr files = true ->
  exists path st,
    get_script_path env scr (initial_state files) = (Ok path, st)
    /\ lookup path (fs st) = Regular.
Proof.
  unfold script_located.
  destruct (get_script_path env scr (initial_state files))
    as [[path|e|] st]; try discriminate.
  destruct (lookup path (fs st)) eqn:E; try discriminate.
  intros _. eauto.
Qed.

(** ** The polling loop *)

(** One iteration before the deadline, the child still running. *)
Lemma poll_loop_iter fuel env a t stop ts files se j l :
  (now env (S j) <= stop)%Z -> waitpid env j = None ->
  poll_loop (S fuel) env a t stop ts (waiting files se j l)
  = poll_loop fuel env a t stop ts (waiting files se (S j) (l ++ [EvPoll])).
Proof.
  intros Hnow Hwait. cbn [poll_loop]. unfold waiting.
  loop_step. rewrite Hwait, (gtb_false _ _ Hnow). reflexivity.
Qed.

(** [d] such iterations in a row. *)
Lemma poll_loop_skip d : forall fuel env a t stop ts files se j l,
  (forall k, j <= k < j + d ->
     (now env (S k) <= stop)%Z /\ waitpid env k = None) ->
  poll_loop (d + fuel) env a t stop ts (waiting files se j l)
  = poll_loop fuel env a t stop ts
      (waiting files se (j + d) (l ++ repeat EvPoll d)).
Proof.
  induction d as [|d IH]; intros fuel env a t stop ts files se j l H.
  - cbn [repeat Nat.add]. rewrite Nat.add_0_r, app_nil_r. reflexivity.
  - cbn [Nat.add]. destruct (H j ltac:(lia)) as [Hn Hw].
    rewrite (poll_loop_iter _ _ _ _ _ _ _ _ _ _ Hn Hw).
    rewrite IH by (intros k Hk; apply H; lia).
    rewrite <- Nat.add_succ_comm. cbn [repeat].
    rewrite <- app_assoc. reflexivity.
Qed.

(** The deadline passes in iteration [i]: interrupt, one more poll, kill,
    return. *)
Lemma poll_loop_escalates fuel env scr args catch_ with_ret raw_ t stop
    files se i l :
  (now env (S i) > stop)%Z -> (now env (S (S i)) > stop)%Z ->
  waitpid env i = None ->
  killpg_errno env SIGINT = None ->
  killpg_errno env SIGKILL = None \/ killpg_errno env SIGKILL = Some 3%Z ->
  poll_loop (S (S fuel)) env (call scr args catch_ with_ret (Some t) raw_)
    t stop false (waiting files se i l)
  = (Ok (Some (timeout_result catch_ with_ret t (waitpid env (S i)))),
     killed files se i (waitpid env (S i)) l).
Proof.
  intros H1 H2 Hw Hint Hkill. cbn [poll_loop].
  unfold waiting, killed, timeout_result, call.
  loop_step. rewrite Hw, (gtb_true _ _ H1), Hint. cbn [negb].
  loop_step. rewrite (gtb_true _ _ H2). cbn [negb].
  rewrite <- !app_assoc. cbn [app].
  destruct Hkill as [-> | ->]; cbn [Z.eqb Pos.eqb negb];
    destruct catch_, with_ret; cbn [truthy catch_stderr with_retcode];
    loop_step; reflexivity.
Qed.

(** The interrupt is sent outside any [try]: whatever [os.killpg] raises
    leaves the loop, whether or not the poll just before found the child
    exited. *)
Lemma poll_loop_interrupt_raises fuel env a t stop files p n l e :
  (now env (S n) > stop)%Z ->
  killpg_errno env SIGINT = Some e ->
  poll_loop (S fuel) env a t stop false
    {| fs := files; process := Some p; polls := n; clock_reads := S n;
       log := l |}
  = (Raise (OSError e),
     {| fs := files;
        process := Some {| returncode := match returncode p with
                                         | Some c => Some c
                                         | None => waitpid env n
                                         end;
                           stdout := stdout p; stderr := stderr p |};
        polls := S n; clock_reads := S (S n);
        log := l ++ [EvPoll; EvKillpg SIGINT] |}).
Proof.
  intros H1 Hint. cbn [poll_loop]. destruct p as [rc so se].
  loop_step. rewrite (gtb_true _ _ H1), Hint. cbn [negb].
  rewrite <- !app_assoc. reflexivity.
Qed.

(** An error of the kill other than errno 3 leaves the loop as well. *)
Lemma poll_loop_kill_raises fuel env a t stop files se i l e :
  (now env (S i) > stop)%Z -> (now env (S (S i)) > stop)%Z ->
  waitpid env i = None ->
  killpg_errno env SIGINT = None ->
  killpg_errno env SIGKILL = Some e -> e <> 3%Z ->
  poll_loop (S (S fuel)) env a t stop false (waiting files se i l)
  = (Raise (OSError e),
     {| fs := files;
        process := Some {| returncode := waitpid env (S i); stdout := Open;
                           stderr := se |};
        polls := S (S i); clock_reads := S (S (S i));
        log := l ++ [EvPoll; EvKillpg SIGINT; EvPoll; EvKillpg SIGKILL] |}).
Proof.
  intros H1 H2 Hw Hint Hkill Hne. cbn [poll_loop]. unfold waiting.
  loop_step. rewrite Hw, (gtb_true _ _ H1), Hint. cbn [negb].
  loop_step. rewrite (gtb_true _ _ H2), Hkill. cbn [negb].
  apply Z.eqb_neq in Hne. rewrite Hne. cbn [negb].
  rewrite <- !app_assoc. reflexivity.
Qed.

(** ** run_script up to the loop, and through the timeout branch *)

Lemma run_script_enters_loop fuel env scr args catch_ with_ret raw_ t files :
  script_located env scr files = true ->
  popen_errno env = None ->
  platform_is_win env = false ->
  exists files' l,
    run_script fuel env (call scr args catch_ with_ret (Some t) raw_)
      (initial_state files)
    = bind (poll_loop fuel env (call scr args catch_ with_ret (Some t) raw_)
              t (deadline env t) false)
        (after_loop env (call scr args catch_ with_ret (Some t) raw_))
        (waiting files' (if catch_ then Open else NoPipe) 0 l).
Proof.
  intros Hloc Hspawn Hwin.
  destruct (located_inv _ _ _ Hloc) as (path & st & Hpath & Hreg).
  destruct (get_script_path_frame _ _ _ _ _ Hpath) as (Hp & Hn & Hc & _).
  destruct st as [fs1 p1 n1 c1 log1]. cbn in Hreg, Hp, Hn, Hc. subst p1 n1 c1.
  exists fs1, (log1 ++ [EvSpawn (build_cmd env path args) catch_ true])%list.
  unfold run_script.
  unfold bind at 1. cbn [script call]. rewrite Hpath.
  unfold bind at 1. unfold os_path_isfile at 1.
  cbv [bind ret get fs]. rewrite Hreg. cbn [negb]. rewrite Hwin. cbn [negb].
  unfold subprocess_Popen. rewrite Hspawn.
  cbv [bind ret get modify emit set_process datetime_now
       catch_stderr timeout arg_str is_True
       fs process polls clock_reads log].
  unfold deadline, waiting, after_loop.
  destruct catch_; reflexivity.
Qed.

Lemma run_script_timeout_path fuel env scr args catch_ with_ret raw_ t i files :
  script_located env scr files = true ->
  popen_errno env = None ->
  platform_is_win env = false ->
  times_out_at env t i ->
  killpg_errno env SIGINT = None ->
  killpg_errno env SIGKILL = None \/ killpg_errno env SIGKILL = Some 3%Z ->
  i + 2 <= fuel ->
  exists files' l,
    run_script fuel env (call scr args catch_ with_ret (Some t) raw_)
      (initial_state files)
    = (Ok (timeout_result catch_ with_ret t (waitpid env (S i))),
       killed files' (if catch_ then Open else NoPipe) i
         (waitpid env (S i)) l).
Proof.
  intros Hloc Hspawn Hwin (Hbefore & Hat & Hnext & Halive) Hint Hkill Hfuel.
  destruct (run_script_enters_loop fuel env scr args catch_ with_ret raw_ t
              files Hloc Hspawn Hwin) as (files' & l & ->).
  replace fuel with (i + S (S (fuel - i - 2))) by lia.
  unfold bind.
  rewrite poll_loop_skip
    by (intros k Hk; split; [apply Hbefore | apply Halive]; lia).
  cbn [Nat.add].
  erewrite poll_loop_escalates by eauto.
  cbn [after_loop ret]. do 2 eexists. reflexivity.
Qed.

(** ** The streams without a timeout *)

(** When a call without timeout finds its script and spawns the child, the
    streams that were redirected are closed when the call returns. *)
Lemma streams_closed_without_timeout
    fuel env scr args catch_ with_ret raw_ files :
  script_located env scr files = true ->
  popen_errno env = None ->
  exists v st',
    run_script fuel env (call scr args catch_ with_ret None raw_)
      (initial_state files) = (Ok v, st')
    /\ handle_of Stdout st' = Some Closed
    /\ handle_of Stderr st' = Some (if catch_ then Closed else NoPipe).
Proof.
  intros Hloc Hspawn.
  destruct (located_inv _ _ _ Hloc) as (path & st & Hpath & Hreg).
  destruct st as [fs1 p1 n1 c1 log1]. cbn [fs] in Hreg.
  unfold run_script.
  unfold bind at 1. cbn [script call]. rewrite Hpath.
  unfold capture_both, capture_stdout.
  capture_step. rewrite Hreg, Hspawn.
  destruct (platform_is_win env), (before_python_2_7 env),
    (terminate_errno env), catch_, with_ret, raw_;
    eexists; eexists; (split; [reflexivity | split; reflexivity]).
Qed.

(** ** The timeout branch *)

Ltac sample_times_out :=
  unfold times_out_at; split; [| split; [| split]];
  [ intros j Hj; assert (j = 0) as -> by lia; vm_compute; discriminate
  | vm_compute; reflexivity
  | vm_compute; reflexivity
  | intros; reflexivity ].

(** ** Signal delivery *)

(** C3, where the code departs from it. The interrupt is sent outside the
    [try]: when the deadline passes in iteration [i] and [os.killpg] raises
    [OSError] with any errno [e], errno 3 (no such process) included,
    [run_script] raises it. *)
Theorem interrupt_error_propagates
    fuel env scr args catch_ with_ret raw_ t i e files :
  script_located env scr files = true ->
  popen_errno env = None ->
  platform_is_win env = false ->
  (forall j, j < i ->
     (now env (S j) <= deadline env t)%Z /\ waitpid env j = None) ->
  (now env (S i) > deadline env t)%Z ->
  killpg_errno env SIGINT = Some e ->
  i + 1 <= fuel ->
  fst (run_script fuel env (call scr args catch_ with_ret (Some t) raw_)
         (initial_state files))
  = Raise (OSError e).
Proof.
  intros Hloc Hspawn Hwin Hbefore Hat Hint Hfuel.
  destruct (run_script_enters_loop fuel env scr args catch_ with_ret raw_ t
              files Hloc Hspawn Hwin) as (files' & l & ->).
  replace fuel with (i + S (fuel - i - 1)) by lia.
  unfold bind.
  rewrite poll_loop_skip by (intros k Hk; apply Hbefore; lia).
  cbn [Nat.add]. unfold waiting.
  erewrite poll_loop_interrupt_raises by eauto.
  reflexivity.
Qed.

Lemma interrupt_error_propagates_witness :
  fst (run_script 2 linux_child_just_exited
         (call "salt-cloud" "-p profile vm" false false (Some 1%Z) false)
         (initial_state (script_present linux_child_just_exited "salt-cloud")))
  = Raise (OSError 3).
Proof.
  apply (interrupt_error_propagates 2 linux_child_just_exited "salt-cloud"
           "-p profile vm" false false false 1%Z 1 3%Z
           (script_present linux_child_just_exited "salt-cloud"));
    [ reflexivity | reflexivity | reflexivity
    | intros j Hj; assert (j = 0) as -> by lia;
      split; [vm_compute; discriminate | reflexivity]
    | vm_compute; reflexivity | reflexivity | lia ].
Defined.

(** The kill is sent inside the [try]: errno 3 is swallowed (see
    [run_script_timeout_path]) and any other errno is raised. *)
Lemma kill_error_propagates
    fuel env scr args catch_ with_ret raw_ t i e files :
  script_located env scr files = true ->
  popen_errno env = None ->
  platform_is_win env = false ->
  times_out_at env t i ->
  killpg_errno env SIGINT = None ->
  killpg_errno env SIGKILL = Some e -> e <> 3%Z ->
  i + 2 <= fuel ->
  fst (run_script fuel env (call scr args catch_ with_ret (Some t) raw_)
         (initial_state files))
  = Raise (OSError e).
Proof.
  intros Hloc Hspawn Hwin (Hbefore & Hat & Hnext & Halive) Hint Hkill Hne Hfuel.
  destruct (run_script_enters_loop fuel env scr args catch_ with_ret raw_ t
              files Hloc Hspawn Hwin) as (files' & l & ->).
  replace fuel with (i + S (S (fuel - i - 2))) by lia.
  unfold bind.
  rewrite poll_loop_skip
    by (intros k Hk; split; [apply Hbefore | apply Halive]; lia).
  cbn [Nat.add].
  erewrite poll_loop_kill_raises by eauto.
  reflexivity.
Qed.

(** ** Stream handles *)

(** C4, where the code departs from it. The timeout branch returns with the
    redirected streams still open: nothing on that path reads them to the
    end or closes them. *)
Theorem timeout_leaves_streams_open
    fuel env scr args catch_ with_ret raw_ t i files :
  script_located env scr files = true ->
  popen_errno env = None ->
  platform_is_win env = false ->
  times_out_at env t i ->
  killpg_errno env SIGINT = None ->
  killpg_errno env SIGKILL = None \/ killpg_errno env SIGKILL = Some 3%Z ->
  i + 2 <= fuel ->
  exists v st',
    run_script fuel env (call scr args catch_ with_ret (Some t) raw_)
      (initial_state files) = (Ok v, st')
    /\ handle_of Stdout st' = Some Open
    /\ (catch_ = true -> handle_of Stderr st' = Some Open).
Proof.
  intros Hloc Hspawn Hwin Htime Hint Hkill Hfuel.
  destruct (run_script_timeout_path fuel env scr args catch_ with_ret raw_ t i
              files Hloc Hspawn Hwin Htime Hint Hkill Hfuel)
    as (files' & l & Hrun).
  do 2 eexists. split; [exact Hrun |]. split; [reflexivity |].
  intros ->. reflexivity.
Qed.

Lemma timeout_leaves_streams_open_witness :
  exists v st',
    run_script 3 linux_slow_child
      (call "salt-cloud" "-p profile vm" true false (Some 1%Z) false)
      (initial_state (script_present linux_slow_child "salt-cloud"))
    = (Ok v, st')
    /\ handle_of Stdout st' = Some Open
    /\ (true = true -> handle_of Stderr st' = Some Open).
Proof.
  apply (timeout_leaves_streams_open 3 linux_slow_child "salt-cloud"
           "-p profile vm" true false false 1%Z 1
           (script_present linux_slow_child "salt-cloud"));
    [ reflexivity | reflexivity | reflexivity | sample_times_out
    | reflexivity | left; reflexivity | lia ].
Defined.


End ShellProofs.

(** * Properties of the marker pattern *)

Module MarkerProofs.

Import Marker ModuleCase RProps StringFacts.

Lemma strip_prefix_app p s : strip_prefix p (p ++ s) = Some s.
Proof.
  induction p as [|a p IH]; cbn [strip_prefix append]; [reflexivity |].
  now rewrite Ascii.eqb_refl.
Qed.

Lemma match_lit l more s :
  match_atoms (Lit l :: more) (l ++ s) = match_atoms more s.
Proof. cbn [match_atoms]. now rewrite strip_prefix_app. Qed.

Lemma match_quote more q s :
  is_quote q = true ->
  match_atoms (Quote :: more) (String q s) = match_atoms more s.
Proof. intros H. cbn [match_atoms]. now rewrite H. Qed.

(** A greedy repetition finds a match whenever some split of the text gives
    one: it tries every length, the longest first. *)
Lemma greedy_complete ok k cap : forall allow_empty s,
  string_forall ok cap = true ->
  (allow_empty = true \/ cap <> EmptyString) ->
  k s <> None ->
  greedy ok k allow_empty (cap ++ s) <> None.
Proof.
  induction cap as [|c cap IH]; intros allow_empty s Hok Hne Hk.
  - destruct Hne as [-> | Hne]; [| congruence].
    cbn [append]. destruct (k s) as [g|] eqn:Ek; [| congruence].
    destruct s as [|c s]; cbn [greedy]; rewrite Ek; [discriminate |].
    destruct (ok c); [| discriminate].
    destruct (greedy ok k true s) as [[cap' g']|]; discriminate.
  - cbn [string_forall] in Hok. apply andb_true_iff in Hok as [Hc Hcap].
    cbn [append greedy]. rewrite Hc.
    specialize (IH true s Hcap (or_introl eq_refl) Hk).
    destruct (greedy ok k true (cap ++ s)) as [[cap' g']|];
      [discriminate | congruence].
Qed.

Lemma match_any_star name more cap s :
  one_line cap = true ->
  match_atoms more s <> None ->
  match_atoms (AnyStar name :: more) (cap ++ s) <> None.
Proof.
  intros Hcap Hk. cbn [match_atoms].
  pose proof (greedy_complete not_LF (match_atoms more) cap true s Hcap
                (or_introl eq_refl) Hk) as H.
  change (fun c => negb (Ascii.eqb c LF)) with not_LF.
  destruct (greedy not_LF (match_atoms more) true (cap ++ s)) as [[c g]|];
    [discriminate | congruence].
Qed.

Lemma match_digits name more cap s :
  number cap = true ->
  match_atoms more s <> None ->
  match_atoms (Digits name :: more) (cap ++ s) <> None.
Proof.
  intros Hcap Hk. cbn [match_atoms].
  assert (Hd : string_forall is_digit cap = true /\ cap <> EmptyString)
    by (destruct cap; [discriminate | split; [exact Hcap | discriminate]]).
  destruct Hd as [Hd Hne].
  pose proof (greedy_complete is_digit (match_atoms more) cap false s Hd
                (or_intror Hne) Hk) as H.
  destruct (greedy is_digit (match_atoms more) false (cap ++ s)) as [[c g]|];
    [discriminate | congruence].
Qed.

(** The pattern accepts a marker line whatever the two quote characters. *)
Lemma marker_line_matches q1 q2 name pid date jid :
  is_quote q1 = true -> is_quote q2 = true ->
  one_line name = true -> number pid = true ->
  one_line date = true -> number jid = true ->
  marker_jid (marker_line q1 q2 name pid date jid) <> None.
Proof.
  intros Hq1 Hq2 Hname Hpid Hdate Hjid.
  unfold marker_jid, marker_line, STATE_FUNCTION_RUNNING_RE.
  assert (match_atoms
            [ Lit "The function "; Quote; AnyStar "state_func"; Quote;
              Lit " is running as PID "; Digits "pid";
              Lit " and was started at "; AnyStar "date";
              Lit " with jid "; Digits "jid" ]
            ("The function " ++ String q1 (name ++ String q2
               (" is running as PID " ++ pid ++ " and was started at "
                  ++ date ++ " with jid " ++ jid))) <> None) as H.
  { rewrite match_lit, (match_quote _ _ _ Hq1).
    apply match_any_star; [exact Hname |].
    rewrite (match_quote _ _ _ Hq2), match_lit.
    apply match_digits; [exact Hpid |].
    rewrite match_lit.
    apply match_any_star; [exact Hdate |].
    rewrite match_lit.
    rewrite <- (append_empty_r jid).
    apply match_digits; [exact Hjid |].
    discriminate. }
  destruct (match_atoms _ _); [discriminate | congruence].
Qed.

(** C9. The two quote characters around the function name are matched
    independently: a line that opens with one quote character and closes
    with the other (or with the same) is recognised as a marker line, and
    the loop of [_check_state_return] then queries and kills the job and
    appends a diagnostic. *)
Theorem marker_quotes_independent q1 q2 name pid date jid :
  is_quote q1 = true -> is_quote q2 = true ->
  one_line name = true -> number pid = true ->
  one_line date = true -> number jid = true ->
  exists found,
    marker_jid (marker_line q1 q2 name pid date jid) = Some found
    /\ forall c run more ret_,
         scan c run (PStr (marker_line q1 q2 name pid date jid) :: more)
           [] ret_
         = (job_data <- run "saltutil.find_job" [PStr found] ;;
            job_kill <- run "saltutil.kill_job" [PStr found] ;;
            scan c run more [found]
              (ret_ ++ [PStr (diagnostic c job_data job_kill)])).
Proof.
  intros Hq1 Hq2 Hname Hpid Hdate Hjid.
  pose proof (marker_line_matches q1 q2 name pid date jid
                Hq1 Hq2 Hname Hpid Hdate Hjid) as H.
  destruct (marker_jid (marker_line q1 q2 name pid date jid))
    as [found|] eqn:E; [| congruence].
  exists found. split; [reflexivity |].
  intros c run more ret_. cbn [scan]. rewrite E. reflexivity.
Qed.

Lemma marker_quotes_independent_witness :
  exists found,
    marker_jid mixed_quote_marker = Some found
    /\ forall c run more ret_,
         scan c run (PStr mixed_quote_marker :: more) [] ret_
         = (job_data <- run "saltutil.find_job" [PStr found] ;;
            job_kill <- run "saltutil.kill_job" [PStr found] ;;
            scan c run more [found]
              (ret_ ++ [PStr (diagnostic c job_data job_kill)])).
Proof.
  apply (marker_quotes_independent DQUOTE SQUOTE "state.sls" "123"
           "2020-01-01T00:00:00" "456"); reflexivity.
Defined.

End MarkerProofs.

(** * Properties of the reconciler *)

Module ReconcilerProofs.

Import Marker ModuleCase RProps StringFacts.

Ltac rstep :=
  cbv [bind ret raise get modify out_of_fuel client_cmd calls log].

(** ** Nothing to reconcile *)

Lemma scan_no_marker c run items : forall jids ret_ st,
  forallb no_marker items = true ->
  scan c run items jids ret_ st = (Ok ret_, st).
Proof.
  induction items as [|item more IH]; intros jids ret_ st H; [reflexivity |].
  cbn [forallb] in H. apply andb_true_iff in H as [Hitem Hmore].
  cbn [scan].
  destruct item as [| b | z | line | l | d]; try (now apply IH).
  unfold no_marker in Hitem.
  destruct (marker_jid line); [discriminate | now apply IH].
Qed.

Lemma check_list_unfold fuel c depth l func :
  _check_state_return fuel c depth (PList l) func
  = (l' <- scan c (run_job fuel c depth) l [] l ;; ret (PList l')).
Proof. destruct fuel; reflexivity. Qed.

Lemma check_settled fuel c depth v func st :
  settled v = true ->
  _check_state_return fuel c depth v func st = (Ok v, st).
Proof.
  intros H. destruct v as [| b | z | s | l | d];
    try (destruct fuel; reflexivity).
  rewrite check_list_unfold. unfold bind.
  cbn [settled] in H. rewrite (scan_no_marker _ _ _ _ _ _ H). reflexivity.
Qed.

(** C8. The reconciler is the identity where there is nothing to
    reconcile: a dict comes back as it is, and so does a list none of whose
    items is a marker line; no job query is made. *)
Theorem reconciler_identity fuel c depth func st :
  (forall d,
     _check_state_return fuel c depth (PDict d) func st = (Ok (PDict d), st))
  /\ (forall l,
        forallb no_marker l = true ->
        _check_state_return fuel c depth (PList l) func st
        = (Ok (PList l), st)).
Proof.
  split.
  - intros d. now apply check_settled.
  - intros l H. now apply check_settled.
Qed.

Lemma reconciler_identity_witness :
  _check_state_return 0 sample_client 0
    (PList [PStr "minion did not return"; PInt 3; PStr "b"]) "state.single"
    initial_state
  = (Ok (PList [PStr "minion did not return"; PInt 3; PStr "b"]),
     initial_state).
Proof.
  apply (proj2 (reconciler_identity 0 sample_client 0 "state.single"
                  initial_state)).
  reflexivity.
Defined.

(** ** What a pass appends *)

(** Whatever the client does, a pass that returns has only appended, and
    one diagnostic line for each job id that was not yet on record. *)
Lemma scan_appends c run items : forall jids ret_ st r st',
  scan c run items jids ret_ st = (Ok r, st') ->
  exists diags,
    r = (ret_ ++ diags)%list
    /\ List.length diags
       = List.length (first_occurrences jids (marker_jids items))
    /\ Forall (fun d => exists job_data job_kill,
                 d = PStr (diagnostic c job_data job_kill)) diags.
Proof.
  induction items as [|item more IH]; intros jids ret_ st r st' H.
  - inversion H; subst. exists []. rewrite app_nil_r.
    repeat split; constructor.
  - cbn [scan] in H. cbn [marker_jids].
    destruct item as [| b | z | line | l | d]; try (now eapply IH; eauto).
    destruct (marker_jid line) as [jid|]; [| now eapply IH; eauto].
    cbn [first_occurrences].
    destruct (jid_in jid jids); [now eapply IH; eauto |].
    unfold bind in H.
    destruct (run "saltutil.find_job" [PStr jid] st) as [[job_data|e|] st1];
      try discriminate.
    destruct (run "saltutil.kill_job" [PStr jid] st1) as [[job_kill|e|] st2];
      try discriminate.
    apply IH in H as (diags & -> & Hlen & Hall).
    exists (PStr (diagnostic c job_data job_kill) :: diags).
    rewrite <- app_assoc. cbn [app List.length]. rewrite Hlen.
    repeat split. constructor; [eauto | exact Hall].
Qed.

(** A job query that the minion answers with a settled reply. *)
Lemma run_job_settled fuel c depth fn jid st :
  answers_settled c ->
  run_job (S fuel) c depth fn [PStr jid] st
  = (Ok (or_None (minion_reply c (calls st) fn jid)),
     {| calls := S (calls st);
        log := log st ++ [EvCmd depth "minion" fn [PStr jid] 25] |}).
Proof.
  intros Hc. destruct st as [n l]. cbn [calls log].
  destruct (Hc n fn jid) as (v & Hv & Hs).
  unfold run_job, run_function_with. rstep.
  unfold minion_reply in *. rewrite Hv. cbn [or_None].
  destruct v; try discriminate;
    (rewrite check_settled by exact Hs); reflexivity.
Qed.

Lemma scan_settled fuel c depth items : forall jids ret_ st,
  answers_settled c ->
  scan c (run_job (S fuel) c depth) items jids ret_ st
  = (Ok (ret_ ++ diagnostics_for c (calls st)
                   (first_occurrences jids (marker_jids items)))%list,
     {| calls := calls st
                 + 2 * List.length (first_occurrences jids (marker_jids items));
        log := (log st
                ++ queries_for depth
                     (first_occurrences jids (marker_jids items)))%list |}).
Proof.
  intros jids ret_ st Hc. revert jids ret_ st.
  induction items as [|item more IH]; intros jids ret_ st.
  - cbn. rewrite !app_nil_r, Nat.add_0_r. destruct st; reflexivity.
  - cbn [scan marker_jids].
    destruct item as [| b | z | line | l | d]; try apply IH.
    destruct (marker_jid line) as [jid|]; [| apply IH].
    cbn [first_occurrences].
    destruct (jid_in jid jids); [apply IH |].
    unfold bind. rewrite (run_job_settled _ _ _ _ _ _ Hc).
    rewrite (run_job_settled _ _ _ _ _ _ Hc).
    rewrite IH. cbn [calls log diagnostics_for queries_for List.length].
    rewrite <- !app_assoc. cbn [app].
    f_equal. f_equal. lia.
Qed.

Lemma diagnostics_for_length c jids : forall k,
  List.length (diagnostics_for c k jids) = List.length jids.
Proof.
  induction jids as [|jid more IH]; intros k; cbn; [reflexivity |].
  now rewrite IH.
Qed.

(** The diagnostic line shows both results. *)
Lemma diagnostic_contains_results c job_data job_kill :
  contains (py_repr c job_data) (diagnostic c job_data job_kill)
  /\ contains (py_repr c job_kill) (diagnostic c job_data job_kill).
Proof.
  unfold diagnostic, contains. split.
  - exists ("[TEST SUITE ENFORCED]"
            ++ "A running state.single was found causing a state lock. Job details: ")%string,
           (("  Killing Job Returned: " ++ py_repr c job_kill)
            ++ "[/TEST SUITE ENFORCED]")%string.
    now rewrite !append_assoc.
  - exists ("[TEST SUITE ENFORCED]"
            ++ "A running state.single was found causing a state lock. Job details: "
            ++ py_repr c job_data ++ "  Killing Job Returned: ")%string,
           "[/TEST SUITE ENFORCED]"%string.
    now rewrite !append_assoc.
Qed.

(** ** The record of handled job ids *)

Lemma jid_in_spec x l : jid_in x l = true <-> In x l.
Proof.
  unfold jid_in. rewrite existsb_exists. split.
  - intros (y & Hy & E). apply String.eqb_eq in E. now subst.
  - intros H. exists x. split; [exact H | apply String.eqb_refl].
Qed.

Lemma first_occurrences_spec l : forall seen x,
  In x (first_occurrences seen l) <-> In x l /\ ~ In x seen.
Proof.
  induction l as [|y more IH]; intros seen x; cbn [first_occurrences In].
  - tauto.
  - destruct (jid_in y seen) eqn:E.
    + apply jid_in_spec in E. rewrite IH. split.
      * tauto.
      * intros [[-> | H] Hn]; tauto.
    + assert (Hy : ~ In y seen)
        by (intros H; apply jid_in_spec in H; congruence).
      cbn [In]. rewrite IH, in_app_iff. cbn [In]. split.
      * intros [-> | [H Hn]]; [tauto |]. split; [tauto |]. tauto.
      * intros [[-> | H] Hn]; [tauto |].
        destruct (string_dec y x) as [-> | Hne]; [tauto |].
        right. split; [exact H |]. intros [K | [K | []]]; tauto.
Qed.

Lemma first_occurrences_NoDup l : forall seen,
  NoDup (first_occurrences seen l).
Proof.
  induction l as [|y more IH]; intros seen; cbn [first_occurrences].
  - constructor.
  - destruct (jid_in y seen); [apply IH |].
    constructor; [| apply IH].
    rewrite first_occurrences_spec, in_app_iff. cbn [In]. tauto.
Qed.

(** C5. For every list, a pass that returns gives back the original items,
    unchanged and in order, followed by what it appended: exactly one
    diagnostic line per distinct job id of the marker lines. When the minion
    answers the job queries the pass does return, and the lines appended are,
    in the order in which the job ids first occur, made of the answers to
    each job id's [saltutil.find_job] and [saltutil.kill_job]. *)
Theorem reconciler_appends_diagnostics fuel c depth l func st :
  (forall v st',
     _check_state_return fuel c depth (PList l) func st = (Ok v, st') ->
     exists diags,
       v = PList (l ++ diags)
       /\ List.length diags = List.length (unique_jids l)
       /\ Forall (fun d => exists job_data job_kill,
                    d = PStr (diagnostic c job_data job_kill)
                    /\ contains (py_repr c job_data)
                         (diagnostic c job_data job_kill)
                    /\ contains (py_repr c job_kill)
                         (diagnostic c job_data job_kill)) diags)
  /\ (answers_settled c ->
      fst (_check_state_return (S fuel) c depth (PList l) func st)
      = Ok (PList (l ++ diagnostics_for c (calls st) (unique_jids l))))
  /\ NoDup (unique_jids l)
  /\ (forall jid, In jid (unique_jids l) <-> In jid (marker_jids l)).
Proof.
  split; [| split; [| split]].
  - intros v st' H. rewrite check_list_unfold in H. unfold bind in H.
    destruct (scan c (run_job fuel c depth) l [] l st) as [[r|e|] st1] eqn:E;
      try discriminate.
    inversion H; subst. apply scan_appends in E as (diags & -> & Hlen & Hall).
    exists diags. repeat split; [exact Hlen |].
    eapply Forall_impl; [| exact Hall]. cbn.
    intros d (job_data & job_kill & ->). exists job_data, job_kill.
    split; [reflexivity | apply diagnostic_contains_results].
  - intros Hc. rewrite check_list_unfold. unfold bind.
    rewrite (scan_settled _ _ _ _ _ _ _ Hc). reflexivity.
  - apply first_occurrences_NoDup.
  - intros jid. unfold unique_jids. rewrite first_occurrences_spec.
    cbn [In]. tauto.
Qed.

Lemma reconciler_appends_diagnostics_witness :
  (exists diags,
     PList [ PStr "a"; PStr spec_marker; PStr "b";
             PStr (diagnostic sample_client (PStr "456")
                     (PStr "Signal 9 sent to job")) ]
     = PList ([PStr "a"; PStr spec_marker; PStr "b"] ++ diags)
     /\ List.length diags
        = List.length (unique_jids [PStr "a"; PStr spec_marker; PStr "b"])
     /\ Forall (fun d => exists job_data job_kill,
                  d = PStr (diagnostic sample_client job_data job_kill)
                  /\ contains (py_repr sample_client job_data)
                       (diagnostic sample_client job_data job_kill)
                  /\ contains (py_repr sample_client job_kill)
                       (diagnostic sample_client job_data job_kill)) diags)
  /\ fst (_check_state_return 1 sample_client 0
            (PList [PStr "a"; PStr spec_marker; PStr "b"]) "state.single"
            initial_state)
     = Ok (PList ([PStr "a"; PStr spec_marker; PStr "b"]
                  ++ diagnostics_for sample_client 0
                       (unique_jids [PStr "a"; PStr spec_marker; PStr "b"]))).
Proof.
  split.
  - apply (proj1 (reconciler_appends_diagnostics 1 sample_client 0
                    [PStr "a"; PStr spec_marker; PStr "b"] "state.single"
                    initial_state)
             _ {| calls := 2;
                  log := [ EvCmd 0 "minion" "saltutil.find_job" [PStr "456"] 25;
                           EvCmd 0 "minion" "saltutil.kill_job" [PStr "456"] 25 ] |}).
    reflexivity.
  - apply (proj1 (proj2 (reconciler_appends_diagnostics 0 sample_client 0
                    [PStr "a"; PStr spec_marker; PStr "b"] "state.single"
                    initial_state))).
    intros k fn jid. unfold minion_reply, sample_client. cbn [cmd_reply].
    destruct (String.eqb fn "saltutil.find_job");
      cbn [dict_get]; rewrite String.eqb_refl; eexists; split; reflexivity.
Defined.

(** The example of the specification, run. *)
Lemma reconciler_spec_example :
  _check_state_return 1 sample_client 0
    (PList [PStr "a"; PStr spec_marker; PStr "b"]) "state.single"
    initial_state
  = (Ok (PList
           [ PStr "a"; PStr spec_marker; PStr "b";
             PStr ("[TEST SUITE ENFORCED]A running state.single was found "
                   ++ "causing a state lock. Job details: '456'  Killing Job "
                   ++ "Returned: 'Signal 9 sent to job'"
                   ++ "[/TEST SUITE ENFORCED]") ]),
     {| calls := 2;
        log := [ EvCmd 0 "minion" "saltutil.find_job" [PStr "456"] 25;
                 EvCmd 0 "minion" "saltutil.kill_job" [PStr "456"] 25 ] |}).
Proof. reflexivity. Qed.

(** ** One query and one kill per job id *)

Lemma grows_refl d st : grows_from d st st.
Proof. exists []. split; [now rewrite app_nil_r | constructor]. Qed.

Lemma grows_trans d a b c :
  grows_from d a b -> grows_from d b c -> grows_from d a c.
Proof.
  intros (n1 & E1 & F1) (n2 & E2 & F2). exists (n1 ++ n2)%list. split.
  - now rewrite E2, E1, app_assoc.
  - apply Forall_app. now split.
Qed.

Lemma grows_weaken d d' a b : d <= d' -> grows_from d' a b -> grows_from d a b.
Proof.
  intros Hd (n & E & F). exists n. split; [exact E |].
  eapply Forall_impl; [| exact F]. cbn. intros e He. lia.
Qed.

(** [scan] only adds the calls its [run] adds. *)
Lemma scan_grows d c run items :
  (forall fn arg st, grows_from d st (snd (run fn arg st))) ->
  forall jids ret_ st,
    grows_from d st (snd (scan c run items jids ret_ st)).
Proof.
  intros Hrun. induction items as [|item more IH]; intros jids ret_ st.
  - apply grows_refl.
  - cbn [scan].
    destruct item as [| b | z | line | l | dd]; try apply IH.
    destruct (marker_jid line) as [jid|]; [| apply IH].
    destruct (jid_in jid jids); [apply IH |].
    unfold bind.
    pose proof (Hrun "saltutil.find_job" [PStr jid] st) as H1.
    destruct (run "saltutil.find_job" [PStr jid] st) as [[job_data|e|] st1];
      cbn [snd] in *; try exact H1.
    pose proof (Hrun "saltutil.kill_job" [PStr jid] st1) as H2.
    destruct (run "saltutil.kill_job" [PStr jid] st1) as [[job_kill|e|] st2];
      cbn [snd] in *; try (eapply grows_trans; eassumption).
    eapply grows_trans; [exact H1 |]. eapply grows_trans; [exact H2 |].
    apply IH.
Qed.

(** [run_function] logs its own call and then what the nested pass logs. *)
Lemma run_function_with_log c d check fn arg tgt timeout st :
  (forall v f s, grows_from (S d) s (snd (check v f s))) ->
  exists new,
    log (snd (run_function_with c d check fn arg tgt timeout st))
    = (log st ++ EvCmd d tgt fn arg timeout :: new)%list
    /\ Forall (fun e => S d <= depth_of e) new.
Proof.
  intros Hcheck. destruct st as [n l].
  unfold run_function_with. rstep.
  destruct (dict_get tgt (cmd_reply c n tgt fn arg)) as [reply|];
    [| exists []; split; [reflexivity | constructor]].
  assert (Hgo : exists new,
             log (snd (check reply fn
                         {| calls := S n;
                            log := l ++ [EvCmd d tgt fn arg timeout] |}))
             = (l ++ EvCmd d tgt fn arg timeout :: new)%list
             /\ Forall (fun e => S d <= depth_of e) new).
  { destruct (Hcheck reply fn
                {| calls := S n; log := l ++ [EvCmd d tgt fn arg timeout] |})
      as (new & E & F).
    exists new. split; [| exact F]. rewrite E. cbn [log].
    now rewrite <- app_assoc. }
  destruct reply; try exact Hgo.
  destruct (negb (existsb (String.eqb fn) know_to_return_none));
    [exists []; split; [reflexivity | constructor] | exact Hgo].
Qed.

Lemma check_grows fuel : forall c d v func st,
  grows_from d st (snd (_check_state_return fuel c d v func st)).
Proof.
  induction fuel as [|fuel IH]; intros c d v func st.
  - destruct v; try apply grows_refl.
    rewrite check_list_unfold. unfold bind.
    pose proof (scan_grows d c (run_job 0 c d) l
                  (fun fn arg s => grows_refl d s) [] l st) as H.
    destruct (scan c (run_job 0 c d) l [] l st) as [[r|e|] st1]; exact H.
  - destruct v; try apply grows_refl.
    rewrite check_list_unfold. unfold bind.
    assert (Hrun : forall fn arg s,
               grows_from d s (snd (run_job (S fuel) c d fn arg s))).
    { intros fn arg s. cbn [run_job].
      destruct (run_function_with_log c d
                  (_check_state_return fuel c (S d)) fn arg "minion" 25%Z s
                  (fun v f s0 => IH c (S d) v f s0)) as (new & E & F).
      eexists. split; [exact E |].
      constructor; [cbn; lia |].
      eapply Forall_impl; [| exact F]. cbn. intros e He. lia. }
    pose proof (scan_grows d c (run_job (S fuel) c d) l Hrun [] l st) as H.
    destruct (scan c (run_job (S fuel) c d) l [] l st) as [[r|e|] st1];
      exact H.
Qed.

Lemma queries_app d fn jid l1 l2 :
  queries d fn jid (l1 ++ l2) = queries d fn jid l1 + queries d fn jid l2.
Proof. unfold queries. now rewrite filter_app, length_app. Qed.

Lemma queries_deeper d fn jid new :
  Forall (fun e => S d <= depth_of e) new -> queries d fn jid new = 0.
Proof.
  unfold queries. induction 1 as [|e new He Hnew IH]; [reflexivity |].
  cbn [filter]. destruct e as [d' tgt f arg to]. cbn in He.
  assert (Hq : is_query d fn jid (EvCmd d' tgt f arg to) = false).
  { unfold is_query. destruct arg as [|[] []]; try reflexivity.
    destruct (Nat.eqb_spec d' d); [lia | reflexivity]. }
  now rewrite Hq.
Qed.

(** What one job query adds to the count of the pass that makes it. *)
Lemma run_job_queries fuel c d fn' x fn jid st :
  queries d fn jid (log (snd (run_job fuel c d fn' [PStr x] st)))
  <= queries d fn jid (log st)
     + indicator (String.eqb fn' fn && String.eqb x jid).
Proof.
  destruct fuel as [|fuel]; [cbn [run_job out_of_fuel snd]; lia |].
  cbn [run_job].
  destruct (run_function_with_log c d (_check_state_return fuel c (S d))
              fn' [PStr x] "minion" 25%Z st
              (fun v f s => check_grows fuel c (S d) v f s))
    as (new & E & F).
  rewrite E.
  change (log st ++ EvCmd d "minion" fn' [PStr x] 25 :: new)%list
    with (log st ++ [EvCmd d "minion" fn' [PStr x] 25] ++ new)%list.
  rewrite !queries_app, (queries_deeper _ _ _ _ F).
  unfold queries at 2. cbn [filter is_query]. rewrite Nat.eqb_refl.
  cbn [andb].
  destruct (String.eqb fn' fn && String.eqb x jid);
    cbn [List.length indicator]; lia.
Qed.

Lemma jid_in_app_other j x jids :
  String.eqb x j = false -> jid_in j (jids ++ [x]) = jid_in j jids.
Proof.
  intros H. unfold jid_in. rewrite existsb_app. cbn [existsb].
  rewrite String.eqb_sym, H. now rewrite !orb_false_r.
Qed.

Lemma jid_in_app_same x jids : jid_in x (jids ++ [x]) = true.
Proof.
  unfold jid_in. rewrite existsb_app. cbn [existsb].
  rewrite String.eqb_refl. now rewrite orb_true_r.
Qed.

(** A job id not yet on record pays for its query and its kill with the
    one call it was allowed. *)
Lemma budget x jid fn jids :
  jid_in x jids = false ->
  indicator (String.eqb "saltutil.find_job" fn && String.eqb x jid)
  + indicator (String.eqb "saltutil.kill_job" fn && String.eqb x jid)
  + indicator (negb (jid_in jid (jids ++ [x])))
  <= indicator (negb (jid_in jid jids)).
Proof.
  intros Hx. destruct (String.eqb_spec x jid) as [<- | Hne].
  - rewrite jid_in_app_same, Hx, !andb_true_r.
    destruct (String.eqb_spec "saltutil.find_job" fn) as [<- | Hf].
    + cbn. lia.
    + destruct (String.eqb "saltutil.kill_job" fn); cbn; lia.
  - rewrite !andb_false_r.
    rewrite jid_in_app_other by (now apply String.eqb_neq).
    cbn. lia.
Qed.

(** The loop makes at most one call of [fn] for [jid], and none when [jid]
    is already on record. *)
Lemma scan_queries fuel c d fn jid items : forall jids ret_ st,
  queries d fn jid
    (log (snd (scan c (run_job fuel c d) items jids ret_ st)))
  <= queries d fn jid (log st) + indicator (negb (jid_in jid jids)).
Proof.
  induction items as [|item more IH]; intros jids ret_ st.
  - cbn [scan ret snd]. lia.
  - cbn [scan].
    destruct item as [| b | z | line | l | dd]; try apply IH.
    destruct (marker_jid line) as [x|]; [| apply IH].
    destruct (jid_in x jids) eqn:Hx; [apply IH |].
    pose proof (budget x jid fn jids Hx) as Hb.
    unfold bind.
    pose proof (run_job_queries fuel c d "saltutil.find_job" x fn jid st)
      as H1.
    destruct (run_job fuel c d "saltutil.find_job" [PStr x] st)
      as [[job_data|e|] st1]; cbn [snd] in *; try lia.
    pose proof (run_job_queries fuel c d "saltutil.kill_job" x fn jid st1)
      as H2.
    destruct (run_job fuel c d "saltutil.kill_job" [PStr x] st1)
      as [[job_kill|e|] st2]; cbn [snd] in *; try lia.
    pose proof (IH (jids ++ [x])%list
                  (ret_ ++ [PStr (diagnostic c job_data job_kill)])%list st2)
      as H3.
    lia.
Qed.

(** C6. Within one pass, whatever the client answers and however the pass
    ends, at most one [saltutil.find_job] and at most one
    [saltutil.kill_job] are issued for any job id, however many marker
    lines carry it. The calls counted are those of the pass itself, which
    [depth] labels. *)
Theorem one_query_and_kill_per_jid fuel c depth l func st jid :
  queries depth "saltutil.find_job" jid
    (log (snd (_check_state_return fuel c depth (PList l) func st)))
  <= queries depth "saltutil.find_job" jid (log st) + 1
  /\ queries depth "saltutil.kill_job" jid
       (log (snd (_check_state_return fuel c depth (PList l) func st)))
     <= queries depth "saltutil.kill_job" jid (log st) + 1.
Proof.
  rewrite check_list_unfold. unfold bind.
  pose proof (scan_queries fuel c depth "saltutil.find_job" jid l [] l st)
    as Hf.
  pose proof (scan_queries fuel c depth "saltutil.kill_job" jid l [] l st)
    as Hk.
  change (indicator (negb (jid_in jid []))) with 1 in Hf, Hk.
  destruct (scan c (run_job fuel c depth) l [] l st) as [[r|e|] st1];
    cbn [snd ret] in *; lia.
Qed.

(** Two marker lines with one job id: one query, one kill, one line. *)
Lemma duplicate_markers_one_query :
  _check_state_return 1 sample_client 0
    (PList [PStr spec_marker; PStr mixed_quote_marker]) "state.single"
    initial_state
  = (Ok (PList
           [ PStr spec_marker; PStr mixed_quote_marker;
             PStr (diagnostic sample_client (PStr "456")
                     (PStr "Signal 9 sent to job")) ]),
     {| calls := 2;
        log := [ EvCmd 0 "minion" "saltutil.find_job" [PStr "456"] 25;
                 EvCmd 0 "minion" "saltutil.kill_job" [PStr "456"] 25 ] |}).
Proof. reflexivity. Qed.

(** When the minion answers, the calls of a pass are exactly the query and
    the kill of each distinct job id, nested passes making none. *)
Lemma reconciler_calls_when_answered fuel c depth l func st :
  answers_settled c ->
  log (snd (_check_state_return (S fuel) c depth (PList l) func st))
  = (log st ++ queries_for depth (unique_jids l))%list.
Proof.
  intros Hc. rewrite check_list_unfold. unfold bind.
  rewrite (scan_settled _ _ _ _ _ _ _ Hc). reflexivity.
Qed.

End ReconcilerProofs.

(** * Further properties of the shell runner *)

Module ShellExtras.

Import Shell Props Callers XProps StringFacts ShellProofs.

Ltac fsx :=
  cbv [bind ret raise get modify emit set_node os_path_isdir os_path_isfile
       fs process polls clock_reads log].

Ltac capture_flags :=
  cbv [bind ret raise get modify emit set_process the_process
       process_communicate stream_close process_wait
       stream_read try_finally try_except terminate_quietly process_terminate
       opt_splitlines get_handle set_handle closed_if_piped
       fs process polls clock_reads log returncode stdout stderr].

Ltac fs_only_done :=
  match goal with
  | H : (_, _) = (_, _) |- _ =>
      inversion H; subst; unfold fs_only; cbn [process polls clock_reads log];
      repeat split;
      first [ exists []; now rewrite app_nil_r
            | eexists; split; [reflexivity | reflexivity] ]
  end.

(** ** get_script_path *)

Lemma lookup_cons p q n f :
  lookup p ((q, n) :: f) = if String.eqb q p then n else lookup p f.
Proof. reflexivity. Qed.

Lemma common_template : SCRIPT_TEMPLATES_get "common" = Some "common".
Proof. reflexivity. Qed.

Lemma fs_only_refl st : fs_only st st.
Proof. repeat split. exists []. now rewrite app_nil_r. Qed.

Lemma fs_only_trans a b c : fs_only a b -> fs_only b c -> fs_only a c.
Proof.
  intros (H1 & H2 & H3 & p1 & E1 & F1) (K1 & K2 & K3 & p2 & E2 & F2).
  repeat split; try congruence.
  exists (p1 ++ p2)%list. split.
  - now rewrite E2, E1, app_assoc.
  - now rewrite forallb_app, F1, F2.
Qed.

Lemma os_makedirs_fs_only env path st r st' :
  os_makedirs env path st = (r, st') -> fs_only st st'.
Proof.
  destruct st as [f p n c l]. unfold os_makedirs. fsx.
  destruct (makedirs_errno env path); [| destruct (lookup path f)];
    intros H; fs_only_done.
Qed.

Lemma write_script_fs_only env self path name st r st' :
  write_script env self path name st = (r, st') -> fs_only st st'.
Proof.
  destruct st as [f p n c l]. unfold write_script. fsx.
  destruct (fopen_errno env path); [intros H; fs_only_done |].
  destruct (lookup path f);
    (destruct (SCRIPT_TEMPLATES_get name);
     [| destruct (SCRIPT_TEMPLATES_get "common")]); fsx;
    intros H; fs_only_done.
Qed.

Lemma get_script_path_fs_only env scr st r st' :
  get_script_path env scr st = (r, st') -> fs_only st st'.
Proof.
  unfold get_script_path, os_path_isdir, os_path_isfile.
  cbv [bind ret get].
  set (dir_there := match lookup (TMP_SCRIPT_DIR env) (fs st) with
                    | Directory => true | _ => false end).
  destruct (negb dir_there).
  - destruct (os_makedirs env (TMP_SCRIPT_DIR env) st) as [r1 st1] eqn:E1.
    apply os_makedirs_fs_only in E1.
    destruct r1; [| intros H; inversion H; subst; exact E1 ..].
    destruct (negb _).
    + destruct (write_script _ _ _ _ st1) as [r2 st2] eqn:E2.
      apply write_script_fs_only in E2.
      destruct r2; intros H; inversion H; subst; eapply fs_only_trans; eauto.
    + intros H; inversion H; subst; exact E1.
  - destruct (negb _).
    + destruct (write_script _ _ _ _ st) as [r2 st2] eqn:E2.
      apply write_script_fs_only in E2.
      destruct r2; intros H; inversion H; subst; exact E2.
    + intros H; inversion H; subst. apply fs_only_refl.
Qed.

(** How [os.makedirs] ends: the directory is made, or an [OSError] is
    raised and the table is as it was. *)
Lemma os_makedirs_inv env path st r st' :
  os_makedirs env path st = (r, st') ->
  (r = Ok tt /\ makedirs_errno env path = None
   /\ lookup path (fs st) = Absent /\ fs st' = (path, Directory) :: fs st)
  \/ (exists e, r = Raise (OSError e) /\ fs st' = fs st
        /\ (makedirs_errno env path = Some e
            \/ (makedirs_errno env path = None /\ e = 17%Z
                /\ lookup path (fs st) <> Absent))).
Proof.
  destruct st as [f p n c l]. unfold os_makedirs. fsx.
  destruct (makedirs_errno env path) as [e|] eqn:Eo.
  - intros H; inversion H; subst. right. exists e. cbn [fs]. auto.
  - destruct (lookup path f) eqn:E; intros H; inversion H; subst; cbn [fs];
      [ left; auto | right; exists 17%Z; repeat split; auto; right;
                     repeat split; auto; congruence .. ].
Qed.

(** How the writing of the script ends: the script path holds a file, or an
    [IOError] is raised and the table is as it was. *)
Lemma write_script_inv env self path name st r st' :
  write_script env self path name st = (r, st') ->
  (r = Ok tt /\ fopen_errno env path = None
   /\ lookup path (fs st) <> Directory
   /\ fs st' = match lookup path (fs st) with
               | Absent => (path, Regular) :: fs st
               | _ => fs st
               end)
  \/ (exists e, r = Raise (IOError e) /\ fs st' = fs st
        /\ (fopen_errno env path = Some e
            \/ (fopen_errno env path = None /\ e = 21%Z
                /\ lookup path (fs st) = Directory))).
Proof.
  destruct st as [f p n c l]. unfold write_script. fsx.
  destruct (fopen_errno env path) as [e|] eqn:Eo.
  - intros H; inversion H; subst. right. exists e. cbn [fs]. auto.
  - destruct (lookup path f) eqn:E;
      try (destruct (SCRIPT_TEMPLATES_get name);
           [| rewrite common_template]); fsx;
      intros H; inversion H; subst; cbn [fs];
      first [ left; repeat split; auto; congruence
            | right; exists 21%Z;
              split; [reflexivity | split; [reflexivity | right; auto]] ].
Qed.

Lemma get_script_path_unfold env name st :
  get_script_path env name st
  = match (if negb match lookup (TMP_SCRIPT_DIR env) (fs st) with
                   | Directory => true
                   | _ => false
                   end
           then os_makedirs env (TMP_SCRIPT_DIR env)
           else ret tt) st with
    | (Ok _, st1) => script_step env name st1
    | (Raise e, st1) => (Raise e, st1)
    | (OutOfFuel, st1) => (OutOfFuel, st1)
    end.
Proof. reflexivity. Qed.

Lemma script_step_unfold env name st :
  script_step env name st
  = match (if negb match lookup (os_path_join (TMP_SCRIPT_DIR env) name)
                           (fs st) with
                   | Regular => true
                   | _ => false
                   end
           then write_script env "ShellTestCase"
                  (os_path_join (TMP_SCRIPT_DIR env) name) name
           else ret tt) st with
    | (Ok _, st1) => (Ok (os_path_join (TMP_SCRIPT_DIR env) name), st1)
    | (Raise e, st1) => (Raise e, st1)
    | (OutOfFuel, st1) => (OutOfFuel, st1)
    end.
Proof. reflexivity. Qed.

(** The script step: the path is returned with a file at it, or the
    [IOError] of the opening is raised. The table changes at the script
    path at most. *)
Lemma script_step_inv env name st r st' :
  script_step env name st = (r, st') ->
  let path := os_path_join (TMP_SCRIPT_DIR env) name in
  (forall q, q <> path -> lookup q (fs st') = lookup q (fs st))
  /\ ((exists e, r = Raise (IOError e) /\ lookup path (fs st') <> Regular
                 /\ (fopen_errno env path = Some e
                     \/ (e = 21%Z /\ lookup path (fs st') = Directory)))
      \/ (r = Ok path
          /\ (lookup path (fs st') = Regular
              \/ lookup path (fs st') = Special))).
Proof.
  intros H path. rewrite script_step_unfold in H. fold path in H.
  destruct (lookup path (fs st)) eqn:Epath; cbn [negb] in H.
  2: { inversion H; subst. split; [reflexivity |].
       right. split; [reflexivity | now left]. }
  all: destruct (write_script env "ShellTestCase" path name st)
         as [r2 st2] eqn:E2;
       destruct (write_script_inv _ _ _ _ _ _ _ E2)
         as [(-> & _ & Hnd & Hfs) | (e & -> & Hfs & Hwhy)];
       inversion H; subst; rewrite Hfs, ?Epath.
  - (* nothing at the script path: the file is made *)
    split.
    + intros q Hq. rewrite lookup_cons.
      destruct (String.eqb_spec path q); [congruence | reflexivity].
    + right. split; [reflexivity |]. left.
      now rewrite lookup_cons, String.eqb_refl.
  - split; [reflexivity |]. left. exists e.
    split; [reflexivity | split; [congruence |]].
    destruct Hwhy as [Ho | (_ & _ & Hd)]; [now left | congruence].
  - (* a directory at the script path cannot be written *)
    contradiction.
  - split; [reflexivity |]. left. exists e.
    split; [reflexivity | split; [congruence |]].
    destruct Hwhy as [Ho | (_ & -> & Hd)]; [now left | right; auto].
  - (* a special file is written to and stays what it is *)
    split; [reflexivity |]. right. split; [reflexivity | now right].
  - split; [reflexivity |]. left. exists e.
    split; [reflexivity | split; [congruence |]].
    destruct Hwhy as [Ho | (_ & _ & Hd)]; [now left | congruence].
Qed.

(** What [get_script_path] does, step by step: the directory, then the
    script. *)
Lemma get_script_path_steps env name st r st' :
  get_script_path env name st = (r, st') ->
  let dir := TMP_SCRIPT_DIR env in
  let path := os_path_join dir name in
  (exists e, r = Raise (OSError e) /\ lookup dir (fs st) <> Directory
             /\ fs st' = fs st
             /\ (makedirs_errno env dir = Some e
                 \/ (e = 17%Z /\ lookup dir (fs st) <> Absent)))
  \/ (lookup dir (fs st') = Directory
      /\ ((exists e, r = Raise (IOError e) /\ lookup path (fs st') <> Regular
                     /\ (fopen_errno env path = Some e
                         \/ (e = 21%Z /\ lookup path (fs st') = Directory)))
          \/ (r = Ok path
              /\ (lookup path (fs st') = Regular
                  \/ lookup path (fs st') = Special)))).
Proof.
  intros H dir path. rewrite get_script_path_unfold in H. fold dir in H.
  assert (Hscript : forall st1,
            lookup dir (fs st1) = Directory ->
            script_step env name st1 = (r, st') ->
            lookup dir (fs st') = Directory
            /\ ((exists e, r = Raise (IOError e)
                           /\ lookup path (fs st') <> Regular
                           /\ (fopen_errno env path = Some e
                               \/ (e = 21%Z
                                   /\ lookup path (fs st') = Directory)))
                \/ (r = Ok path
                    /\ (lookup path (fs st') = Regular
                        \/ lookup path (fs st') = Special)))).
  { intros st1 Hdir Hs.
    destruct (script_step_inv _ _ _ _ _ Hs) as [Hkeep Hend].
    cbn zeta in Hkeep, Hend. fold dir in Hkeep, Hend. fold path in Hkeep, Hend.
    split; [| exact Hend].
    destruct (String.eqb_spec dir path) as [Heq | Hne].
    - (* the script path is the directory itself: nothing can be written *)
      assert (Hp : lookup path (fs st1) = Directory)
        by (rewrite <- Heq; exact Hdir).
      rewrite script_step_unfold in Hs.
      change (os_path_join (TMP_SCRIPT_DIR env) name) with path in Hs.
      rewrite Hp in Hs. cbn [negb] in Hs.
      destruct (write_script env "ShellTestCase" path name st1)
        as [r2 st2] eqn:E2.
      destruct (write_script_inv _ _ _ _ _ _ _ E2)
        as [(-> & _ & Hnd & _) | (e' & -> & Hfs & _)];
        [contradiction |].
      inversion Hs; subst. now rewrite Hfs.
    - now rewrite Hkeep. }
  destruct (lookup dir (fs st)) eqn:Edir; cbn [negb] in H;
    try (right; now apply (Hscript st)).
  all: destruct (os_makedirs env dir st) as [r1 st1] eqn:E1;
       destruct (os_makedirs_inv _ _ _ _ _ E1)
         as [(-> & _ & Habs & Hfs) | (e & -> & Hfs & Hwhy)];
       [ right; apply (Hscript st1);
         [rewrite Hfs, lookup_cons, String.eqb_refl; reflexivity | exact H]
       | inversion H; subst; left; exists e;
         split; [reflexivity | split; [discriminate |]];
         split; [exact Hfs |];
         destruct Hwhy as [Ho | (_ & -> & Hna)];
         [now left | right; split; [reflexivity | congruence]] ].
Qed.

Lemma get_script_path_settles env name st :
  fst (get_script_path env name st) <> OutOfFuel.
Proof.
  destruct (get_script_path env name st) as [r st'] eqn:H.
  destruct (get_script_path_steps _ _ _ _ _ H)
    as [(e & -> & _) | (_ & [(e & -> & _) | (-> & _)])]; discriminate.
Qed.

(** X1. [get_script_path] returns the script name joined to the script
    directory, or raises what [os.makedirs] raised, which it calls only
    where the script directory is missing, or what the opening of the
    script raised, which it attempts only where the script path holds no
    regular file. Nothing else is raised, the [RuntimeError] of its own
    included: a script the table does not list gets the common template.
    With the script directory in place and a directory at the script path
    the call raises [IOError]. *)
Theorem get_script_path_outcome env name st :
  let dir := TMP_SCRIPT_DIR env in
  let path := os_path_join dir name in
  match get_script_path env name st with
  | (Ok p, _) => p = path
  | (Raise (OSError _), _) => lookup dir (fs st) <> Directory
  | (Raise (IOError _), st') => lookup path (fs st') <> Regular
  | _ => False
  end
  /\ (lookup dir (fs st) = Directory -> lookup path (fs st) = Directory ->
      exists e, fst (get_script_path env name st) = Raise (IOError e)).
Proof.
  intros dir path.
  destruct (get_script_path env name st) as [r st'] eqn:H.
  pose proof (get_script_path_steps _ _ _ _ _ H) as Hsteps.
  cbn zeta in Hsteps. fold dir in Hsteps. fold path in Hsteps.
  split.
  - destruct Hsteps
      as [(e & -> & Hnd & _) | (_ & [(e & -> & Hnr & _) | (-> & _)])];
      auto.
  - intros Hdir Hpath. cbn [fst].
    destruct Hsteps
      as [(e & -> & Hnd & _) | (_ & [(e & -> & _) | (-> & Hfile)])];
      [contradiction | eauto |].
    exfalso. revert H.
    unfold get_script_path, os_path_isdir, os_path_isfile.
    cbv [bind ret get]. fold dir. fold path. rewrite Hdir. cbn [negb].
    rewrite Hpath. cbn [negb].
    destruct (write_script env "ShellTestCase" path name st)
      as [r2 st2] eqn:E2.
    destruct (write_script_inv _ _ _ _ _ _ _ E2)
      as [(-> & _ & Hnd & _) | (e & -> & _)];
      [contradiction | discriminate].
Qed.

Lemma get_script_path_outcome_witness :
  match get_script_path linux "salt"
          (initial_state
             [(TMP_SCRIPT_DIR linux, Directory);
              (os_path_join (TMP_SCRIPT_DIR linux) "salt", Directory)]) with
  | (Ok p, _) => p = os_path_join (TMP_SCRIPT_DIR linux) "salt"
  | (Raise (OSError _), _) =>
      lookup (TMP_SCRIPT_DIR linux)
        [(TMP_SCRIPT_DIR linux, Directory);
         (os_path_join (TMP_SCRIPT_DIR linux) "salt", Directory)]
      <> Directory
  | (Raise (IOError _), st') =>
      lookup (os_path_join (TMP_SCRIPT_DIR linux) "salt") (fs st') <> Regular
  | _ => False
  end
  /\ exists e,
       fst (get_script_path linux "salt"
              (initial_state
                 [(TMP_SCRIPT_DIR linux, Directory);
                  (os_path_join (TMP_SCRIPT_DIR linux) "salt", Directory)]))
       = Raise (IOError e).
Proof.
  destruct (get_script_path_outcome linux "salt"
              (initial_state
                 [(TMP_SCRIPT_DIR linux, Directory);
                  (os_path_join (TMP_SCRIPT_DIR linux) "salt", Directory)]))
    as [Hkinds Hdir].
  split; [exact Hkinds | apply Hdir; reflexivity].
Defined.

Lemma get_script_path_ok env name st path st' :
  get_script_path env name st = (Ok path, st') ->
  path = os_path_join (TMP_SCRIPT_DIR env) name
  /\ lookup (TMP_SCRIPT_DIR env) (fs st') = Directory
  /\ (lookup path (fs st') = Regular \/ lookup path (fs st') = Special).
Proof.
  intros H.
  destruct (get_script_path_steps _ _ _ _ _ H)
    as [(e & He & _) | (Hdir & [(e & He & _) | (He & Hfile)])];
    try discriminate.
  inversion He; subst. auto.
Qed.

(** X2. When [get_script_path] returns, it returns the script name joined
    to the script directory, that directory exists, and the script path
    holds a file, regular or special. Nothing but the file system has been
    touched: no process, no poll, no clock reading, and the calls made are
    [os.makedirs] and the writing of the script at most. *)
Theorem get_script_path_post env name st path st' :
  get_script_path env name st = (Ok path, st') ->
  path = os_path_join (TMP_SCRIPT_DIR env) name
  /\ lookup (TMP_SCRIPT_DIR env) (fs st') = Directory
  /\ (lookup path (fs st') = Regular \/ lookup path (fs st') = Special)
  /\ fs_only st st'.
Proof.
  intros H. destruct (get_script_path_ok _ _ _ _ _ H) as (Hp & Hd & Hf).
  split; [exact Hp | split; [exact Hd | split; [exact Hf |]]].
  exact (get_script_path_fs_only _ _ _ _ _ H).
Qed.

Lemma get_script_path_post_witness :
  "/tmp/salt-tests-tmpdir/scripts/salt"
  = os_path_join (TMP_SCRIPT_DIR linux) "salt"
  /\ lookup (TMP_SCRIPT_DIR linux)
       (fs (snd (get_script_path linux "salt" (initial_state [])))) = Directory
  /\ (lookup "/tmp/salt-tests-tmpdir/scripts/salt"
        (fs (snd (get_script_path linux "salt" (initial_state [])))) = Regular
      \/ lookup "/tmp/salt-tests-tmpdir/scripts/salt"
           (fs (snd (get_script_path linux "salt" (initial_state []))))
         = Special)
  /\ fs_only (initial_state [])
       (snd (get_script_path linux "salt" (initial_state []))).
Proof.
  apply (get_script_path_post linux "salt" (initial_state [])).
  reflexivity.
Defined.

(** X3. The script is generated once: a second [get_script_path] for a
    script the first one left as a regular file returns the same path and
    touches nothing. *)
Theorem get_script_path_again env name st path st' :
  get_script_path env name st = (Ok path, st') ->
  lookup path (fs st') = Regular ->
  get_script_path env name st' = (Ok path, st').
Proof.
  intros H Hreg.
  destruct (get_script_path_ok _ _ _ _ _ H) as (-> & Hdir & _).
  destruct st' as [f p n c l]. cbn [fs] in *.
  unfold get_script_path. fsx. rewrite Hdir. cbn [negb]. rewrite Hreg.
  reflexivity.
Qed.

Lemma get_script_path_again_witness :
  get_script_path linux "salt"
    (snd (get_script_path linux "salt" (initial_state [])))
  = (Ok "/tmp/salt-tests-tmpdir/scripts/salt",
     snd (get_script_path linux "salt" (initial_state []))).
Proof.
  apply (get_script_path_again linux "salt" (initial_state []));
    reflexivity.
Defined.

(** The start of every call that finds its script. *)
(** ** run_script, the child left to run to its end *)

Lemma run_script_start env a files :
  script_located env (script a) files = true ->
  exists path files' pre,
    forallb is_fs_event pre = true
    /\ get_script_path env (script a) (initial_state files)
       = (Ok path, {| fs := files'; process := None; polls := 0;
                      clock_reads := 0; log := pre |})
    /\ lookup path files' = Regular.
Proof.
  intros Hloc.
  destruct (located_inv _ _ _ Hloc) as (path & st & Hpath & Hreg).
  destruct (get_script_path_fs_only _ _ _ _ _ Hpath)
    as (Hp & Hn & Hc & pre & Hlog & Hpre).
  destruct st as [fs1 p1 n1 c1 log1]. cbn in Hreg, Hp, Hn, Hc, Hlog. subst.
  exists path, fs1, pre. auto.
Qed.

(** Value and final state of a call without timeout. *)
Lemma run_script_completes fuel env scr args catch_ with_ret raw_ files :
  script_located env scr files = true ->
  popen_errno env = None ->
  exists files' pre cmd,
    forallb is_fs_event pre = true
    /\ run_script fuel env (call scr args catch_ with_ret None raw_)
         (initial_state files)
       = (Ok (completion_value catch_ with_ret raw_ (stdout_data env)
                (stderr_data env) (Some (wait_status env))),
          {| fs := files';
             process := Some {| returncode := Some (wait_status env);
                                stdout := Closed;
                                stderr := if catch_ then Closed else NoPipe |};
             polls := 0; clock_reads := 0;
             log := pre ++ EvSpawn cmd catch_ (negb (platform_is_win env))
                          :: completion_calls (before_python_2_7 env) catch_ |}).
Proof.
  intros Hloc Hspawn.
  destruct (run_script_start env (call scr args catch_ with_ret None raw_)
              files Hloc) as (path & fs1 & pre & Hpre & Hpath & Hreg).
  cbn [script call] in Hpath.
  exists fs1, pre, (build_cmd env path args). split; [exact Hpre |].
  unfold run_script.
  unfold bind at 1. cbn [script call]. rewrite Hpath.
  unfold capture_both, capture_stdout, completion_value, completion_calls.
  capture_step. rewrite Hreg, Hspawn.
  destruct (platform_is_win env), (before_python_2_7 env),
    (terminate_errno env), catch_, with_ret, raw_;
    cbv beta iota zeta delta [fst snd negb arg_str];
    rewrite <- ?app_assoc; reflexivity.
Qed.

Lemma string_of_list_snoc l c :
  string_of_list_ascii (l ++ [c])
  = string_of_list_ascii l ++ String c EmptyString.
Proof.
  induction l as [|x l IH]; cbn [app string_of_list_ascii append];
    [reflexivity | now rewrite IH].
Qed.

Lemma splitlines_from_one_line text : forall cur,
  unbroken text = true ->
  splitlines_from cur (text ++ String LF EmptyString)
  = [rev_string cur ++ text].
Proof.
  induction text as [|c text IH]; intros cur H.
  - cbn [append splitlines_from]. rewrite Ascii.eqb_refl.
    now rewrite append_empty_r.
  - cbn [unbroken] in H. apply andb_true_iff in H as [Hc Ht].
    unfold no_terminator in Hc. apply andb_true_iff in Hc as [H1 H2].
    apply negb_true_iff in H1, H2.
    cbn [append splitlines_from]. rewrite H1, H2, (IH _ Ht).
    unfold rev_string. cbn [rev]. rewrite string_of_list_snoc, append_assoc.
    reflexivity.
Qed.

Lemma splitlines_one_line text :
  unbroken text = true ->
  splitlines (text ++ String LF EmptyString) = [text].
Proof. intros H. unfold splitlines. now rewrite splitlines_from_one_line. Qed.

Lemma unbroken_of_list l :
  forallb no_terminator l = true -> unbroken (string_of_list_ascii l) = true.
Proof.
  induction l as [|c l IH]; cbn [forallb string_of_list_ascii unbroken];
    [reflexivity |].
  intros H. apply andb_true_iff in H as [Hc Hl]. now rewrite Hc, IH.
Qed.

Lemma unbroken_rev_string cur :
  forallb no_terminator cur = true -> unbroken (rev_string cur) = true.
Proof.
  intros H. unfold rev_string. apply unbroken_of_list.
  rewrite forallb_forall in *. intros x Hx. apply H. now apply in_rev.
Qed.

Lemma splitlines_from_unbroken : forall n s cur,
  String.length s <= n ->
  forallb no_terminator cur = true ->
  Forall (fun line => unbroken line = true) (splitlines_from cur s).
Proof.
  induction n as [|n IH]; intros s cur Hlen Hcur.
  - destruct s; [| cbn in Hlen; lia]. cbn [splitlines_from].
    destruct cur; constructor; [| constructor].
    now apply unbroken_rev_string.
  - destruct s as [|c rest].
    + cbn [splitlines_from].
      destruct cur; constructor; [| constructor].
      now apply unbroken_rev_string.
    + cbn [String.length] in Hlen. cbn [splitlines_from].
      destruct (Ascii.eqb c LF) eqn:E1.
      * constructor; [now apply unbroken_rev_string |].
        apply IH; [lia | reflexivity].
      * destruct (Ascii.eqb c CR) eqn:E2.
        -- destruct rest as [|c' rest'].
           ++ constructor; [now apply unbroken_rev_string |].
              apply IH; [cbn; lia | reflexivity].
           ++ cbn [String.length] in Hlen.
              destruct (Ascii.eqb c' LF);
                (constructor; [now apply unbroken_rev_string |]);
                apply IH; cbn [String.length]; try lia; reflexivity.
        -- apply IH; [lia |]. cbn [forallb]. unfold no_terminator at 1.
           now rewrite E1, E2, Hcur.
Qed.

Lemma splitlines_unbroken s :
  Forall (fun line => unbroken line = true) (splitlines s).
Proof.
  unfold splitlines. now apply (splitlines_from_unbroken (String.length s)).
Qed.

(** X4. A call without timeout that finds its script and spawns the child
    returns what the child wrote and the status it ended with: stdout and
    stderr whole with [raw], split into lines without it, no line keeping
    a line feed or carriage return. An error of the final
    [process.terminate()] changes nothing. *)
Theorem run_script_returns_child_output
    fuel env scr args catch_ with_ret raw_ files :
  script_located env scr files = true ->
  popen_errno env = None ->
  let v := completion_value catch_ with_ret raw_ (stdout_data env)
             (stderr_data env) (Some (wait_status env)) in
  fst (run_script fuel env (call scr args catch_ with_ret None raw_)
         (initial_state files)) = Ok v
  /\ (forall lines,
        out_of v = Some (Lines lines) \/ err_of v = Some (Lines lines) ->
        Forall (fun line => unbroken line = true) lines).
Proof.
  intros Hloc Hspawn v. split.
  - destruct (run_script_completes fuel env scr args catch_ with_ret raw_
                files Hloc Hspawn) as (files' & pre & cmd & _ & ->).
    reflexivity.
  - intros lines H. subst v. unfold completion_value in H.
    destruct catch_, with_ret, raw_; cbn [out_of err_of] in H;
      destruct H as [H | H]; inversion H; apply splitlines_unbroken.
Qed.

Lemma run_script_returns_child_output_witness :
  fst (run_script 0 linux (call "salt" "-L minion test.ping" true true None false)
         (initial_state (script_present linux "salt")))
  = Ok (ROutErrCode (Lines ["hello"]) (Lines []) (Some 0%Z))
  /\ (forall lines,
        out_of (ROutErrCode (Lines ["hello"]) (Lines []) (Some 0%Z))
        = Some (Lines lines)
        \/ err_of (ROutErrCode (Lines ["hello"]) (Lines []) (Some 0%Z))
           = Some (Lines lines) ->
        Forall (fun line => unbroken line = true) lines).
Proof.
  apply (run_script_returns_child_output 0 linux "salt"
           "-L minion test.ping" true true false
           (script_present linux "salt")); reflexivity.
Defined.

(** X5. On that path the system calls are, after those of the script
    lookup: one spawn (in a process group of its own unless the platform is
    Windows), the reading of the streams, their closing, and one
    [terminate]; the clock is never read, the child never polled or
    signalled, and the redirected streams are closed when the call
    returns. *)
Theorem completion_system_calls
    fuel env scr args catch_ with_ret raw_ files :
  script_located env scr files = true ->
  popen_errno env = None ->
  exists pre cmd,
    let st' := snd (run_script fuel env (call scr args catch_ with_ret None raw_)
                      (initial_state files)) in
    forallb is_fs_event pre = true
    /\ log st'
       = (pre ++ EvSpawn cmd catch_ (negb (platform_is_win env))
              :: completion_calls (before_python_2_7 env) catch_)%list
    /\ handle_of Stdout st' = Some Closed
    /\ handle_of Stderr st' = Some (if catch_ then Closed else NoPipe)
    /\ polls st' = 0 /\ clock_reads st' = 0.
Proof.
  intros Hloc Hspawn.
  destruct (run_script_completes fuel env scr args catch_ with_ret raw_
              files Hloc Hspawn) as (files' & pre & cmd & Hpre & ->).
  exists pre, cmd. cbn [snd]. repeat split; assumption || reflexivity.
Qed.

Lemma completion_system_calls_witness :
  exists pre cmd,
    let st' := snd (run_script 0 linux
                      (call "salt" "-L minion test.ping" true false None false)
                      (initial_state (script_present linux "salt"))) in
    forallb is_fs_event pre = true
    /\ log st'
       = (pre ++ EvSpawn cmd true (negb (platform_is_win linux))
              :: completion_calls (before_python_2_7 linux) true)%list
    /\ handle_of Stdout st' = Some Closed
    /\ handle_of Stderr st' = Some (if true then Closed else NoPipe)
    /\ polls st' = 0 /\ clock_reads st' = 0.
Proof.
  apply (completion_system_calls 0 linux "salt" "-L minion test.ping"
           true false false (script_present linux "salt")); reflexivity.
Defined.

(** X6. A child that prints one line and a line feed: with no flag set the
    call returns the list of that one line. *)
Theorem run_script_one_line fuel env scr args text files :
  script_located env scr files = true ->
  popen_errno env = None ->
  stdout_data env = text ++ String LF EmptyString ->
  unbroken text = true ->
  fst (run_script fuel env (call scr args false false None false)
         (initial_state files))
  = Ok (ROut (Lines [text])).
Proof.
  intros Hloc Hspawn Hout Htext.
  destruct (run_script_completes fuel env scr args false false false
              files Hloc Hspawn) as (files' & pre & cmd & _ & ->).
  cbn [fst completion_value]. rewrite Hout, (splitlines_one_line _ Htext).
  reflexivity.
Qed.

Lemma run_script_one_line_witness :
  fst (run_script 0 (linux_echo "hello") (call "salt" "test.echo" false false None false)
         (initial_state (script_present (linux_echo "hello") "salt")))
  = Ok (ROut (Lines ["hello"])).
Proof.
  apply (run_script_one_line 0 (linux_echo "hello") "salt" "test.echo" "hello"
           (script_present (linux_echo "hello") "salt")); reflexivity.
Defined.

(** ** run_script with a timeout *)

(** The capture code, from any state in which the child has been spawned
    and nothing read yet. *)
Lemma capture_completes env scr args catch_ with_ret raw_ t files rc n c l :
  after_loop env (call scr args catch_ with_ret t raw_) None
    {| fs := files;
       process := Some {| returncode := rc; stdout := Open;
                          stderr := if catch_ then Open else NoPipe |};
       polls := n; clock_reads := c; log := l |}
  = (Ok (completion_value catch_ with_ret raw_ (stdout_data env)
           (stderr_data env)
           (Some (match rc with Some s => s | None => wait_status env end))),
     {| fs := files;
        process := Some {| returncode :=
                             Some (match rc with
                                   | Some s => s
                                   | None => wait_status env
                                   end);
                           stdout := Closed;
                           stderr := if catch_ then Closed else NoPipe |};
        polls := n; clock_reads := c;
        log := l ++ completion_calls (before_python_2_7 env) catch_ |}).
Proof.
  unfold after_loop, capture_both, capture_stdout, completion_value,
    completion_calls.
  capture_step.
  destruct (before_python_2_7 env), (terminate_errno env), rc,
    catch_, with_ret, raw_;
    cbv beta iota zeta delta [fst snd negb];
    rewrite <- ?app_assoc; reflexivity.
Qed.

Lemma run_script_enters_loop_log fuel env scr args catch_ with_ret raw_ t files :
  script_located env scr files = true ->
  popen_errno env = None ->
  platform_is_win env = false ->
  exists files' pre cmd,
    forallb is_fs_event pre = true
    /\ run_script fuel env (call scr args catch_ with_ret (Some t) raw_)
         (initial_state files)
       = bind (poll_loop fuel env (call scr args catch_ with_ret (Some t) raw_)
                 t (deadline env t) false)
           (after_loop env (call scr args catch_ with_ret (Some t) raw_))
           (waiting files' (if catch_ then Open else NoPipe) 0
              (pre ++ [EvSpawn cmd catch_ true])).
Proof.
  intros Hloc Hspawn Hwin.
  destruct (run_script_start env (call scr args catch_ with_ret (Some t) raw_)
              files Hloc) as (path & fs1 & pre & Hpre & Hpath & Hreg).
  cbn [script call] in Hpath.
  exists fs1, pre, (build_cmd env path args). split; [exact Hpre |].
  unfold run_script.
  unfold bind at 1. cbn [script call]. rewrite Hpath.
  unfold bind at 1. unfold os_path_isfile at 1.
  cbv [bind ret get fs]. rewrite Hreg. cbn [negb]. rewrite Hwin. cbn [negb].
  unfold subprocess_Popen. rewrite Hspawn.
  cbv [bind ret get modify emit set_process datetime_now
       catch_stderr timeout arg_str is_True
       fs process polls clock_reads log].
  unfold deadline, waiting, after_loop.
  destruct catch_; reflexivity.
Qed.

(** The iteration whose poll finds the child exited, in time. *)
Lemma poll_loop_exit fuel env a t stop ts files se j l c :
  waitpid env j = Some c -> (now env (S j) <= stop)%Z ->
  poll_loop (S fuel) env a t stop ts (waiting files se j l)
  = (Ok None,
     polling files {| returncode := Some c; stdout := Open; stderr := se |}
       (S j) (l ++ [EvPoll])).
Proof.
  intros Hw Hnow. cbn [poll_loop]. unfold waiting, polling.
  loop_step. rewrite Hw, (gtb_false _ _ Hnow). reflexivity.
Qed.

Lemma repeat_shift {A : Type} (x : A) n l :
  (repeat x n ++ x :: l = x :: repeat x n ++ l)%list.
Proof.
  induction n as [|n IH]; cbn [repeat app]; [reflexivity | now rewrite IH].
Qed.

(** X7. A timeout the child beats: when the poll of iteration [j] finds the
    child exited and the clock reading of that iteration is not past the
    deadline, the call returns what the child wrote with the status that
    poll found, after [j + 1] polls and without sending any signal. *)
Theorem run_script_child_exits_in_time
    fuel env scr args catch_ with_ret raw_ t j c files :
  script_located env scr files = true ->
  popen_errno env = None ->
  platform_is_win env = false ->
  exits_in_time env t j c ->
  j + 1 <= fuel ->
  exists st' pre cmd,
    forallb is_fs_event pre = true
    /\ run_script fuel env (call scr args catch_ with_ret (Some t) raw_)
         (initial_state files)
       = (Ok (completion_value catch_ with_ret raw_ (stdout_data env)
                (stderr_data env) (Some c)), st')
    /\ log st'
       = (pre ++ EvSpawn cmd catch_ true
              :: repeat EvPoll (S j)
              ++ completion_calls (before_python_2_7 env) catch_)%list.
Proof.
  intros Hloc Hspawn Hwin (Hbefore & Hexit & Hnow) Hfuel.
  destruct (run_script_enters_loop_log fuel env scr args catch_ with_ret raw_
              t files Hloc Hspawn Hwin)
    as (files' & pre & cmd & Hpre & ->).
  replace fuel with (j + S (fuel - j - 1)) by lia.
  unfold bind.
  rewrite poll_loop_skip by (intros k Hk; apply Hbefore; lia).
  cbn [Nat.add].
  rewrite (poll_loop_exit _ _ _ _ _ _ _ _ _ _ _ Hexit Hnow).
  unfold polling. rewrite capture_completes.
  eexists _, pre, cmd. split; [exact Hpre |]. split; [reflexivity |].
  cbn [log repeat]. rewrite <- !app_assoc. cbn [app]. do 2 f_equal.
  apply repeat_shift.
Qed.

Lemma run_script_child_exits_in_time_witness :
  exists st' pre cmd,
    forallb is_fs_event pre = true
    /\ run_script 2 linux_quick_child
         (call "salt-cloud" "-p profile vm" false true (Some 1%Z) false)
         (initial_state (script_present linux_quick_child "salt-cloud"))
       = (Ok (completion_value false true false (stdout_data linux_quick_child)
                (stderr_data linux_quick_child) (Some 0%Z)), st')
    /\ log st'
       = (pre ++ EvSpawn cmd false true
              :: repeat EvPoll 2
              ++ completion_calls (before_python_2_7 linux_quick_child) false)%list.
Proof.
  apply (run_script_child_exits_in_time 2 linux_quick_child "salt-cloud"
           "-p profile vm" false true false 1%Z 1 0%Z
           (script_present linux_quick_child "salt-cloud"));
    [ reflexivity | reflexivity | reflexivity
    | unfold exits_in_time; split; [| split];
      [ intros k Hk; assert (k = 0) as -> by lia;
        split; [vm_compute; discriminate | reflexivity]
      | reflexivity
      | vm_compute; discriminate ]
    | lia ].
Defined.

(** X8. The system calls of a timeout are, after those of the script
    lookup: one spawn, [i + 1] polls, the interrupt, one more poll, the
    kill. Whatever that last poll finds, also that the child has exited on
    the interrupt, the kill is sent, nothing of what the child wrote is read,
    and the timeout report is returned. *)
Theorem timeout_system_calls
    fuel env scr args catch_ with_ret raw_ t i files :
  script_located env scr files = true ->
  popen_errno env = None ->
  platform_is_win env = false ->
  times_out_at env t i ->
  killpg_errno env SIGINT = None ->
  killpg_errno env SIGKILL = None \/ killpg_errno env SIGKILL = Some 3%Z ->
  i + 2 <= fuel ->
  exists st' pre cmd,
    forallb is_fs_event pre = true
    /\ run_script fuel env (call scr args catch_ with_ret (Some t) raw_)
         (initial_state files)
       = (Ok (timeout_result catch_ with_ret t (waitpid env (S i))), st')
    /\ log st'
       = (pre ++ EvSpawn cmd catch_ true
              :: repeat EvPoll (S i)
              ++ [EvKillpg SIGINT; EvPoll; EvKillpg SIGKILL])%list.
Proof.
  intros Hloc Hspawn Hwin (Hbefore & Hat & Hnext & Halive) Hint Hkill Hfuel.
  destruct (run_script_enters_loop_log fuel env scr args catch_ with_ret raw_
              t files Hloc Hspawn Hwin)
    as (files' & pre & cmd & Hpre & ->).
  replace fuel with (i + S (S (fuel - i - 2))) by lia.
  unfold bind.
  rewrite poll_loop_skip
    by (intros k Hk; split; [apply Hbefore | apply Halive]; lia).
  cbn [Nat.add].
  erewrite poll_loop_escalates by eauto.
  cbn [after_loop ret].
  eexists _, pre, cmd. split; [exact Hpre |]. split; [reflexivity |].
  unfold killed. cbn [log repeat].
  rewrite <- !app_assoc. cbn [app]. do 2 f_equal.
  apply repeat_shift.
Qed.

Lemma timeout_system_calls_witness :
  exists st' pre cmd,
    forallb is_fs_event pre = true
    /\ run_script 3 linux_child_heeds_interrupt
         (call "salt-cloud" "-p profile vm" false true (Some 1%Z) false)
         (initial_state
            (script_present linux_child_heeds_interrupt "salt-cloud"))
       = (Ok (timeout_result false true 1
                (waitpid linux_child_heeds_interrupt 2)), st')
    /\ log st'
       = (pre ++ EvSpawn cmd false true
              :: repeat EvPoll 2
              ++ [EvKillpg SIGINT; EvPoll; EvKillpg SIGKILL])%list.
Proof.
  apply (timeout_system_calls 3 linux_child_heeds_interrupt "salt-cloud"
           "-p profile vm" false true false 1%Z 1
           (script_present linux_child_heeds_interrupt "salt-cloud"));
    [ reflexivity | reflexivity | reflexivity
    | unfold times_out_at; split; [| split; [| split]];
      [ intros j Hj; assert (j = 0) as -> by lia; vm_compute; discriminate
      | vm_compute; reflexivity
      | vm_compute; reflexivity
      | intros k Hk; assert (k = 0 \/ k = 1) as [-> | ->] by lia;
        reflexivity ]
    | reflexivity | right; reflexivity | lia ].
Defined.

(** X9. An error of the kill other than errno 3 is raised to the caller of
    [run_script]: the [except] clause around the kill lets only errno 3
    pass. *)
Theorem kill_failure_reaches_caller
    fuel env scr args catch_ with_ret raw_ t i e files :
  script_located env scr files = true ->
  popen_errno env = None ->
  platform_is_win env = false ->
  times_out_at env t i ->
  killpg_errno env SIGINT = None ->
  killpg_errno env SIGKILL = Some e -> e <> 3%Z ->
  i + 2 <= fuel ->
  fst (run_script fuel env (call scr args catch_ with_ret (Some t) raw_)
         (initial_state files))
  = Raise (OSError e).
Proof.
  intros Hloc Hspawn Hwin Htime Hint Hkill Hne Hfuel.
  now apply (kill_error_propagates fuel env scr args catch_ with_ret raw_
               t i e files).
Qed.

Lemma kill_failure_reaches_caller_witness :
  fst (run_script 3 linux_kill_denied
         (call "salt-cloud" "-p profile vm" false false (Some 1%Z) false)
         (initial_state (script_present linux_kill_denied "salt-cloud")))
  = Raise (OSError 1).
Proof.
  apply (kill_failure_reaches_caller 3 linux_kill_denied "salt-cloud"
           "-p profile vm" false false false 1%Z 1 1%Z
           (script_present linux_kill_denied "salt-cloud"));
    [ reflexivity | reflexivity | reflexivity
    | unfold times_out_at; split; [| split; [| split]];
      [ intros j Hj; assert (j = 0) as -> by lia; vm_compute; discriminate
      | vm_compute; reflexivity
      | vm_compute; reflexivity
      | intros; reflexivity ]
    | reflexivity | reflexivity | discriminate | lia ].
Defined.

(** X10. When the child cannot be spawned, the [OSError] of
    [subprocess.Popen] is raised to the caller: there is no process then,
    and nothing is polled, signalled, read or terminated. *)
Theorem spawn_failure_propagates fuel env a e files :
  script_located env (script a) files = true ->
  popen_errno env = Some e ->
  (platform_is_win env = true -> timeout a = None) ->
  exists st' pre cmd own_group,
    forallb is_fs_event pre = true
    /\ run_script fuel env a (initial_state files) = (Raise (OSError e), st')
    /\ process st' = None
    /\ log st' = (pre ++ [EvSpawn cmd (is_True (catch_stderr a)) own_group])%list.
Proof.
  intros Hloc Hspawn Hwin.
  destruct (run_script_start env a files Hloc)
    as (path & fs1 & pre & Hpre & Hpath & Hreg).
  unfold run_script. unfold bind at 1. rewrite Hpath.
  unfold bind at 1. unfold os_path_isfile at 1.
  cbv [bind ret get fs]. rewrite Hreg. cbn [negb].
  unfold subprocess_Popen. rewrite Hspawn.
  destruct (platform_is_win env) eqn:Ew; cbn [negb andb].
  - rewrite (Hwin eq_refl).
    cbv [bind ret raise get modify emit fs process polls clock_reads log].
    eexists _, pre, _, _. repeat split; [exact Hpre | reflexivity..].
  - cbv [bind ret raise get modify emit fs process polls clock_reads log].
    eexists _, pre, _, _. repeat split; [exact Hpre | reflexivity..].
Qed.

Lemma spawn_failure_propagates_witness :
  exists st' pre cmd own_group,
    forallb is_fs_event pre = true
    /\ run_script 0 linux_cannot_fork
         (call "salt" "test.ping" true false None false)
         (initial_state (script_present linux_cannot_fork "salt"))
       = (Raise (OSError 11), st')
    /\ process st' = None
    /\ log st'
       = (pre ++ [EvSpawn cmd
                    (is_True (catch_stderr
                                (call "salt" "test.ping" true false None false)))
                    own_group])%list.
Proof.
  apply (spawn_failure_propagates 0 linux_cannot_fork
           (call "salt" "test.ping" true false None false) 11%Z
           (script_present linux_cannot_fork "salt"));
    [ reflexivity | reflexivity | discriminate ].
Defined.

Lemma poll_loop_ends env a t i :
  past_deadline_from env t i ->
  forall fuel j ts p files l,
    (ts = false -> j <= i) -> (ts = true -> j <= i + 1) ->
    i + 2 <= j + fuel ->
    settled_run
      (poll_loop fuel env a t (deadline env t) ts (polling files p j l))
      (i + 2)
    /\ (forall st', poll_loop fuel env a t (deadline env t) ts
                      (polling files p j l) = (Ok None, st') ->
        process st' <> None).
Proof.
  intros Hpast. induction fuel as [|fuel IH]; intros j ts p files l Hf Ht Hfuel.
  - destruct ts; [specialize (Ht eq_refl) | specialize (Hf eq_refl)]; lia.
  - cbn [poll_loop]. unfold polling. destruct p as [rc so se].
    loop_step.
    destruct (Z.gtb_spec (now env (S j)) (deadline env t)) as [Hgt | Hle].
    + destruct ts; cbn [negb].
      * (* kill *)
        destruct (killpg_errno env SIGKILL) as [e|].
        -- destruct (negb (e =? 3)%Z);
             [unfold settled_run; cbn; split; [split; [discriminate | lia] | discriminate] |].
           unfold settled_run.
           destruct (truthy (catch_stderr a)), (truthy (with_retcode a));
             loop_step; cbn; (split; [split; [discriminate | lia] | discriminate]).
        -- unfold settled_run.
           destruct (truthy (catch_stderr a)), (truthy (with_retcode a));
             loop_step; cbn; (split; [split; [discriminate | lia] | discriminate]).
      * destruct (killpg_errno env SIGINT) as [e|].
        -- unfold settled_run; cbn. split; [split; [discriminate | lia] | discriminate].
        -- match goal with
           | |- context [poll_loop fuel env a t _ true ?s] =>
               match s with
               | {| fs := _; process := Some ?p'; polls := _;
                    clock_reads := _; log := ?l' |} =>
                   change s with (polling files p' (S j) l')
               end
           end.
           apply IH; [discriminate | lia | lia].
    + assert (Hj : j < i).
      { destruct (Nat.lt_ge_cases j i) as [H|H]; [exact H |].
        specialize (Hpast j H). lia. }
      destruct (match rc with Some c => Some c | None => waitpid env j end)
        as [c|] eqn:Erc.
      * unfold settled_run; cbn.
        split; [split; [discriminate | lia] |].
        intros st' H. inversion H; subst. discriminate.
      * match goal with
        | |- context [poll_loop fuel env a t _ ts ?s] =>
            match s with
            | {| fs := _; process := Some ?p'; polls := _;
                 clock_reads := _; log := ?l' |} =>
                change s with (polling files p' (S j) l')
            end
        end.
        apply IH; intros; lia.
Qed.

Lemma capture_ends env a files p n c l :
  settled_run
    (after_loop env a None
       {| fs := files; process := Some p; polls := n; clock_reads := c;
          log := l |}) n.
Proof.
  unfold settled_run, after_loop, capture_both, capture_stdout.
  destruct p as [rc so se].
  capture_flags.
  destruct (truthy (catch_stderr a)), (truthy (with_retcode a)),
    (truthy (raw a)), (before_python_2_7 env), (terminate_errno env),
    so, se; cbn; split; solve [discriminate | lia].
Qed.

(** X11. The polling loop is bounded by the deadline: once every clock
    reading from iteration [i] on is past the deadline, the call ends, by
    returning or by raising, after at most [i + 2] polls, whatever the child
    and the signals do. *)
Theorem polling_loop_is_bounded fuel env a t i files :
  timeout a = Some t ->
  past_deadline_from env t i ->
  i + 2 <= fuel ->
  fst (run_script fuel env a (initial_state files)) <> OutOfFuel
  /\ polls (snd (run_script fuel env a (initial_state files))) <= i + 2.
Proof.
  intros Ht Hpast Hfuel.
  change (settled_run (run_script fuel env a (initial_state files)) (i + 2)).
  unfold run_script. unfold bind at 1.
  destruct (get_script_path env (script a) (initial_state files))
    as [r st] eqn:Hpath.
  destruct (get_script_path_frame _ _ _ _ _ Hpath) as (Hp & Hn & Hc & _).
  destruct st as [fs1 p1 n1 c1 log1]. cbn in Hp, Hn, Hc. subst p1 n1 c1.
  destruct r as [path | e |];
    try (unfold settled_run; cbn; split; [discriminate | lia]).
  2: { pose proof (get_script_path_settles env (script a) (initial_state files))
         as Hout.
       rewrite Hpath in Hout. now cbn [fst] in Hout. }
  - unfold bind at 1. unfold os_path_isfile. cbv [bind ret get fs].
    destruct (lookup path fs1);
      try (unfold settled_run; cbn; split; [discriminate | lia]).
    cbn [negb]. rewrite Ht.
    destruct (platform_is_win env);
      cbn [negb andb]; cbv [raise];
      try (unfold settled_run; cbn; split; [discriminate | lia]).
    unfold subprocess_Popen.
    destruct (popen_errno env);
      cbv [bind ret raise get modify emit set_process datetime_now
           fs process polls clock_reads log];
      try (unfold settled_run; cbn; split; [discriminate | lia]).
    match goal with
    | |- context [poll_loop fuel env a t ?stop false ?s] =>
        change stop with (deadline env t);
        match s with
        | {| fs := _; process := Some ?p'; polls := _;
             clock_reads := _; log := ?l' |} =>
            change s with (polling fs1 p' 0 l')
        end
    end.
    match goal with
    | |- context [poll_loop fuel env a t _ false ?s] =>
        destruct (poll_loop_ends env a t i Hpast fuel 0 false
                    {| returncode := None; stdout := Open;
                       stderr := if is_True (catch_stderr a)
                                 then Open else NoPipe |}
                    fs1 (log1 ++ [EvSpawn (build_cmd env path (arg_str a))
                                    (is_True (catch_stderr a)) true])%list
                    ltac:(lia) ltac:(lia) ltac:(lia))
          as ([Hoof Hpolls] & Hproc);
        destruct (poll_loop fuel env a t (deadline env t) false s)
          as [[[v|]|e|] st'] eqn:Eloop
    end; cbn [fst snd] in *;
      try (unfold settled_run; cbn; split; [discriminate | lia]);
      try congruence.
    specialize (Hproc st' eq_refl).
    destruct st' as [f2 [p2|] n2 c2 l2]; [| cbn in Hproc; congruence].
    cbn [polls] in Hpolls.
    pose proof (capture_ends env a f2 p2 n2 c2 l2) as [H1 H2].
    unfold after_loop in H1, H2. split; [exact H1 | lia].
Qed.

Lemma polling_loop_is_bounded_witness :
  fst (run_script 3 linux_child_heeds_interrupt
         (call "salt-cloud" "-p profile vm" true true (Some 1%Z) false)
         (initial_state
            (script_present linux_child_heeds_interrupt "salt-cloud")))
  <> OutOfFuel
  /\ polls (snd (run_script 3 linux_child_heeds_interrupt
                   (call "salt-cloud" "-p profile vm" true true (Some 1%Z) false)
                   (initial_state
                      (script_present linux_child_heeds_interrupt
                         "salt-cloud"))))
     <= 1 + 2.
Proof.
  apply (polling_loop_is_bounded 3 linux_child_heeds_interrupt
           (call "salt-cloud" "-p profile vm" true true (Some 1%Z) false)
           1%Z 1
           (script_present linux_child_heeds_interrupt "salt-cloud"));
    [ reflexivity
    | intros k Hk; unfold deadline, timedelta_seconds;
      cbn [now linux_child_heeds_interrupt linux]; lia
    | lia ].
Defined.

(** ** Flags and callers *)

(** [run_script] looks at its flags through their truth value only, but for
    the one test [catch_stderr is True]. *)
Lemma run_script_completes_by_truth fuel env a files :
  timeout a = None ->
  is_True (catch_stderr a) = truthy (catch_stderr a) ->
  script_located env (script a) files = true ->
  popen_errno env = None ->
  exists st',
    run_script fuel env a (initial_state files)
    = (Ok (completion_value (truthy (catch_stderr a))
             (truthy (with_retcode a)) (truthy (raw a))
             (stdout_data env) (stderr_data env) (Some (wait_status env))),
       st')
    /\ polls st' = 0 /\ clock_reads st' = 0.
Proof.
  intros Ht Hcs Hloc Hspawn.
  destruct (run_script_start env a files Hloc)
    as (path & fs1 & pre & Hpre & Hpath & Hreg).
  unfold run_script. unfold bind at 1. rewrite Hpath.
  unfold capture_both, capture_stdout, completion_value.
  rewrite Ht, Hcs.
  cbv [bind ret raise get modify emit set_process the_process os_path_isfile
       subprocess_Popen process_communicate stream_close process_wait
       stream_read try_finally try_except terminate_quietly process_terminate
       opt_splitlines get_handle set_handle closed_if_piped negb andb
       fs process polls clock_reads log returncode stdout stderr].
  rewrite Hreg, Hspawn.
  destruct (platform_is_win env), (before_python_2_7 env),
    (terminate_errno env), (truthy (catch_stderr a)),
    (truthy (with_retcode a)), (truthy (raw a));
    eexists; (split; [reflexivity | split; reflexivity]).
Qed.

(** X12. A [catch_stderr] that is true without being the object [True]
    (a number other than 0): the child's stderr is not redirected, yet the
    branch for captured stderr runs. From Python 2.7 on the call returns
    with an empty list as error output, and with [with_retcode] the output
    is split into lines whatever [raw] is; on Python 2.6 the read of the
    missing stream raises [AttributeError], stdout left open. *)
Theorem catch_stderr_true_but_not_True
    fuel env scr args n with_ret raw_ files :
  n <> 0%Z ->
  script_located env scr files = true ->
  popen_errno env = None ->
  let a := {| script := scr; arg_str := args; catch_stderr := PInt n;
              with_retcode := PBool with_ret; timeout := None;
              raw := PBool raw_ |} in
  (before_python_2_7 env = false ->
   exists st',
     run_script fuel env a (initial_state files)
     = (Ok (if with_ret then
              ROutErrCode (Lines (splitlines (stdout_data env))) (Lines [])
                (Some (wait_status env))
            else
              ROutErr (if raw_ then Blob (stdout_data env)
                       else Lines (splitlines (stdout_data env)))
                (Lines [])), st')
     /\ handle_of Stderr st' = Some NoPipe)
  /\ (before_python_2_7 env = true ->
      exists st',
        run_script fuel env a (initial_state files)
        = (Raise AttributeError, st')
        /\ handle_of Stdout st' = Some Open).
Proof.
  intros Hn Hloc Hspawn a.
  destruct (run_script_start env a files Hloc)
    as (path & fs1 & pre & Hpre & Hpath & Hreg).
  apply Z.eqb_neq in Hn.
  split; intros Hpy; unfold run_script; unfold bind at 1; rewrite Hpath;
    unfold capture_both, capture_stdout; subst a;
    cbv [bind ret raise get modify emit set_process the_process os_path_isfile
         subprocess_Popen process_communicate stream_close process_wait
         stream_read try_finally try_except terminate_quietly process_terminate
         opt_splitlines opt_blob get_handle set_handle closed_if_piped
         catch_stderr with_retcode raw timeout truthy is_True negb andb
         fs process polls clock_reads log returncode stdout stderr];
    rewrite Hreg, Hspawn, Hpy, Hn;
    destruct (platform_is_win env), (terminate_errno env), with_ret, raw_;
    eexists; (split; [reflexivity | reflexivity]).
Qed.

Lemma catch_stderr_true_but_not_True_witness :
  (exists st',
     run_script 0 linux
       {| script := "salt"; arg_str := "test.ping"; catch_stderr := PInt 1;
          with_retcode := PBool true; timeout := None; raw := PBool true |}
       (initial_state (script_present linux "salt"))
     = (Ok (ROutErrCode (Lines (splitlines (stdout_data linux))) (Lines [])
              (Some (wait_status linux))), st')
     /\ handle_of Stderr st' = Some NoPipe)
  /\ (exists st',
        run_script 0 linux_python_2_6
          {| script := "salt"; arg_str := "test.ping"; catch_stderr := PInt 1;
             with_retcode := PBool true; timeout := None; raw := PBool true |}
          (initial_state (script_present linux_python_2_6 "salt"))
        = (Raise AttributeError, st')
        /\ handle_of Stdout st' = Some Open).
Proof.
  split.
  - apply (proj1 (catch_stderr_true_but_not_True 0 linux "salt" "test.ping"
                    1%Z true true (script_present linux "salt")
                    ltac:(discriminate) eq_refl eq_refl)).
    reflexivity.
  - apply (proj2 (catch_stderr_true_but_not_True 0 linux_python_2_6 "salt"
                    "test.ping" 1%Z true true
                    (script_present linux_python_2_6 "salt")
                    ltac:(discriminate) eq_refl eq_refl)).
    reflexivity.
Defined.

(** X13. [run_cloud] hands its [timeout] to [run_script] as [with_retcode]:
    with a timeout other than 0 no deadline is set, the clock is never read
    and the child never polled; the call returns when the child ends, with
    the exit code added to what was asked for. *)
Theorem run_cloud_timeout_is_with_retcode
    fuel env cfg args catch_ n files :
  n <> 0%Z ->
  script_located env "salt-cloud" files = true ->
  popen_errno env = None ->
  exists st',
    run_cloud fuel env cfg args (PBool catch_) (PInt n) (initial_state files)
    = (Ok (completion_value catch_ true false (stdout_data env)
             (stderr_data env) (Some (wait_status env))), st')
    /\ polls st' = 0 /\ clock_reads st' = 0.
Proof.
  intros Hn Hloc Hspawn. unfold run_cloud.
  match goal with
  | |- context [run_script fuel env ?a _] =>
      destruct (run_script_completes_by_truth fuel env a files)
        as (st' & Hrun & Hp & Hc);
      [reflexivity | destruct catch_; reflexivity | exact Hloc | exact Hspawn |]
  end.
  exists st'. split; [| split; assumption].
  rewrite Hrun. cbn [catch_stderr with_retcode raw truthy].
  apply Z.eqb_neq in Hn. rewrite Hn. reflexivity.
Qed.

Lemma run_cloud_timeout_is_with_retcode_witness :
  exists st',
    run_cloud 0 linux_slow_child sample_config "-p profile vm"
      (PBool false) (PInt 30)
      (initial_state (script_present linux_slow_child "salt-cloud"))
    = (Ok (completion_value false true false (stdout_data linux_slow_child)
             (stderr_data linux_slow_child)
             (Some (wait_status linux_slow_child))), st')
    /\ polls st' = 0 /\ clock_reads st' = 0.
Proof.
  apply (run_cloud_timeout_is_with_retcode 0 linux_slow_child sample_config
           "-p profile vm" false 30%Z
           (script_present linux_slow_child "salt-cloud"));
    [ discriminate | reflexivity | reflexivity ].
Defined.

(** X14. [SSHCase.run_function] returns the value under [localhost] when the
    whole of the child's stdout decodes to a dict with that key, and the
    stdout text as it is in every other case; it sets no deadline, whatever
    its [timeout] argument. *)
Theorem ssh_run_function_decodes_or_returns_raw
    fuel env cfg function arg timeout files :
  script_located env "salt-ssh" files = true ->
  popen_errno env = None ->
  exists st',
    ssh_run_function fuel env cfg function arg timeout (initial_state files)
    = (Ok (match json_loads cfg (stdout_data env) with
           | Some (PDict d) =>
               match ModuleCase.dict_get "localhost" d with
               | Some v => Decoded v
               | None => Undecoded (ROut (Blob (stdout_data env)))
               end
           | _ => Undecoded (ROut (Blob (stdout_data env)))
           end), st')
    /\ polls st' = 0 /\ clock_reads st' = 0.
Proof.
  intros Hloc Hspawn. unfold ssh_run_function, run_ssh. unfold bind.
  match goal with
  | |- context [run_script fuel env ?a _] =>
      destruct (run_script_completes_by_truth fuel env a files)
        as (st' & Hrun & Hp & Hc);
      [reflexivity | reflexivity | exact Hloc | exact Hspawn |]
  end.
  rewrite Hrun. exists st'. split; [reflexivity | split; assumption].
Qed.

Lemma ssh_run_function_decodes_or_returns_raw_witness :
  exists st',
    ssh_run_function 0 linux sample_config "test.ping" [] 25
      (initial_state (script_present linux "salt-ssh"))
    = (Ok (match json_loads sample_config (stdout_data linux) with
           | Some (PDict d) =>
               match ModuleCase.dict_get "localhost" d with
               | Some v => Decoded v
               | None => Undecoded (ROut (Blob (stdout_data linux)))
               end
           | _ => Undecoded (ROut (Blob (stdout_data linux)))
           end), st')
    /\ polls st' = 0 /\ clock_reads st' = 0.
Proof.
  apply (ssh_run_function_decodes_or_returns_raw 0 linux sample_config
           "test.ping" [] 25%Z (script_present linux "salt-ssh"));
    reflexivity.
Defined.

(** X15. The wrappers [run_salt], [run_run], [run_key], [run_cp] and
    [run_call] run their tool to its end and return what the two flags ask
    for, split into lines; [run_ssh] returns it whole. None of them sets a
    deadline. *)
Theorem cli_wrappers_return_by_flags fuel env cfg args catch_ with_ret files :
  popen_errno env = None ->
  let lines := completion_value catch_ with_ret false (stdout_data env)
                 (stderr_data env) (Some (wait_status env)) in
  let whole := completion_value catch_ with_ret true (stdout_data env)
                 (stderr_data env) (Some (wait_status env)) in
  (script_located env "salt" files = true ->
   fst (run_salt fuel env cfg args (PBool with_ret) (PBool catch_)
          (initial_state files)) = Ok lines)
  /\ (script_located env "salt-run" files = true ->
      fst (run_run fuel env cfg args (PBool with_ret) (PBool catch_)
             (initial_state files)) = Ok lines)
  /\ (script_located env "salt-key" files = true ->
      fst (run_key fuel env cfg args (PBool catch_) (PBool with_ret)
             (initial_state files)) = Ok lines)
  /\ (script_located env "salt-cp" files = true ->
      fst (run_cp fuel env cfg args (PBool with_ret) (PBool catch_)
             (initial_state files)) = Ok lines)
  /\ (script_located env "salt-call" files = true ->
      fst (run_call fuel env cfg args (PBool with_ret) (PBool catch_)
             (initial_state files)) = Ok lines)
  /\ (script_located env "salt-ssh" files = true ->
      fst (run_ssh fuel env cfg args (PBool with_ret) (PBool catch_)
             (initial_state files)) = Ok whole).
Proof.
  intros Hspawn lines whole.
  repeat split; intros Hloc;
    unfold run_salt, run_run, run_key, run_cp, run_call, run_ssh;
    match goal with
    | |- context [run_script fuel env ?a _] =>
        destruct (run_script_completes_by_truth fuel env a files)
          as (st' & Hrun & _);
        [ reflexivity | destruct catch_; reflexivity | exact Hloc
        | exact Hspawn | ]
    end; rewrite Hrun; reflexivity.
Qed.

Lemma cli_wrappers_return_by_flags_witness :
  fst (run_key 0 linux sample_config "-L" (PBool false) (PBool true)
         (initial_state (script_present linux "salt-key")))
  = Ok (completion_value false true false (stdout_data linux)
          (stderr_data linux) (Some (wait_status linux))).
Proof.
  apply (proj1 (proj2 (proj2
           (cli_wrappers_return_by_flags 0 linux sample_config "-L" false true
              (script_present linux "salt-key") eq_refl)))).
  reflexivity.
Defined.

(** ** ClientCase.mkdir_p *)

Lemma mkdir_p_unfold env path st :
  mkdir_p env path st
  = match os_makedirs env path st with
    | (Raise (OSError errno), st1) =>
        if (errno =? 17)%Z
           && match lookup path (fs st1) with Directory => true | _ => false end
        then (Ok tt, st1)
        else (Raise (OSError errno), st1)
    | r => r
    end.
Proof.
  unfold mkdir_p, try_except.
  destruct (os_makedirs env path st) as [[[]|e|] st1]; try reflexivity.
  destruct e; try reflexivity.
  unfold os_path_isdir. cbv [bind ret get raise].
  destruct ((errno =? 17)%Z && _); reflexivity.
Qed.

(** X16. [mkdir_p] returns only with the path a directory, and what it
    raises is the [OSError] of [os.makedirs], any but the one it forgives:
    errno 17 (file exists) on a path that is a directory. On an existing
    directory, [os.makedirs] raising nothing else, it returns and changes
    no file. *)
Theorem mkdir_p_outcome env path st :
  match mkdir_p env path st with
  | (Ok _, st') => lookup path (fs st') = Directory
  | (Raise (OSError e), st') =>
      ~ (e = 17%Z /\ lookup path (fs st') = Directory)
  | _ => False
  end
  /\ (lookup path (fs st) = Directory ->
      makedirs_errno env path = None \/ makedirs_errno env path = Some 17%Z ->
      exists st', mkdir_p env path st = (Ok tt, st') /\ fs st' = fs st).
Proof.
  rewrite mkdir_p_unfold.
  destruct (os_makedirs env path st) as [r1 st1] eqn:E1.
  destruct (os_makedirs_inv _ _ _ _ _ E1)
    as [(-> & Ho & Habs & Hfs) | (e & -> & Hfs & Hwhy)].
  - split.
    + now rewrite Hfs, lookup_cons, String.eqb_refl.
    + intros Hdir _. congruence.
  - split.
    + destruct (Z.eqb_spec e 17) as [-> | Hne]; cbn [andb].
      * destruct (lookup path (fs st1)) eqn:E; cbv beta iota;
          first [exact E | intros [_ H]; congruence].
      * intros [H _]. contradiction.
    + intros Hdir Horacle.
      assert (e = 17%Z) as ->
        by (destruct Hwhy as [Ho | (_ & -> & _)];
            [destruct Horacle; congruence | reflexivity]).
      rewrite Hfs, Hdir. cbn [Z.eqb Pos.eqb andb]. eauto.
Qed.

Lemma mkdir_p_outcome_witness :
  match mkdir_p linux "/tmp/salt-tests-tmpdir/cache"
          (initial_state [("/tmp/salt-tests-tmpdir/cache", Directory)]) with
  | (Ok _, st') => lookup "/tmp/salt-tests-tmpdir/cache" (fs st') = Directory
  | (Raise (OSError e), st') =>
      ~ (e = 17%Z /\ lookup "/tmp/salt-tests-tmpdir/cache" (fs st') = Directory)
  | _ => False
  end
  /\ exists st',
       mkdir_p linux "/tmp/salt-tests-tmpdir/cache"
         (initial_state [("/tmp/salt-tests-tmpdir/cache", Directory)])
       = (Ok tt, st')
       /\ fs st'
          = fs (initial_state [("/tmp/salt-tests-tmpdir/cache", Directory)]).
Proof.
  destruct (mkdir_p_outcome linux "/tmp/salt-tests-tmpdir/cache"
              (initial_state [("/tmp/salt-tests-tmpdir/cache", Directory)]))
    as [Hkinds Hthere].
  split; [exact Hkinds | apply Hthere; [reflexivity | left; reflexivity]].
Defined.

(** X17. [mkdir_p] can be repeated: after one that succeeded, another on
    the same path succeeds and changes no file. *)
Theorem mkdir_p_twice env path st st' :
  mkdir_p env path st = (Ok tt, st') ->
  exists st'', mkdir_p env path st' = (Ok tt, st'') /\ fs st'' = fs st'.
Proof.
  intros H.
  assert (Hdir : lookup path (fs st') = Directory
                 /\ (makedirs_errno env path = None
                     \/ makedirs_errno env path = Some 17%Z)).
  { rewrite mkdir_p_unfold in H.
    destruct (os_makedirs env path st) as [r1 st1] eqn:E1.
    destruct (os_makedirs_inv _ _ _ _ _ E1)
      as [(-> & Ho & Habs & Hfs) | (e & -> & Hfs & Hwhy)].
    - inversion H; subst. split; [| now left].
      now rewrite Hfs, lookup_cons, String.eqb_refl.
    - destruct (Z.eqb_spec e 17) as [He | Hne]; cbn [andb] in H;
        [subst e | discriminate].
      destruct (lookup path (fs st1)) eqn:E; try discriminate.
      inversion H; subst. split; [exact E |].
      destruct Hwhy as [Ho | (Ho & _)]; auto. }
  destruct Hdir as [Hdir Horacle].
  rewrite mkdir_p_unfold.
  destruct (os_makedirs env path st') as [r1 st1] eqn:E1.
  destruct (os_makedirs_inv _ _ _ _ _ E1)
    as [(-> & Ho & Habs & Hfs) | (e & -> & Hfs & Hwhy)]; [congruence |].
  assert (e = 17%Z) as ->
    by (destruct Hwhy as [Ho | (_ & -> & _)];
        [destruct Horacle; congruence | reflexivity]).
  rewrite Hfs, Hdir. cbn [Z.eqb Pos.eqb andb]. eauto.
Qed.

Lemma mkdir_p_twice_witness :
  exists st'',
    mkdir_p linux "/tmp/salt-tests-tmpdir/cache"
      (snd (mkdir_p linux "/tmp/salt-tests-tmpdir/cache" (initial_state [])))
    = (Ok tt, st'')
    /\ fs st''
       = fs (snd (mkdir_p linux "/tmp/salt-tests-tmpdir/cache"
                    (initial_state []))).
Proof.
  apply (mkdir_p_twice linux "/tmp/salt-tests-tmpdir/cache"
           (initial_state [])).
  reflexivity.
Defined.


End ShellExtras.

(** * The shell runner, whatever the flags and the clock *)

Module ShellGeneral.

Import Shell Props Callers XProps StringFacts ShellProofs ShellExtras.

(** ** The guard at the top of run_script *)

Lemma located_intro env scr files path st :
  get_script_path env scr (initial_state files) = (Ok path, st) ->
  lookup path (fs st) = Regular ->
  script_located env scr files = true.
Proof. intros H Hreg. unfold script_located. now rewrite H, Hreg. Qed.

(** An error of [get_script_path] is the error of [run_script]. *)
Lemma run_script_path_error fuel env a files e st1 :
  get_script_path env (script a) (initial_state files) = (Raise e, st1) ->
  run_script fuel env a (initial_state files) = (Raise e, st1).
Proof. intros H. unfold run_script. unfold bind at 1. now rewrite H. Qed.

(** The guard: a path that is no regular file ends the call with [False],
    whatever the flags, the timeout and the platform. *)
Lemma run_script_guard fuel env a files path st1 :
  get_script_path env (script a) (initial_state files) = (Ok path, st1) ->
  lookup path (fs st1) <> Regular ->
  run_script fuel env a (initial_state files) = (Ok RFalse, st1).
Proof.
  intros H Hnot. unfold run_script. unfold bind at 1. rewrite H.
  unfold bind at 1. unfold os_path_isfile. cbv [bind ret get].
  destruct (lookup path (fs st1)); try reflexivity. contradiction.
Qed.

(** A failed spawn is raised. *)
Lemma run_script_spawn_error fuel env a files e :
  script_located env (script a) files = true ->
  popen_errno env = Some e ->
  timeout a = None ->
  exists st', run_script fuel env a (initial_state files)
              = (Raise (OSError e), st').
Proof.
  intros Hloc Hspawn Ht.
  destruct (run_script_start env a files Hloc)
    as (path & fs1 & pre & Hpre & Hpath & Hreg).
  unfold run_script. unfold bind at 1. rewrite Hpath.
  unfold bind at 1. unfold os_path_isfile at 1.
  cbv [bind ret get fs]. rewrite Hreg. cbn [negb].
  unfold subprocess_Popen. rewrite Hspawn, Ht.
  destruct (platform_is_win env); cbn [negb andb];
    cbv [bind ret raise get modify emit fs process polls clock_reads log];
    eexists; reflexivity.
Qed.

(** ** Return shapes without a timeout *)

Lemma shape_of_completion c w r out err code :
  shape_of (completion_value c w r out err code) = requested_shape c w r.
Proof. destruct c, w, r; reflexivity. Qed.

(** C1, as the code has it. With [timeout] unset, the flags taken by their
    truth and [catch_stderr] being the object [True] or a false value:
    when [get_script_path] returns a path that is a regular file and the
    child is spawned, [run_script] returns, and the value has the shape the
    flags ask for: [(out, err, code)] with [catch_stderr] and
    [with_retcode], [(out, err)] with [catch_stderr] alone, [(out, code)]
    with [with_retcode] alone, [out] otherwise, where [out] and [err] are
    lists of lines unless [raw], and blobs with [raw]. When
    [get_script_path] returns a path that is no regular file, [run_script]
    returns [False]. Every value returned is one of the two. *)
Theorem run_script_shape_without_timeout fuel env a files :
  timeout a = None ->
  is_True (catch_stderr a) = truthy (catch_stderr a) ->
  let requested :=
    requested_shape (truthy (catch_stderr a)) (truthy (with_retcode a))
      (truthy (raw a)) in
  (script_located env (script a) files = true ->
   popen_errno env = None ->
   exists v st',
     run_script fuel env a (initial_state files) = (Ok v, st')
     /\ shape_of v = requested)
  /\ (forall path st1,
        get_script_path env (script a) (initial_state files) = (Ok path, st1) ->
        lookup path (fs st1) <> Regular ->
        run_script fuel env a (initial_state files) = (Ok RFalse, st1))
  /\ (forall v st',
        run_script fuel env a (initial_state files) = (Ok v, st') ->
        v = RFalse \/ shape_of v = requested).
Proof.
  intros Ht Hcs requested.
  assert (Hshape : script_located env (script a) files = true ->
                   popen_errno env = None ->
                   exists v st',
                     run_script fuel env a (initial_state files) = (Ok v, st')
                     /\ shape_of v = requested).
  { intros Hloc Hspawn.
    destruct (run_script_completes_by_truth fuel env a files Ht Hcs Hloc Hspawn)
      as (st' & Hrun & _).
    do 2 eexists. split; [exact Hrun | apply shape_of_completion]. }
  split; [exact Hshape |]. split; [apply run_script_guard |].
  intros v st' Hrun.
  destruct (get_script_path env (script a) (initial_state files))
    as [[path | e |] st1] eqn:Hpath.
  - destruct (lookup path (fs st1)) eqn:Hnode.
    2: { (* the script is there *)
         pose proof (located_intro _ _ _ _ _ Hpath Hnode) as Hloc.
         destruct (popen_errno env) as [e|] eqn:Hspawn.
         - destruct (run_script_spawn_error fuel env a files e Hloc Hspawn Ht)
             as (st2 & H2).
           rewrite H2 in Hrun. discriminate.
         - destruct (Hshape Hloc eq_refl) as (v' & st2 & H2 & Hs).
           rewrite H2 in Hrun. inversion Hrun; subst. now right. }
    all: rewrite (run_script_guard fuel env a files path st1 Hpath) in Hrun
           by (rewrite Hnode; discriminate);
         inversion Hrun; now left.
  - rewrite (run_script_path_error _ _ _ _ _ _ Hpath) in Hrun. discriminate.
  - exfalso. apply (get_script_path_settles env (script a) (initial_state files)).
    now rewrite Hpath.
Qed.

Lemma run_script_shape_without_timeout_witness :
  (exists v st',
     run_script 0 linux (call "salt" "-L minion test.ping" true true None true)
       (initial_state (script_present linux "salt")) = (Ok v, st')
     /\ shape_of v = requested_shape true true true)
  /\ run_script 0 linux (call "salt" "-L minion test.ping" true true None true)
       (initial_state (script_path_special linux "salt"))
     = (Ok RFalse,
        snd (get_script_path linux "salt"
               (initial_state (script_path_special linux "salt"))))
  /\ (ROut (Lines ["hello"]) = RFalse
      \/ shape_of (ROut (Lines ["hello"])) = requested_shape false false false).
Proof.
  split; [| split].
  - apply (proj1 (run_script_shape_without_timeout 0 linux
                    (call "salt" "-L minion test.ping" true true None true)
                    (script_present linux "salt") eq_refl eq_refl));
      reflexivity.
  - apply (proj1 (proj2 (run_script_shape_without_timeout 0 linux
                           (call "salt" "-L minion test.ping" true true None true)
                           (script_path_special linux "salt")
                           eq_refl eq_refl))
             (os_path_join (TMP_SCRIPT_DIR linux) "salt"));
      [reflexivity | discriminate].
  - apply (proj2 (proj2 (run_script_shape_without_timeout 0 linux
                           (call "salt" "-L minion test.ping" false false None
                              false)
                           (script_present linux "salt") eq_refl eq_refl))
             (ROut (Lines ["hello"]))
             (snd (run_script 0 linux
                     (call "salt" "-L minion test.ping" false false None false)
                     (initial_state (script_present linux "salt"))))).
    reflexivity.
Defined.

(** C1 as stated fails in two places. Where the path [get_script_path]
    returns is no regular file (a device, say), the guard at the top of
    [run_script] returns [False], which is none of the shapes. And a
    [catch_stderr] that is true without being the object [True] takes the
    branch for captured stderr with no stderr captured: with [raw] the
    error element is an empty list where a blob is asked for. *)
Lemma run_script_returns_False_without_script :
  (fst (run_script 0 linux
          (call "salt" "-L minion test.ping" false false None false)
          (initial_state (script_path_special linux "salt")))
   = Ok RFalse
   /\ shape_of RFalse <> requested_shape false false false)
  /\ (fst (run_script 0 linux
             {| script := "salt"; arg_str := "-L minion test.ping";
                catch_stderr := PInt 1; with_retcode := PBool false;
                timeout := None; raw := PBool true |}
             (initial_state (script_present linux "salt")))
      = Ok (ROutErr (Blob ("hello" ++ String LF EmptyString)) (Lines []))
      /\ shape_of (ROutErr (Blob ("hello" ++ String LF EmptyString)) (Lines []))
         <> requested_shape true false true).
Proof.
  split; (split; [reflexivity | discriminate]).
Qed.

(** ** Timeout without process groups *)

(** C7, as the code has it. On a platform whose name starts with [win], a
    call with a timeout never reaches [subprocess.Popen], however it ends.
    The failure is not immediate: [get_script_path] runs first. When it
    returns a path that is a regular file the call raises [RuntimeError];
    when it returns a path that is no regular file the call returns
    [False]; when it raises, the call raises the same. *)
Theorem timeout_on_windows_never_spawns fuel env a t files :
  platform_is_win env = true ->
  timeout a = Some t ->
  spawn_calls (snd (run_script fuel env a (initial_state files))) = 0
  /\ (script_located env (script a) files = true ->
      fst (run_script fuel env a (initial_state files))
      = Raise (RuntimeError "Timeout is not supported under windows"))
  /\ (forall path st1,
        get_script_path env (script a) (initial_state files) = (Ok path, st1) ->
        lookup path (fs st1) <> Regular ->
        run_script fuel env a (initial_state files) = (Ok RFalse, st1))
  /\ (forall e st1,
        get_script_path env (script a) (initial_state files) = (Raise e, st1) ->
        run_script fuel env a (initial_state files) = (Raise e, st1)).
Proof.
  intros Hwin Ht.
  split; [| split; [| split; [apply run_script_guard
                             | apply run_script_path_error]]].
  - destruct (get_script_path env (script a) (initial_state files))
      as [r1 st1] eqn:Hpath.
    destruct (get_script_path_frame _ _ _ _ _ Hpath) as (_ & _ & _ & Hlog).
    cbn in Hlog.
    assert (Hzero : spawn_calls st1 = 0)
      by (unfold spawn_calls; now rewrite Hlog).
    destruct r1 as [path | e |].
    + destruct (lookup path (fs st1)) eqn:Hnode.
      2: { unfold run_script. unfold bind at 1. rewrite Hpath.
           unfold bind at 1. unfold os_path_isfile.
           cbv [bind ret get]. rewrite Hnode. cbn [negb].
           rewrite Hwin, Ht. cbn [negb andb]. exact Hzero. }
      all: rewrite (run_script_guard fuel env a files path st1 Hpath)
             by (rewrite Hnode; discriminate);
           exact Hzero.
    + now rewrite (run_script_path_error _ _ _ _ _ _ Hpath).
    + exfalso.
      apply (get_script_path_settles env (script a) (initial_state files)).
      now rewrite Hpath.
  - intros Hloc.
    destruct (located_inv _ _ _ Hloc) as (path & st1 & Hpath & Hreg).
    unfold run_script. unfold bind at 1. rewrite Hpath.
    unfold bind at 1. unfold os_path_isfile.
    cbv [bind ret get]. rewrite Hreg. cbn [negb].
    rewrite Hwin, Ht. reflexivity.
Qed.

Lemma timeout_on_windows_never_spawns_witness :
  spawn_calls
    (snd (run_script 0 windows
            (call "salt-cloud" "-p profile vm" false false (Some 1%Z) false)
            (initial_state (script_present windows "salt-cloud")))) = 0
  /\ fst (run_script 0 windows
            (call "salt-cloud" "-p profile vm" false false (Some 1%Z) false)
            (initial_state (script_present windows "salt-cloud")))
     = Raise (RuntimeError "Timeout is not supported under windows")
  /\ run_script 0 windows
       (call "salt-cloud" "-p profile vm" false false (Some 1%Z) false)
       (initial_state (script_path_special windows "salt-cloud"))
     = (Ok RFalse,
        snd (get_script_path windows "salt-cloud"
               (initial_state (script_path_special windows "salt-cloud"))))
  /\ run_script 0 windows
       (call "salt-cloud" "-p profile vm" false false (Some 1%Z) false)
       (initial_state
          [(TMP_SCRIPT_DIR windows, Directory);
           (os_path_join (TMP_SCRIPT_DIR windows) "salt-cloud", Directory)])
     = (Raise (IOError 21),
        initial_state
          [(TMP_SCRIPT_DIR windows, Directory);
           (os_path_join (TMP_SCRIPT_DIR windows) "salt-cloud", Directory)]).
Proof.
  split; [| split; [| split]].
  - apply (proj1 (timeout_on_windows_never_spawns 0 windows
                    (call "salt-cloud" "-p profile vm" false false (Some 1%Z)
                       false)
                    1%Z (script_present windows "salt-cloud")
                    eq_refl eq_refl)).
  - apply (proj1 (proj2 (timeout_on_windows_never_spawns 0 windows
                           (call "salt-cloud" "-p profile vm" false false
                              (Some 1%Z) false)
                           1%Z (script_present windows "salt-cloud")
                           eq_refl eq_refl))).
    reflexivity.
  - apply (proj1 (proj2 (proj2 (timeout_on_windows_never_spawns 0 windows
                                  (call "salt-cloud" "-p profile vm" false
                                     false (Some 1%Z) false)
                                  1%Z
                                  (script_path_special windows "salt-cloud")
                                  eq_refl eq_refl)))
             (os_path_join (TMP_SCRIPT_DIR windows) "salt-cloud"));
      [reflexivity | discriminate].
  - apply (proj2 (proj2 (proj2 (timeout_on_windows_never_spawns 0 windows
                                  (call "salt-cloud" "-p profile vm" false
                                     false (Some 1%Z) false)
                                  1%Z
                                  [(TMP_SCRIPT_DIR windows, Directory);
                                   (os_path_join (TMP_SCRIPT_DIR windows)
                                      "salt-cloud", Directory)]
                                  eq_refl eq_refl)))).
    reflexivity.
Defined.

(** C7 as stated fails where the path [get_script_path] returns is no
    regular file (a device, say): the call returns [False] and raises
    nothing. It fails as well where a directory sits at the script path:
    what is raised is the [IOError] of [get_script_path]. *)
Lemma timeout_on_windows_returns_False_without_script :
  platform_is_win windows = true
  /\ fst (run_script 0 windows
            (call "salt-cloud" "-p profile vm" false false (Some 1%Z) false)
            (initial_state (script_path_special windows "salt-cloud")))
     = Ok RFalse
  /\ exists e,
       fst (run_script 0 windows
              (call "salt-cloud" "-p profile vm" false false (Some 1%Z) false)
              (initial_state
                 [(TMP_SCRIPT_DIR windows, Directory);
                  (os_path_join (TMP_SCRIPT_DIR windows) "salt-cloud",
                   Directory)]))
       = Raise (IOError e).
Proof. split; [| split; [| eexists]]; reflexivity. Qed.

(** ** The timeout branch in general *)

Lemma polled_S env n :
  polled env (S n)
  = match polled env n with Some c => Some c | None => waitpid env n end.
Proof. reflexivity. Qed.

Lemma polled_None env n :
  polled env n = None <-> (forall j, j < n -> waitpid env j = None).
Proof.
  induction n as [|n IH]; [split; [intros _ j Hj; lia | reflexivity] |].
  rewrite polled_S. split.
  - intros H j Hj. destruct (polled env n) eqn:E; [discriminate |].
    destruct (Nat.eq_dec j n) as [-> | Hne]; [exact H |].
    apply IH; [reflexivity | lia].
  - intros H. rewrite (proj2 IH) by (intros j Hj; apply H; lia).
    apply H. lia.
Qed.

(** The clock reading of iteration [i] is past the deadline, no interrupt
    sent yet: the interrupt is sent and the loop goes on. *)
Lemma poll_loop_interrupts fuel env a t stop files se i l :
  (now env (S i) > stop)%Z ->
  killpg_errno env SIGINT = None ->
  poll_loop (S fuel) env a t stop false (waiting files se i l)
  = poll_loop fuel env a t stop true
      (in_loop files (waitpid env i) se (S i)
         (l ++ [EvPoll; EvKillpg SIGINT])).
Proof.
  intros Hnow Hint. cbn [poll_loop]. unfold waiting, in_loop.
  loop_step. rewrite (gtb_true _ _ Hnow), Hint. cbn [negb].
  rewrite <- !app_assoc. reflexivity.
Qed.

(** The clock reading of iteration [k] is past the deadline, the interrupt
    sent: the kill is sent and the report returned, whatever the poll of
    this iteration has found. *)
Lemma poll_loop_kills fuel env a t stop files rc se k l :
  (now env (S k) > stop)%Z ->
  killpg_errno env SIGKILL = None \/ killpg_errno env SIGKILL = Some 3%Z ->
  let rc' := match rc with Some c => Some c | None => waitpid env k end in
  poll_loop (S fuel) env a t stop true (in_loop files rc se k l)
  = (Ok (Some (timeout_result (truthy (catch_stderr a))
                 (truthy (with_retcode a)) t rc')),
     {| fs := files;
        process := Some {| returncode := rc'; stdout := Open; stderr := se |};
        polls := S k; clock_reads := S (S k);
        log := l ++ [EvPoll; EvKillpg SIGKILL] |}).
Proof.
  intros Hnow Hkill rc'. cbn [poll_loop]. unfold in_loop, timeout_result.
  loop_step. rewrite (gtb_true _ _ Hnow). cbn [negb].
  fold rc'. rewrite <- !app_assoc. cbn [app].
  destruct Hkill as [-> | ->]; cbn [Z.eqb Pos.eqb negb];
    destruct (truthy (catch_stderr a)), (truthy (with_retcode a));
    loop_step; reflexivity.
Qed.

(** The loop on the timeout branch, from its first iteration. *)
Lemma poll_loop_timeout_branch fuel env a t files se i k l :
  timeout_branch env t i k ->
  killpg_errno env SIGINT = None ->
  killpg_errno env SIGKILL = None \/ killpg_errno env SIGKILL = Some 3%Z ->
  k + 1 <= fuel ->
  poll_loop fuel env a t (deadline env t) false (waiting files se 0 l)
  = (Ok (Some (timeout_result (truthy (catch_stderr a))
                 (truthy (with_retcode a)) t (polled env (S k)))),
     {| fs := files;
        process := Some {| returncode := polled env (S k); stdout := Open;
                           stderr := se |};
        polls := S k; clock_reads := S (S k);
        log := l ++ timeout_calls i k |}).
Proof.
  intros (Hik & Hi & Hk & Hother) Hint Hkill Hfuel.
  assert (Hbefore : forall j, j < i ->
            (now env (S j) <= deadline env t)%Z /\ waitpid env j = None).
  { intros j Hj. destruct (Hother j) as [Hn Hp]; [lia | lia |].
    split; [exact Hn |]. apply (proj1 (polled_None env (S j)) Hp). lia. }
  assert (Hpi : polled env i = None)
    by (apply polled_None; intros j Hj; apply Hbefore; exact Hj).
  replace fuel with (i + S (fuel - i - 1)) by lia.
  rewrite poll_loop_skip by (intros j Hj; apply Hbefore; lia).
  cbn [Nat.add].
  rewrite (poll_loop_interrupts _ _ _ _ _ _ _ _ _ Hi Hint).
  unfold timeout_calls.
  destruct (Nat.eq_dec k (S i)) as [-> | Hne].
  - (* the kill follows in the next iteration *)
    replace (fuel - i - 1) with (S (fuel - i - 2)) by lia.
    rewrite (poll_loop_kills _ _ _ _ _ _ _ _ _ _ Hk Hkill).
    rewrite !polled_S, Hpi.
    replace (S i - i) with 1 by lia. cbn [repeat].
    rewrite <- !app_assoc. cbn [app].
    rewrite (repeat_shift EvPoll i). reflexivity.
  - (* the clock has stepped back: more iterations before the kill *)
    assert (Hwi : waitpid env i = None).
    { destruct (Hother (S i)) as [_ Hp]; [lia | lia |].
      apply (proj1 (polled_None env (S (S i))) Hp). lia. }
    assert (Hbetween : forall j, S i <= j < S i + (k - S i) ->
              (now env (S j) <= deadline env t)%Z /\ waitpid env j = None).
    { intros j Hj. destruct (Hother j) as [Hn Hp]; [lia | lia |].
      split; [exact Hn |]. apply (proj1 (polled_None env (S j)) Hp). lia. }
    assert (Hpk : polled env k = None).
    { apply polled_None. intros j Hj.
      destruct (Nat.lt_ge_cases j i) as [Hlt | Hge];
        [apply Hbefore; exact Hlt |].
      destruct (Nat.eq_dec j i) as [-> | Hji]; [exact Hwi |].
      apply Hbetween. lia. }
    rewrite Hwi.
    change (in_loop files None se (S i) ?x) with (waiting files se (S i) x).
    replace (fuel - i - 1) with ((k - S i) + S (fuel - k - 1)) by lia.
    rewrite poll_loop_skip by exact Hbetween.
    replace (S i + (k - S i)) with k by lia.
    change (waiting files se k ?x) with (in_loop files None se k x).
    rewrite (poll_loop_kills _ _ _ _ _ _ _ _ _ _ Hk Hkill).
    rewrite polled_S, Hpk.
    replace (k - i) with (S (k - S i)) by lia. cbn [repeat].
    rewrite <- !app_assoc. cbn [app].
    rewrite (repeat_shift EvPoll i), (repeat_shift EvPoll (k - S i)).
    reflexivity.
Qed.

(** [run_script] up to the loop, whatever the flags are. *)
Lemma run_script_enters_loop_by_truth fuel env a t files :
  script_located env (script a) files = true ->
  popen_errno env = None ->
  platform_is_win env = false ->
  timeout a = Some t ->
  exists files' pre cmd,
    forallb is_fs_event pre = true
    /\ run_script fuel env a (initial_state files)
       = bind (poll_loop fuel env a t (deadline env t) false)
           (after_loop env a)
           (waiting files' (if is_True (catch_stderr a) then Open else NoPipe)
              0 (pre ++ [EvSpawn cmd (is_True (catch_stderr a)) true])).
Proof.
  intros Hloc Hspawn Hwin Ht.
  destruct (run_script_start env a files Hloc)
    as (path & fs1 & pre & Hpre & Hpath & Hreg).
  exists fs1, pre, (build_cmd env path (arg_str a)).
  split; [exact Hpre |].
  unfold run_script. unfold bind at 1. rewrite Hpath.
  unfold bind at 1. unfold os_path_isfile at 1.
  cbv [bind ret get fs]. rewrite Hreg. cbn [negb]. rewrite Hwin. cbn [negb].
  unfold subprocess_Popen. rewrite Hspawn, Ht.
  cbv [bind ret get modify emit set_process datetime_now
       fs process polls clock_reads log].
  unfold deadline, waiting, after_loop.
  destruct (is_True (catch_stderr a)); reflexivity.
Qed.

(** Value and final state of a call that goes through the timeout branch. *)
Lemma run_script_timeout_branch fuel env a t i k files :
  script_located env (script a) files = true ->
  popen_errno env = None ->
  platform_is_win env = false ->
  timeout a = Some t ->
  timeout_branch env t i k ->
  killpg_errno env SIGINT = None ->
  killpg_errno env SIGKILL = None \/ killpg_errno env SIGKILL = Some 3%Z ->
  k + 1 <= fuel ->
  exists files' pre cmd,
    forallb is_fs_event pre = true
    /\ run_script fuel env a (initial_state files)
       = (Ok (timeout_result (truthy (catch_stderr a))
                (truthy (with_retcode a)) t (polled env (S k))),
          {| fs := files';
             process :=
               Some {| returncode := polled env (S k); stdout := Open;
                       stderr := if is_True (catch_stderr a) then Open
                                 else NoPipe |};
             polls := S k; clock_reads := S (S k);
             log := (pre ++ [EvSpawn cmd (is_True (catch_stderr a)) true])
                      ++ timeout_calls i k |}).
Proof.
  intros Hloc Hspawn Hwin Ht Hbranch Hint Hkill Hfuel.
  destruct (run_script_enters_loop_by_truth fuel env a t files
              Hloc Hspawn Hwin Ht) as (files' & pre & cmd & Hpre & ->).
  exists files', pre, cmd. split; [exact Hpre |].
  unfold bind.
  rewrite (poll_loop_timeout_branch _ _ _ _ _ _ _ _ _ Hbranch Hint Hkill Hfuel).
  reflexivity.
Qed.

(** ** The report of a timeout *)

Ltac sample_timeout_branch :=
  unfold timeout_branch; split; [lia | split; [| split]];
  [ vm_compute; reflexivity
  | vm_compute; reflexivity
  | intros j Hj Hne;
    do 4 (destruct j as [|j];
          [first [lia | split; [vm_compute; discriminate | reflexivity]] |]);
    lia ].

(** C2, where the code departs from it. When a call goes through the
    timeout branch, it returns; the first output line contains
    [Process took more than {timeout} seconds to complete. Process Killed!];
    with [catch_stderr] the error output is the one sentinel line; and the
    tuple has the arity [catch_stderr] and [with_retcode] ask for. But
    [raw] is not looked at: output and error are lists of lines, also with
    [raw], where the flags ask for blobs. *)
Theorem timeout_report_ignores_raw fuel env a t i k files :
  script_located env (script a) files = true ->
  popen_errno env = None ->
  platform_is_win env = false ->
  timeout a = Some t ->
  timeout_branch env t i k ->
  killpg_errno env SIGINT = None ->
  killpg_errno env SIGKILL = None \/ killpg_errno env SIGKILL = Some 3%Z ->
  k + 1 <= fuel ->
  exists v st',
    run_script fuel env a (initial_state files) = (Ok v, st')
    /\ (exists line more,
          out_of v = Some (Lines (line :: more))
          /\ contains ("Process took more than " ++ format_int t
                         ++ " seconds to complete. Process Killed!") line)
    /\ (truthy (catch_stderr a) = true ->
        err_of v
        = Some (Lines ["Process killed, unable to catch stderr output"]))
    /\ shape_of v
       = requested_shape (truthy (catch_stderr a)) (truthy (with_retcode a))
           false
    /\ (truthy (raw a) = true ->
        shape_of v
        <> requested_shape (truthy (catch_stderr a)) (truthy (with_retcode a))
             (truthy (raw a))).
Proof.
  intros Hloc Hspawn Hwin Ht Hbranch Hint Hkill Hfuel.
  destruct (run_script_timeout_branch fuel env a t i k files
              Hloc Hspawn Hwin Ht Hbranch Hint Hkill Hfuel)
    as (files' & pre & cmd & _ & Hrun).
  do 2 eexists. split; [exact Hrun |].
  split; [| split; [| split]].
  - exists (timeout_message t), []. split.
    + destruct (truthy (catch_stderr a)), (truthy (with_retcode a));
        reflexivity.
    + apply contains_refl.
  - intros ->. destruct (truthy (with_retcode a)); reflexivity.
  - destruct (truthy (catch_stderr a)), (truthy (with_retcode a));
      reflexivity.
  - intros ->.
    destruct (truthy (catch_stderr a)), (truthy (with_retcode a));
      discriminate.
Qed.

Lemma timeout_report_ignores_raw_witness :
  exists v st',
    run_script 3 linux_slow_child
      (call "salt-cloud" "-p profile vm" true true (Some 1%Z) true)
      (initial_state (script_present linux_slow_child "salt-cloud"))
    = (Ok v, st')
    /\ (exists line more,
          out_of v = Some (Lines (line :: more))
          /\ contains ("Process took more than " ++ format_int 1
                         ++ " seconds to complete. Process Killed!") line)
    /\ err_of v
       = Some (Lines ["Process killed, unable to catch stderr output"])
    /\ shape_of v = requested_shape true true false
    /\ shape_of v <> requested_shape true true true.
Proof.
  destruct (timeout_report_ignores_raw 3 linux_slow_child
              (call "salt-cloud" "-p profile vm" true true (Some 1%Z) true)
              1%Z 1 2 (script_present linux_slow_child "salt-cloud")
              eq_refl eq_refl eq_refl eq_refl
              ltac:(sample_timeout_branch) eq_refl (or_introl eq_refl)
              ltac:(lia))
    as (v & st' & Hrun & Hout & Herr & Hshape & Hraw).
  exists v, st'.
  split; [exact Hrun |]. split; [exact Hout |].
  split; [apply Herr; reflexivity |].
  split; [exact Hshape | apply Hraw; reflexivity].
Defined.

(** ** The exit code after a timeout *)

(** C10, as the code has it. On the timeout branch with [with_retcode],
    the exit code returned is the last polled status: what the child's
    [Popen] object holds after the poll that precedes the kill. No poll or
    wait follows the kill, so the status the kill leaves is never returned;
    the caller gets [None] exactly when that poll, like those before it,
    found the child still running, and the status found otherwise. *)
Theorem timeout_exit_code_is_last_polled fuel env a t i k files :
  script_located env (script a) files = true ->
  popen_errno env = None ->
  platform_is_win env = false ->
  timeout a = Some t ->
  truthy (with_retcode a) = true ->
  timeout_branch env t i k ->
  killpg_errno env SIGINT = None ->
  killpg_errno env SIGKILL = None \/ killpg_errno env SIGKILL = Some 3%Z ->
  k + 1 <= fuel ->
  exists v st',
    run_script fuel env a (initial_state files) = (Ok v, st')
    /\ code_of v = Some (polled env (S k))
    /\ polls st' = S k
    /\ (exists l, log st' = (l ++ [EvPoll; EvKillpg SIGKILL])%list)
    /\ (code_of v = Some None <-> forall j, j <= k -> waitpid env j = None).
Proof.
  intros Hloc Hspawn Hwin Ht Hcode Hbranch Hint Hkill Hfuel.
  destruct (run_script_timeout_branch fuel env a t i k files
              Hloc Hspawn Hwin Ht Hbranch Hint Hkill Hfuel)
    as (files' & pre & cmd & _ & Hrun).
  do 2 eexists. split; [exact Hrun |].
  assert (Hc : code_of (timeout_result (truthy (catch_stderr a))
                          (truthy (with_retcode a)) t (polled env (S k)))
               = Some (polled env (S k)))
    by (rewrite Hcode; destruct (truthy (catch_stderr a)); reflexivity).
  split; [exact Hc |]. split; [reflexivity |]. split.
  - cbn [log]. unfold timeout_calls.
    destruct Hbranch as (Hik & _).
    replace (k - i) with (S (k - S i)) by lia.
    change (repeat EvPoll (S (k - S i)))
      with (EvPoll :: repeat EvPoll (k - S i)).
    rewrite (repeat_cons (k - S i) EvPoll).
    exists ((pre ++ [EvSpawn cmd (is_True (catch_stderr a)) true])
            ++ repeat EvPoll (S i)
            ++ EvKillpg SIGINT :: repeat EvPoll (k - S i))%list.
    rewrite <- ?app_assoc. cbn [app]. rewrite <- ?app_assoc. reflexivity.
  - rewrite Hc. split.
    + intros H. assert (Hp : polled env (S k) = None) by congruence.
      intros j Hj. apply (proj1 (polled_None env (S k)) Hp). lia.
    + intros H. f_equal. apply polled_None. intros j Hj. apply H. lia.
Qed.

Lemma timeout_exit_code_is_last_polled_witness :
  (exists v st',
     run_script 3 linux_slow_child
       (call "salt-cloud" "-p profile vm" false true (Some 1%Z) false)
       (initial_state (script_present linux_slow_child "salt-cloud"))
     = (Ok v, st')
     /\ code_of v = Some (polled linux_slow_child 3)
     /\ polls st' = 3
     /\ (exists l, log st' = (l ++ [EvPoll; EvKillpg SIGKILL])%list)
     /\ (code_of v = Some None
         <-> forall j, j <= 2 -> waitpid linux_slow_child j = None))
  /\ (exists v st',
        run_script 4 linux_clock_steps_back
          (call "salt-cloud" "-p profile vm" true true (Some 1%Z) false)
          (initial_state (script_present linux_clock_steps_back "salt-cloud"))
        = (Ok v, st')
        /\ code_of v = Some (polled linux_clock_steps_back 4)
        /\ polls st' = 4
        /\ (exists l, log st' = (l ++ [EvPoll; EvKillpg SIGKILL])%list)
        /\ (code_of v = Some None
            <-> forall j, j <= 3 -> waitpid linux_clock_steps_back j = None)).
Proof.
  split.
  - apply (timeout_exit_code_is_last_polled 3 linux_slow_child
             (call "salt-cloud" "-p profile vm" false true (Some 1%Z) false)
             1%Z 1 2 (script_present linux_slow_child "salt-cloud"));
      [ reflexivity | reflexivity | reflexivity | reflexivity | reflexivity
      | sample_timeout_branch | reflexivity | left; reflexivity | lia ].
  - apply (timeout_exit_code_is_last_polled 4 linux_clock_steps_back
             (call "salt-cloud" "-p profile vm" true true (Some 1%Z) false)
             1%Z 1 3 (script_present linux_clock_steps_back "salt-cloud"));
      [ reflexivity | reflexivity | reflexivity | reflexivity | reflexivity
      | sample_timeout_branch | reflexivity | left; reflexivity | lia ].
Defined.

(** C10 as stated fails for a child that the interrupt ends. It had not
    exited when the deadline passed, it did not exit of its own accord, and
    the kill is sent; but the poll between the interrupt and the kill has
    found the status the interrupt left, and that status is returned, not
    [None]. *)
Lemma timeout_exit_code_after_interrupt :
  (forall j, j < 2 -> waitpid linux_child_heeds_interrupt j = None)
  /\ waitpid linux_child_heeds_interrupt 2 = Some (-2)%Z
  /\ fst (run_script 3 linux_child_heeds_interrupt
            (call "salt-cloud" "-p profile vm" false true (Some 1%Z) false)
            (initial_state
               (script_present linux_child_heeds_interrupt "salt-cloud")))
     = Ok (ROutCode
             (Lines
                ["Process took more than 1 seconds to complete. Process Killed!"])
             (Some (-2)%Z))
  /\ In (EvKillpg SIGKILL)
       (log (snd (run_script 3 linux_child_heeds_interrupt
                    (call "salt-cloud" "-p profile vm" false true (Some 1%Z)
                       false)
                    (initial_state
                       (script_present linux_child_heeds_interrupt
                          "salt-cloud")))))
  /\ code_of (ROutCode
                (Lines
                   ["Process took more than 1 seconds to complete. Process Killed!"])
                (Some (-2)%Z))
     <> Some None.
Proof.
  split; [| split; [| split; [| split]]].
  - intros j Hj. destruct j as [|[|j]]; [reflexivity | reflexivity | lia].
  - reflexivity.
  - reflexivity.
  - vm_compute. tauto.
  - discriminate.
Qed.

End ShellGeneral.

(** * Further properties of the marker pattern *)

Module MarkerExtras.

Import Marker ModuleCase RProps RXProps StringFacts MarkerProofs.

Lemma strip_prefix_sound p : forall s s',
  strip_prefix p s = Some s' -> s = p ++ s'.
Proof.
  induction p as [|a p IH]; intros s s' H; cbn [strip_prefix] in H.
  - now inversion H.
  - destruct s as [|b s]; [discriminate |].
    destruct (Ascii.eqb_spec a b) as [<- |]; [| discriminate].
    cbn [append]. f_equal. now apply IH.
Qed.

Lemma greedy_sound ok k : forall s allow_empty cap g,
  greedy ok k allow_empty s = Some (cap, g) ->
  string_forall ok cap = true
  /\ (allow_empty = false -> cap <> EmptyString)
  /\ exists s', s = cap ++ s' /\ k s' = Some g.
Proof.
  induction s as [|c s IH]; intros allow_empty cap g H; cbn [greedy] in H.
  - destruct allow_empty; [| discriminate].
    destruct (k EmptyString) as [g'|] eqn:Ek; [| discriminate].
    inversion H; subst. repeat split; [discriminate |].
    exists EmptyString. auto.
  - destruct (ok c) eqn:Hc.
    + destruct (greedy ok k true s) as [[cap' g']|] eqn:Eg.
      * inversion H; subst. apply IH in Eg as (Hall & _ & s' & -> & Hk).
        cbn [string_forall]. rewrite Hc, Hall. repeat split; [discriminate |].
        exists s'. auto.
      * destruct allow_empty; [| discriminate].
        destruct (k (String c s)) as [g'|] eqn:Ek; [| discriminate].
        inversion H; subst. repeat split; [discriminate |].
        exists (String c s). auto.
    + destruct allow_empty; [| discriminate].
      destruct (k (String c s)) as [g'|] eqn:Ek; [| discriminate].
      inversion H; subst. repeat split; [discriminate |].
      exists (String c s). auto.
Qed.

Lemma group_skip name cap g :
  String.eqb name "jid" = false ->
  group "jid" ((name, cap) :: g) = group "jid" g.
Proof. intros H. cbn [group]. now rewrite H. Qed.

(** Matching a pattern is matching its first atoms, none of which is the
    [jid] group, and then the rest on what is left of the text. *)
Lemma match_atoms_split pre post : forall s g,
  forallb (fun a => negb (atom_is_jid a)) pre = true ->
  match_atoms (pre ++ post) s = Some g ->
  exists taken s' g',
    s = taken ++ s' /\ match_atoms post s' = Some g'
    /\ group "jid" g = group "jid" g'.
Proof.
  induction pre as [|a pre IH]; intros s g Hpre H.
  - exists EmptyString, s, g. auto.
  - cbn [forallb] in Hpre. apply andb_true_iff in Hpre as [Ha Hpre].
    cbn [app match_atoms] in H. destruct a as [l | | name | name].
    + destruct (strip_prefix l s) as [s1|] eqn:E; [| discriminate].
      apply strip_prefix_sound in E. subst s.
      apply IH in H as (taken & s' & g' & -> & Hm & Hg); [| exact Hpre].
      exists (l ++ taken), s', g'. rewrite append_assoc. auto.
    + destruct s as [|c s1]; [discriminate |].
      destruct (is_quote c); [| discriminate].
      apply IH in H as (taken & s' & g' & -> & Hm & Hg); [| exact Hpre].
      exists (String c taken), s', g'. auto.
    + destruct (greedy _ _ true s) as [[cap g1]|] eqn:E; [| discriminate].
      inversion H; subst.
      apply greedy_sound in E as (_ & _ & s1 & -> & Hk).
      apply IH in Hk as (taken & s' & g' & -> & Hm & Hg); [| exact Hpre].
      exists (cap ++ taken), s', g'. rewrite append_assoc.
      repeat split; [exact Hm |].
      rewrite group_skip; [exact Hg |].
      cbn in Ha. now apply negb_true_iff in Ha.
    + destruct (greedy _ _ false s) as [[cap g1]|] eqn:E; [| discriminate].
      inversion H; subst.
      apply greedy_sound in E as (_ & _ & s1 & -> & Hk).
      apply IH in Hk as (taken & s' & g' & -> & Hm & Hg); [| exact Hpre].
      exists (cap ++ taken), s', g'. rewrite append_assoc.
      repeat split; [exact Hm |].
      rewrite group_skip; [exact Hg |].
      cbn in Ha. now apply negb_true_iff in Ha.
Qed.

Lemma prefix_append p s : String.prefix p (p ++ s) = true.
Proof.
  induction p as [|a p IH]; cbn [String.prefix append];
    [destruct s; reflexivity |].
  destruct (ascii_dec a a); [exact IH | congruence].
Qed.

(** X18. What the pattern finds as job id is a number: one digit at
    least and digits only; and a line it matches starts with
    [The function ]. *)
Theorem marker_jid_is_a_number line jid :
  marker_jid line = Some jid ->
  number jid = true /\ String.prefix "The function " line = true.
Proof.
  unfold marker_jid.
  destruct (match_atoms STATE_FUNCTION_RUNNING_RE line) as [g|] eqn:E;
    [| discriminate].
  intros H. inversion H; subst. split.
  - change STATE_FUNCTION_RUNNING_RE
      with ([ Lit "The function "; Quote; AnyStar "state_func"; Quote;
              Lit " is running as PID "; Digits "pid";
              Lit " and was started at "; AnyStar "date";
              Lit " with jid " ] ++ [Digits "jid"])%list in E.
    apply match_atoms_split in E as (taken & s' & g' & _ & Hm & ->);
      [| reflexivity].
    cbn [match_atoms] in Hm.
    destruct (greedy is_digit _ false s') as [[cap g1]|] eqn:Eg;
      [| discriminate].
    inversion Hm; subst. cbn [group]. rewrite String.eqb_refl.
    apply greedy_sound in Eg as (Hall & Hne & _).
    unfold number. destruct cap; [now specialize (Hne eq_refl) | exact Hall].
  - unfold STATE_FUNCTION_RUNNING_RE in E. cbn [match_atoms] in E.
    destruct (strip_prefix "The function " line) as [s1|] eqn:Es;
      [| discriminate].
    apply strip_prefix_sound in Es. subst line. apply prefix_append.
Qed.

Lemma marker_jid_is_a_number_witness :
  number "456" = true /\ String.prefix "The function " spec_marker = true.
Proof.
  apply (marker_jid_is_a_number spec_marker "456"). reflexivity.
Defined.

Lemma nondigits_app a b : nondigits (a ++ b) = nondigits a + nondigits b.
Proof.
  induction a as [|c a IH]; cbn [append nondigits]; [reflexivity |].
  rewrite IH. lia.
Qed.

Lemma nondigits_number s : string_forall is_digit s = true -> nondigits s = 0.
Proof.
  induction s as [|c s IH]; cbn [string_forall nondigits]; [reflexivity |].
  intros H. apply andb_true_iff in H as [Hc Hs]. rewrite Hc, (IH Hs).
  reflexivity.
Qed.

(** The text [ with jid ] followed by digits holds that literal nowhere
    but at its start. *)
Lemma no_inner_marker jid v x y :
  string_forall is_digit jid = true ->
  " with jid " ++ jid = v ++ x ++ " with jid " ++ y ->
  v = EmptyString.
Proof.
  intros Hjid E.
  assert (Hn : nondigits v = 0).
  { apply (f_equal nondigits) in E.
    rewrite !nondigits_app, (nondigits_number _ Hjid) in E.
    change (nondigits " with jid ") with 10 in E. lia. }
  destruct v as [|c v]; [reflexivity |].
  cbn [append] in E. inversion E; subst c. cbn in Hn. discriminate.
Qed.

Lemma append_eq_append a : forall b c d,
  a ++ b = c ++ d ->
  (exists e, c = a ++ e /\ b = e ++ d)
  \/ (exists e, e <> EmptyString /\ a = c ++ e /\ d = e ++ b).
Proof.
  induction a as [|x a IH]; intros b c d H.
  - left. exists c. cbn [append] in *. auto.
  - destruct c as [|y c].
    + right. exists (String x a). cbn [append] in *.
      repeat split; [discriminate | now symmetry].
    + cbn [append] in H. inversion H; subst y.
      destruct (IH _ _ _ H2) as [(e & -> & ->) | (e & Hne & -> & ->)].
      * left. exists e. auto.
      * right. exists e. auto.
Qed.

Lemma greedy_none ok k : forall s allow_empty,
  (forall s1 s2, s = s1 ++ s2 -> k s2 = None) ->
  greedy ok k allow_empty s = None.
Proof.
  induction s as [|c s IH]; intros allow_empty H; cbn [greedy].
  - rewrite (H EmptyString EmptyString eq_refl). now destruct allow_empty.
  - rewrite (H EmptyString (String c s) eq_refl).
    rewrite IH by (intros s1 s2 ->; apply (H (String c s1) s2); reflexivity).
    destruct (ok c), allow_empty; reflexivity.
Qed.

(** A greedy repetition takes [cap] when the rest of the pattern matches
    after it and after nothing longer. *)
Lemma greedy_longest ok k cap : forall allow_empty s g,
  string_forall ok cap = true ->
  (allow_empty = true \/ cap <> EmptyString) ->
  k s = Some g ->
  (forall s1 s2, s = s1 ++ s2 -> s1 <> EmptyString -> k s2 = None) ->
  greedy ok k allow_empty (cap ++ s) = Some (cap, g).
Proof.
  induction cap as [|c cap IH]; intros allow_empty s g Hok Hne Hk Hlong.
  - destruct Hne as [-> | Hne]; [| congruence].
    cbn [append]. destruct s as [|c s]; cbn [greedy]; rewrite Hk;
      [reflexivity |].
    rewrite greedy_none
      by (intros s1 s2 ->; apply (Hlong (String c s1) s2);
          [reflexivity | discriminate]).
    now destruct (ok c).
  - cbn [string_forall] in Hok. apply andb_true_iff in Hok as [Hc Hcap].
    cbn [append greedy]. rewrite Hc.
    now rewrite (IH true s g Hcap (or_introl eq_refl) Hk Hlong).
Qed.

Lemma match_jid_tail jid :
  number jid = true ->
  match_atoms [Lit " with jid "; Digits "jid"] (" with jid " ++ jid)
  = Some [("jid", jid)].
Proof.
  intros Hjid. rewrite match_lit. cbn [match_atoms].
  assert (Hd : string_forall is_digit jid = true /\ jid <> EmptyString)
    by (destruct jid; [discriminate | split; [exact Hjid | discriminate]]).
  destruct Hd as [Hd Hne].
  rewrite <- (append_empty_r jid) at 1.
  rewrite (greedy_longest is_digit (fun _ => Some []) jid false EmptyString []
             Hd (or_intror Hne) eq_refl); [reflexivity |].
  intros s1 s2 E Hs1. destruct s1; [congruence | discriminate].
Qed.

Lemma match_date_tail u jid :
  one_line u = true -> number jid = true ->
  match_atoms [AnyStar "date"; Lit " with jid "; Digits "jid"]
    (u ++ " with jid " ++ jid)
  = Some [("date", u); ("jid", jid)].
Proof.
  intros Hu Hjid.
  assert (Hd : string_forall is_digit jid = true)
    by (destruct jid; [discriminate | exact Hjid]).
  change (match_atoms [AnyStar "date"; Lit " with jid "; Digits "jid"]
            (u ++ " with jid " ++ jid))
    with (match greedy not_LF
                  (match_atoms [Lit " with jid "; Digits "jid"]) true
                  (u ++ " with jid " ++ jid) with
          | Some (cap, g) => Some (("date", cap) :: g)
          | None => None
          end).
  rewrite (greedy_longest not_LF _ u true _ _ Hu (or_introl eq_refl)
             (match_jid_tail jid Hjid)); [reflexivity |].
  intros s1 s2 E Hs1.
  destruct (match_atoms [Lit " with jid "; Digits "jid"] s2) as [g|] eqn:Em;
    [| reflexivity].
  exfalso. apply Hs1. cbn [match_atoms] in Em.
  destruct (strip_prefix " with jid " s2) as [s2'|] eqn:Es; [| discriminate].
  apply strip_prefix_sound in Es. subst s2.
  apply (no_inner_marker jid s1 EmptyString s2' Hd). exact E.
Qed.

Lemma string_forall_app p a b :
  string_forall p (a ++ b) = string_forall p a && string_forall p b.
Proof.
  induction a as [|c a IH]; cbn [append string_forall]; [reflexivity |].
  now rewrite IH, andb_assoc.
Qed.

Lemma digit_not_LF c : is_digit c = true -> not_LF c = true.
Proof.
  unfold not_LF. destruct (Ascii.eqb_spec c LF) as [-> |]; [| reflexivity].
  discriminate.
Qed.

Lemma quote_not_LF c : is_quote c = true -> not_LF c = true.
Proof.
  unfold not_LF. destruct (Ascii.eqb_spec c LF) as [-> |]; [| reflexivity].
  discriminate.
Qed.

Lemma number_one_line s : number s = true -> one_line s = true.
Proof.
  intros H. assert (Hd : string_forall is_digit s = true)
    by (destruct s; [discriminate | exact H]).
  clear H. unfold one_line. induction s as [|c s IH]; [reflexivity |].
  cbn [string_forall] in *. apply andb_true_iff in Hd as [Hc Hs].
  now rewrite (digit_not_LF c Hc), (IH Hs).
Qed.

(** X19. A marker line is read back: for a function name and a date
    without line feed, a numeric pid and a numeric job id, the job id the
    pattern finds in the line written with them is that job id, whatever
    else in the name or the date looks like part of a marker line. *)
Theorem marker_jid_of_marker_line q1 q2 name pid date jid :
  is_quote q1 = true -> is_quote q2 = true ->
  one_line name = true -> number pid = true ->
  one_line date = true -> number jid = true ->
  marker_jid (marker_line q1 q2 name pid date jid) = Some jid.
Proof.
  intros Hq1 Hq2 Hname Hpid Hdate Hjid.
  pose proof (marker_line_matches q1 q2 name pid date jid
                Hq1 Hq2 Hname Hpid Hdate Hjid) as Hsome.
  unfold marker_jid in *.
  destruct (match_atoms STATE_FUNCTION_RUNNING_RE
              (marker_line q1 q2 name pid date jid)) as [g|] eqn:E;
    [| congruence].
  clear Hsome. f_equal.
  set (head := "The function " ++ String q1 (name ++ String q2
                 (" is running as PID " ++ pid ++ " and was started at "
                    ++ date))).
  assert (Hline : marker_line q1 q2 name pid date jid
                  = head ++ " with jid " ++ jid).
  { unfold marker_line, head.
    repeat first [rewrite !append_assoc | progress cbn [append]]. reflexivity. }
  assert (Hhead : one_line head = true).
  { pose proof (number_one_line _ Hpid) as Hp.
    unfold head, one_line in *.
    repeat first [ rewrite string_forall_app
                 | progress cbn [append string_forall] ].
    rewrite (quote_not_LF _ Hq1), (quote_not_LF _ Hq2), Hname, Hdate, Hp.
    reflexivity. }
  rewrite Hline in E.
  change STATE_FUNCTION_RUNNING_RE
    with ([ Lit "The function "; Quote; AnyStar "state_func"; Quote;
            Lit " is running as PID "; Digits "pid";
            Lit " and was started at " ]
          ++ [AnyStar "date"; Lit " with jid "; Digits "jid"])%list in E.
  apply match_atoms_split in E as (taken & s' & g' & Hs & Hm & ->);
    [| reflexivity].
  symmetry in Hs.
  destruct (append_eq_append _ _ _ _ Hs)
    as [(e & He & ->) | (e & Hne & He & Htail)].
  - assert (Hone : one_line e = true).
    { rewrite He in Hhead. unfold one_line in *.
      rewrite string_forall_app in Hhead.
      now apply andb_true_iff in Hhead as [_ H]. }
    rewrite (match_date_tail e jid Hone Hjid) in Hm.
    inversion Hm; subst. reflexivity.
  - exfalso. apply Hne.
    cbn [match_atoms] in Hm.
    destruct (greedy _ _ true s') as [[cap g1]|] eqn:Eg; [| discriminate].
    apply greedy_sound in Eg as (_ & _ & s1 & -> & Hk).
    destruct (strip_prefix " with jid " s1) as [s2|] eqn:Es; [| discriminate].
    apply strip_prefix_sound in Es. subst s1.
    apply (no_inner_marker jid e cap s2); [| exact Htail].
    destruct jid; [discriminate | exact Hjid].
Qed.

Lemma marker_jid_of_marker_line_witness :
  marker_jid
    (marker_line DQUOTE SQUOTE "state.sls' is running as PID 1" "123"
       "2020-01-01 with jid 77 or so" "456")
  = Some "456".
Proof.
  apply (marker_jid_of_marker_line DQUOTE SQUOTE
           "state.sls' is running as PID 1" "123"
           "2020-01-01 with jid 77 or so" "456"); reflexivity.
Defined.

Lemma diagnostic_unmatched c job_data job_kill :
  marker_jid (diagnostic c job_data job_kill) = None.
Proof. reflexivity. Qed.

Lemma marker_jids_app a b :
  marker_jids (a ++ b) = (marker_jids a ++ marker_jids b)%list.
Proof.
  induction a as [|item a IH]; [reflexivity |].
  cbn [app marker_jids]. destruct item; try exact IH.
  destruct (marker_jid s); [cbn [app]; now rewrite IH | exact IH].
Qed.

Lemma marker_jids_diagnostics c jids : forall k,
  marker_jids (diagnostics_for c k jids) = [].
Proof.
  induction jids as [|jid more IH]; intros k; [reflexivity |].
  cbn [diagnostics_for marker_jids]. rewrite diagnostic_unmatched.
  apply IH.
Qed.

Lemma unique_jids_reconciled c k l jids :
  unique_jids (l ++ diagnostics_for c k jids) = unique_jids l.
Proof.
  unfold unique_jids.
  now rewrite marker_jids_app, marker_jids_diagnostics, app_nil_r.
Qed.

(** X20. The line the reconciler appends is no marker line, whatever the
    two results it shows, so the lines a pass appends add no job id: the
    job ids of a reconciled list are those of the list it was made from. *)
Theorem diagnostic_is_no_marker c :
  (forall job_data job_kill,
     marker_jid (diagnostic c job_data job_kill) = None)
  /\ (forall k l jids,
        marker_jids (l ++ diagnostics_for c k jids) = marker_jids l
        /\ unique_jids (l ++ diagnostics_for c k jids) = unique_jids l).
Proof.
  split; [intros; apply diagnostic_unmatched |].
  intros k l jids. split; [| apply unique_jids_reconciled].
  now rewrite marker_jids_app, marker_jids_diagnostics, app_nil_r.
Qed.

End MarkerExtras.

(** * Further properties of the reconciler and its callers *)

Module ReconcilerExtras.

Import Marker ModuleCase RProps RXProps ModuleCallers.
Import StringFacts MarkerProofs ReconcilerProofs MarkerExtras.

Ltac sample_jobs_answered :=
  intros ?k ?fn ?jid Hjob; unfold is_job_query in Hjob;
  unfold minion_reply; cbn [cmd_reply stalled_client sample_client];
  destruct (String.eqb_spec fn "saltutil.find_job") as [-> | ?];
  [ eexists; split; reflexivity
  | destruct (String.eqb_spec fn "saltutil.kill_job") as [-> | ?];
    [ eexists; split; reflexivity | discriminate ] ].

Lemma run_job_answered fuel c depth fn jid st :
  jobs_answered c -> is_job_query fn = true ->
  run_job (S fuel) c depth fn [PStr jid] st
  = (Ok (or_None (minion_reply c (calls st) fn jid)),
     {| calls := S (calls st);
        log := log st ++ [EvCmd depth "minion" fn [PStr jid] 25] |}).
Proof.
  intros Hc Hfn. destruct st as [n l]. cbn [calls log].
  destruct (Hc n fn jid Hfn) as (v & Hv & Hs).
  unfold run_job, run_function_with. rstep.
  unfold minion_reply in *. rewrite Hv. cbn [or_None].
  destruct v; try discriminate;
    (rewrite check_settled by exact Hs); reflexivity.
Qed.

Lemma scan_answered fuel c depth items : forall jids ret_ st,
  jobs_answered c ->
  scan c (run_job (S fuel) c depth) items jids ret_ st
  = (Ok (ret_ ++ diagnostics_for c (calls st)
                   (first_occurrences jids (marker_jids items)))%list,
     {| calls := calls st
                 + 2 * List.length (first_occurrences jids (marker_jids items));
        log := (log st
                ++ queries_for depth
                     (first_occurrences jids (marker_jids items)))%list |}).
Proof.
  intros jids ret_ st Hc. revert jids ret_ st.
  induction items as [|item more IH]; intros jids ret_ st.
  - cbn. rewrite !app_nil_r, Nat.add_0_r. destruct st; reflexivity.
  - cbn [scan marker_jids].
    destruct item as [| b | z | line | l | d]; try apply IH.
    destruct (marker_jid line) as [jid|]; [| apply IH].
    cbn [first_occurrences].
    destruct (jid_in jid jids); [apply IH |].
    unfold bind.
    rewrite (run_job_answered fuel c depth "saltutil.find_job" jid _ Hc eq_refl).
    rewrite (run_job_answered fuel c depth "saltutil.kill_job" jid _ Hc eq_refl).
    rewrite IH. cbn [calls log diagnostics_for queries_for List.length].
    rewrite <- !app_assoc. cbn [app].
    f_equal. f_equal. lia.
Qed.

(** When the minion answers the job queries, a pass makes the query and
    the kill of each distinct job id and returns the list with the
    diagnostics appended. *)
Lemma check_answered fuel c depth l func st :
  jobs_answered c ->
  _check_state_return (S fuel) c depth (PList l) func st
  = (Ok (PList (l ++ diagnostics_for c (calls st) (unique_jids l))),
     {| calls := calls st + 2 * List.length (unique_jids l);
        log := log st ++ queries_for depth (unique_jids l) |}).
Proof.
  intros Hc. rewrite check_list_unfold. unfold bind.
  rewrite (scan_answered _ _ _ _ _ _ _ Hc). reflexivity.
Qed.

(** X21. The reconciler is not idempotent: a pass over what a pass has
    returned finds the marker lines still there, queries and kills every
    job again, and appends a second line for each. *)
Theorem second_pass_queries_again fuel c depth l func st k :
  jobs_answered c ->
  _check_state_return (S fuel) c depth
    (PList (l ++ diagnostics_for c k (unique_jids l))) func st
  = (Ok (PList (l ++ diagnostics_for c k (unique_jids l)
                  ++ diagnostics_for c (calls st) (unique_jids l))),
     {| calls := calls st + 2 * List.length (unique_jids l);
        log := log st ++ queries_for depth (unique_jids l) |}).
Proof.
  intros Hc. rewrite (check_answered _ _ _ _ _ _ Hc).
  rewrite unique_jids_reconciled, <- app_assoc. reflexivity.
Qed.

Lemma second_pass_queries_again_witness :
  _check_state_return 1 sample_client 0
    (PList ([PStr "a"; PStr spec_marker]
            ++ diagnostics_for sample_client 0
                 (unique_jids [PStr "a"; PStr spec_marker])))
    "state.single" {| calls := 2; log := [] |}
  = (Ok (PList ([PStr "a"; PStr spec_marker]
                ++ diagnostics_for sample_client 0
                     (unique_jids [PStr "a"; PStr spec_marker])
                ++ diagnostics_for sample_client 2
                     (unique_jids [PStr "a"; PStr spec_marker]))),
     {| calls := 2 + 2 * List.length (unique_jids [PStr "a"; PStr spec_marker]);
        log := [] ++ queries_for 0 (unique_jids [PStr "a"; PStr spec_marker]) |}).
Proof.
  apply (second_pass_queries_again 0 sample_client 0
           [PStr "a"; PStr spec_marker] "state.single"
           {| calls := 2; log := [] |} 0).
  sample_jobs_answered.
Defined.

(** X22. [run_function] passes the reply of every function through the
    reconciler, state function or not, and whatever the target: a list
    reply with marker lines comes back with the diagnostics appended, and
    the job queries go to the target [minion]. *)
Theorem run_function_reconciles_any_function
    fuel c depth fn arg tgt timeout l st :
  jobs_answered c ->
  dict_get tgt (cmd_reply c (calls st) tgt fn arg) = Some (PList l) ->
  run_function (S fuel) c depth fn arg tgt timeout st
  = (Ok (PList (l ++ diagnostics_for c (S (calls st)) (unique_jids l))),
     {| calls := S (calls st) + 2 * List.length (unique_jids l);
        log := log st ++ EvCmd depth tgt fn arg timeout
                 :: queries_for (S depth) (unique_jids l) |}).
Proof.
  intros Hc Hreply. destruct st as [n lg]. cbn [calls log] in *.
  unfold run_function, run_function_with. rstep. rewrite Hreply.
  rewrite (check_answered _ _ _ _ _ _ Hc). cbn [calls log].
  rewrite <- app_assoc. reflexivity.
Qed.

Lemma run_function_reconciles_any_function_witness :
  run_function 1 stalled_client 0 "state.single" [PStr "core"] "sub_minion" 25
    initial_state
  = (Ok (PList ([PStr "a"; PStr spec_marker]
                ++ diagnostics_for stalled_client 1
                     (unique_jids [PStr "a"; PStr spec_marker]))),
     {| calls := 1 + 2 * List.length (unique_jids [PStr "a"; PStr spec_marker]);
        log := [] ++ EvCmd 0 "sub_minion" "state.single" [PStr "core"] 25
                 :: queries_for 1 (unique_jids [PStr "a"; PStr spec_marker]) |}).
Proof.
  apply (run_function_reconciles_any_function 0 stalled_client 0
           "state.single" [PStr "core"] "sub_minion" 25%Z
           [PStr "a"; PStr spec_marker] initial_state);
    [sample_jobs_answered | reflexivity].
Defined.

(** X23. [run_state] reconciles twice: the reply of [state.single] goes
    through the reconciler inside [run_function] and once more in
    [run_state], so every job of a marker line is queried and killed twice
    and two diagnostic lines are appended for it. Both times the job
    queries go to the target [minion], whatever target [run_state] was
    given. *)
Theorem run_state_reconciles_twice fuel c depth function tgt timeout l st :
  jobs_answered c ->
  dict_get tgt (cmd_reply c (calls st) tgt "state.single" [PStr function])
  = Some (PList l) ->
  let jids := unique_jids l in
  let n := List.length jids in
  run_state (S fuel) c depth function tgt timeout st
  = (Ok (PList (l ++ diagnostics_for c (S (calls st)) jids
                  ++ diagnostics_for c (S (calls st) + 2 * n) jids)),
     {| calls := S (calls st) + 2 * n + 2 * n;
        log := log st
                 ++ EvCmd depth tgt "state.single" [PStr function] timeout
                 :: queries_for (S depth) jids ++ queries_for depth jids |}).
Proof.
  intros Hc Hreply jids n. destruct st as [k lg]. cbn [calls log] in *.
  unfold run_state, run_function, run_function_with. rstep. rewrite Hreply.
  rewrite (check_answered _ _ _ _ _ _ Hc). cbn [calls log]. unfold bind.
  rewrite (check_answered _ _ _ _ _ _ Hc). cbn [calls log].
  rewrite unique_jids_reconciled. subst jids n.
  rewrite <- !app_assoc. reflexivity.
Qed.

Lemma run_state_reconciles_twice_witness :
  run_state 1 stalled_client 0 "pkg.installed" "sub_minion" 25 initial_state
  = (Ok (PList ([PStr "a"; PStr spec_marker]
                ++ diagnostics_for stalled_client 1
                     (unique_jids [PStr "a"; PStr spec_marker])
                ++ diagnostics_for stalled_client
                     (1 + 2 * List.length
                                (unique_jids [PStr "a"; PStr spec_marker]))
                     (unique_jids [PStr "a"; PStr spec_marker]))),
     {| calls := 1 + 2 * List.length (unique_jids [PStr "a"; PStr spec_marker])
                 + 2 * List.length (unique_jids [PStr "a"; PStr spec_marker]);
        log := []
                 ++ EvCmd 0 "sub_minion" "state.single" [PStr "pkg.installed"]
                      25
                 :: queries_for 1 (unique_jids [PStr "a"; PStr spec_marker])
                 ++ queries_for 0 (unique_jids [PStr "a"; PStr spec_marker]) |}).
Proof.
  apply (run_state_reconciles_twice 0 stalled_client 0 "pkg.installed"
           "sub_minion" 25%Z [PStr "a"; PStr spec_marker] initial_state);
    [sample_jobs_answered | reflexivity].
Defined.

(** X24. [run_function] without a value to return: when the reply has no
    entry for the target the test is skipped, and when the entry is [None]
    it is skipped unless the function is one of [file.chown], [file.chgrp]
    and [ssh.recv_known_host], for which [None] is returned. One client call
    is made either way. *)
Theorem run_function_without_a_value fuel c depth fn arg tgt timeout st :
  let orig := cmd_reply c (calls st) tgt fn arg in
  let st' := {| calls := S (calls st);
                log := log st ++ [EvCmd depth tgt fn arg timeout] |} in
  (dict_get tgt orig = None ->
   run_function fuel c depth fn arg tgt timeout st
   = (Raise (SkipTest (no_reply_message c tgt orig)), st'))
  /\ (dict_get tgt orig = Some PNone ->
      run_function fuel c depth fn arg tgt timeout st
      = (if existsb (String.eqb fn) know_to_return_none
         then Ok PNone
         else Raise (SkipTest (none_reply_message c fn tgt orig)), st')).
Proof.
  destruct st as [n l]. cbn [calls log].
  split; intros H; unfold run_function, run_function_with; rstep; rewrite H.
  - reflexivity.
  - destruct (existsb (String.eqb fn) know_to_return_none); cbn [negb];
      [destruct fuel |]; reflexivity.
Qed.

Lemma run_function_without_a_value_witness :
  run_function 0 silent_client 0 "test.ping" [] "minion" 25 initial_state
  = (Raise (SkipTest (no_reply_message silent_client "minion" [])),
     {| calls := 1; log := [EvCmd 0 "minion" "test.ping" [] 25] |})
  /\ run_function 0 none_client 0 "file.chown" [] "minion" 25 initial_state
     = (Ok PNone,
        {| calls := 1; log := [EvCmd 0 "minion" "file.chown" [] 25] |}).
Proof.
  split.
  - apply (proj1 (run_function_without_a_value 0 silent_client 0 "test.ping"
                    [] "minion" 25%Z initial_state)).
    reflexivity.
  - apply (proj2 (run_function_without_a_value 0 none_client 0 "file.chown"
                    [] "minion" 25%Z initial_state)).
    reflexivity.
Defined.

Lemma scan_skips_no_marker c run before : forall rest jids ret_ st,
  forallb no_marker before = true ->
  scan c run (before ++ rest) jids ret_ st = scan c run rest jids ret_ st.
Proof.
  induction before as [|item before IH]; intros rest jids ret_ st H;
    [reflexivity |].
  cbn [forallb] in H. apply andb_true_iff in H as [Hitem Hbefore].
  cbn [app scan].
  destruct item as [| b | z | line | l | d]; try (now apply IH).
  unfold no_marker in Hitem.
  destruct (marker_jid line); [discriminate | now apply IH].
Qed.

(** X25. A job query that gets no reply ends the pass: at the first marker
    line of a list, when the reply to [saltutil.find_job] has no entry for
    [minion], the pass raises the skip of that query; the kill is not sent
    and the list that was to be reconciled is not returned. *)
Theorem unanswered_job_query_skips fuel c depth before item more func st jid :
  forallb no_marker before = true ->
  marker_jid item = Some jid ->
  minion_reply c (calls st) "saltutil.find_job" jid = None ->
  _check_state_return (S fuel) c depth
    (PList (before ++ PStr item :: more)) func st
  = (Raise (SkipTest
              (no_reply_message c "minion"
                 (cmd_reply c (calls st) "minion" "saltutil.find_job"
                    [PStr jid]))),
     {| calls := S (calls st);
        log := log st
                 ++ [EvCmd depth "minion" "saltutil.find_job" [PStr jid] 25] |}).
Proof.
  intros Hb Hm Hr. destruct st as [n l]. cbn [calls log] in *.
  rewrite check_list_unfold. unfold bind.
  rewrite (scan_skips_no_marker _ _ _ _ _ _ _ Hb).
  cbn [scan]. rewrite Hm.
  cbn [jid_in existsb]. unfold bind, run_job, run_function_with. rstep.
  unfold minion_reply in Hr. rewrite Hr. reflexivity.
Qed.

Lemma unanswered_job_query_skips_witness :
  _check_state_return 1 silent_client 0
    (PList ([PStr "a"] ++ PStr spec_marker :: [PStr "b"])) "state.single"
    initial_state
  = (Raise (SkipTest
              (no_reply_message silent_client "minion"
                 (cmd_reply silent_client (calls initial_state) "minion"
                    "saltutil.find_job" [PStr "456"]))),
     {| calls := S (calls initial_state);
        log := log initial_state
                 ++ [EvCmd 0 "minion" "saltutil.find_job" [PStr "456"] 25] |}).
Proof.
  apply (unanswered_job_query_skips 0 silent_client 0 [PStr "a"] spec_marker
           [PStr "b"] "state.single" initial_state "456"); reflexivity.
Defined.

(** X26. [SyndicCase.run_function] makes one client call and returns the
    minion's entry of the reply as it is, [None] and marker lines included;
    a reply without that entry skips the test. On a reply that needs no
    reconciliation [ModuleCase.run_function] does the same. *)
Theorem syndic_run_function_is_plain c depth fn arg st :
  let orig := cmd_reply c (calls st) "minion" fn arg in
  let st' := {| calls := S (calls st);
                log := log st ++ [EvCmd depth "minion" fn arg 25] |} in
  (forall v, dict_get "minion" orig = Some v ->
     syndic_run_function c depth fn arg st = (Ok v, st'))
  /\ (dict_get "minion" orig = None ->
      syndic_run_function c depth fn arg st
      = (Raise (SkipTest (syndic_no_reply_message c orig)), st'))
  /\ (forall fuel v, dict_get "minion" orig = Some v -> settled v = true ->
        run_function fuel c depth fn arg "minion" 25 st
        = syndic_run_function c depth fn arg st).
Proof.
  destruct st as [n l]. cbn [calls log].
  split; [| split].
  - intros v H. unfold syndic_run_function. rstep. now rewrite H.
  - intros H. unfold syndic_run_function. rstep. now rewrite H.
  - intros fuel v H Hs.
    unfold syndic_run_function, run_function, run_function_with. rstep.
    rewrite H. destruct v; try discriminate;
      (rewrite check_settled by exact Hs); reflexivity.
Qed.

Lemma syndic_run_function_is_plain_witness :
  syndic_run_function stalled_client 0 "state.single" [PStr "core"]
    initial_state
  = (Ok (PList [PStr "a"; PStr spec_marker]),
     {| calls := 1;
        log := [EvCmd 0 "minion" "state.single" [PStr "core"] 25] |})
  /\ syndic_run_function silent_client 0 "test.ping" [] initial_state
     = (Raise (SkipTest (syndic_no_reply_message silent_client [])),
        {| calls := 1; log := [EvCmd 0 "minion" "test.ping" [] 25] |})
  /\ run_function 0 sample_client 0 "saltutil.find_job" [PStr "456"]
       "minion" 25 initial_state
     = syndic_run_function sample_client 0 "saltutil.find_job" [PStr "456"]
         initial_state.
Proof.
  split; [| split].
  - apply (proj1 (syndic_run_function_is_plain stalled_client 0
                    "state.single" [PStr "core"] initial_state)).
    reflexivity.
  - apply (proj1 (proj2 (syndic_run_function_is_plain silent_client 0
                           "test.ping" [] initial_state))).
    reflexivity.
  - apply (proj2 (proj2 (syndic_run_function_is_plain sample_client 0
                           "saltutil.find_job" [PStr "456"] initial_state))
             0 (PStr "456")); reflexivity.
Defined.

End ReconcilerExtras.
